(** * Tracertool3: the IPC signal/position state machine

    A shallow embedding of [src/ipc_server/ipc_strategy.py] (class
    [IPCStrategy]), of [src/ipc_server/simple_test_strategy.py] (class
    [SimpleTestStrategy]) and of what [src/ipc_server/ipc_ui_server.py]
    (class [IPCUIServer]) does with its strategy, with the properties of the
    specification's section 8 and further properties of the code stated
    over it.

    Conventions of the embedding.
    - A Python [float] is the rational it stands for ([Q]); NaN, the
      infinities and overflow are not represented.  [binary64] rounds a
      rational to the nearest IEEE 754 double, ties to even.  The handlers
      of [IPC] and the price arithmetic of [Test] compute on the rationals
      without rounding, and their numeric results are compared with [==]
      ([Qeq]).  Where a rounding decides what the code does, every operation
      is rounded as the interpreter rounds it: the threshold test of
      [check_signal_trigger] ([IPC64]) and the offline window of
      [SimpleTestStrategy] ([_is_in_offline_window]).
    - A [datetime] is an instant: microseconds since the epoch ([Z]).  Every
      handler receives the reading [now] of [datetime.now(UTC)] as an
      argument; a [timedelta] is a number of microseconds.
    - A JSON dict ([tick_data], [prediction]) is a [gmap string pyval].
    - [self.broadcast] and [self.log] append to two output lists; the
      instance, the events handed to [broadcast] and the log lines make up
      the [World] the handlers run in.
    - Exceptions are values of [exn]; a handler is a computation in the
      monad [M], which keeps the mutations made before a [raise]. *)

From Stdlib Require Import ZArith QArith Qabs Qround Qpower Lqa Ascii String List Bool Lia.
From stdpp Require Import base option gmap strings.
Import ListNotations.

Open Scope Z_scope.

(** ** Python values and the library functions the code calls *)

(** What [json.loads] can put under a key.  A JSON array or object is kept
    only up to emptiness, the one thing the code can observe of it. *)
Inductive pyval :=
| PyNone
| PyBool (b : bool)
| PyInt (n : Z)
| PyFloat (x : Q)
| PyStr (s : string)
| PyContainer (empty : bool).

Inductive exn :=
| ValueError
| TypeError
| AttributeError
| ZeroDivisionError.

(** The parts of the Python runtime that are tables or parsers of their own:
    [float(s)] on a [str], [datetime.fromisoformat] (an instant in
    microseconds since the epoch, a naive string resolved as Python does),
    and the UTC offset, in seconds, of [ZoneInfo("America/New_York")] at an
    instant.  [None] is a [ValueError]. *)
Class Runtime := {
  float_of_str : string → option Q;
  fromisoformat : string → option Z;
  ny_utcoffset : Z → Z;
}.

(** [d.get(k, default)] *)
Definition dict_get (d : gmap string pyval) (k : string) (default : pyval) : pyval :=
  match d !! k with
  | Some v => v
  | None => default
  end.

Definition Qltb (x y : Q) : bool := negb (Qle_bool y x).

Definition Qnonzero (x : Q) : bool := negb (Qeq_bool x 0).

(** [bool(v)] *)
Definition truthy (v : pyval) : bool :=
  match v with
  | PyNone => false
  | PyBool b => b
  | PyInt n => negb (n =? 0)
  | PyFloat x => Qnonzero x
  | PyStr s => negb (String.eqb s "")
  | PyContainer empty => negb empty
  end.

(** [float(v)] *)
Definition py_float {RT : Runtime} (v : pyval) : exn + Q :=
  match v with
  | PyNone => inl TypeError
  | PyBool b => inr (if b then 1%Q else 0%Q)
  | PyInt n => inr (inject_Z n)
  | PyFloat x => inr x
  | PyStr s =>
      match float_of_str s with
      | Some x => inr x
      | None => inl ValueError
      end
  | PyContainer _ => inl TypeError
  end.

(** [x / y] on floats *)
Definition py_div (x y : Q) : exn + Q :=
  if Qnonzero y then inr (x / y)%Q else inl ZeroDivisionError.

(** *** Binary64 arithmetic

    A finite [float] is [m * 2 ^ e] with [|m| < 2 ^ 53] and [-1074 <= e].
    An operation returns the float nearest to its exact result, ties going
    to the even [m]. *)

(** [floor (log2 x)] of a positive rational *)
Definition Qlog2 (x : Q) : Z :=
  let e := Z.log2 (Qnum x) - Z.log2 (Z.pos (Qden x)) in
  if Qle_bool (2 ^ e) x then e else e - 1.

(** To the nearest integer, ties to even, for [0 <= x]. *)
Definition round_half_even (x : Q) : Z :=
  let m := Qfloor x in
  match (x - inject_Z m ?= 1 # 2)%Q with
  | Lt => m
  | Gt => m + 1
  | Eq => if Z.even m then m else m + 1
  end.

(** The float nearest to [x]: 53 significant bits, or a multiple of
    [2 ^ -1074] below the normal range.  It is the value of a literal and of
    a JSON number, of [float(n)] on an [int], and the rounding of every
    arithmetic result. *)
Definition binary64 (x : Q) : Q :=
  if Qeq_bool x 0 then 0%Q
  else
    let e := Z.max (Qlog2 (Qabs x) - 52) (-1074) in
    let m := round_half_even (Qabs x / 2 ^ e) in
    Qred ((if Qle_bool 0 x then inject_Z m else - inject_Z m) * 2 ^ e).

(** What [binary64] does to a positive [x]: the exponent of the last place
    and the rounded value. *)
Definition expo (x : Q) : Z := Z.max (Qlog2 x - 52) (-1074).

Definition rnd (x : Q) : Q := (inject_Z (round_half_even (x / 2 ^ expo x)) * 2 ^ expo x)%Q.

(** [x + y] and [x - y] in float arithmetic.  An operand that is not a
    float already (an [int] parameter) is converted first. *)
Definition float_add (x y : Q) : Q := binary64 (binary64 x + binary64 y).

Definition float_sub (x y : Q) : Q := binary64 (binary64 x - binary64 y).

Definition float_mul (x y : Q) : Q := binary64 (binary64 x * binary64 y).

(** [int(x)]: truncation towards zero *)
Definition py_int (x : Q) : Z := Z.quot (Qnum x) (Z.pos (Qden x)).

(** [float(v)] as a float *)
Definition py_float64 {RT : Runtime} (v : pyval) : exn + Q :=
  match py_float v with
  | inr x => inr (binary64 x)
  | inl e => inl e
  end.

(** [s.replace("Z", "+00:00")] *)
Fixpoint replace_Z (s : string) : string :=
  match s with
  | EmptyString => EmptyString
  | String c rest =>
      if Ascii.eqb c "Z"%char then ("+00:00" ++ replace_Z rest)%string
      else String c (replace_Z rest)
  end.

(** [datetime.fromisoformat(v.replace("Z", "+00:00"))]; only a [str] has
    [replace]. *)
Definition parse_iso_time {RT : Runtime} (v : pyval) : exn + Z :=
  match v with
  | PyStr s =>
      match fromisoformat (replace_Z s) with
      | Some t => inr t
      | None => inl ValueError
      end
  | _ => inl AttributeError
  end.

Definition usec_per_sec : Z := 1000000.
Definition usec_per_hour : Z := 3600 * usec_per_sec.
Definition usec_per_day : Z := 24 * usec_per_hour.

(** [timedelta(hours=h)] for a whole number of hours *)
Definition timedelta_hours (h : Z) : Z := h * usec_per_hour.

(** [t.astimezone(ZoneInfo("America/New_York"))] as local wall-clock
    microseconds, then [.weekday()] (Monday is 0; 1970-01-01 was a Thursday)
    and [.hour]. *)
Definition ny_local {RT : Runtime} (t : Z) : Z := t + ny_utcoffset t * usec_per_sec.

Definition weekday (local : Z) : Z := (local / usec_per_day + 3) mod 7.

Definition hour (local : Z) : Z := (local mod usec_per_day) / usec_per_hour.

(** [t.minute] and [t.second] of a UTC instant *)
Definition minute (t : Z) : Z := (t mod usec_per_hour) / (60 * usec_per_sec).

Definition second (t : Z) : Z := (t mod (60 * usec_per_sec)) / usec_per_sec.

(** ** The error-and-output monad *)

Module Monad.
(** A computation over a world [W]: the world afterwards, and a value or
    the exception raised. *)
Definition M (W A : Type) : Type := W → W * (exn + A).

Definition ret {W A} (a : A) : M W A := λ w, (w, inr a).

Definition raise {W A} (e : exn) : M W A := λ w, (w, inl e).

Definition bind {W A B} (m : M W A) (k : A → M W B) : M W B :=
  λ w, match m w with
       | (w', inr a) => k a w'
       | (w', inl e) => (w', inl e)
       end.

(** lift a fallible pure expression *)
Definition lift {W A} (r : exn + A) : M W A :=
  match r with
  | inr a => ret a
  | inl e => raise e
  end.

Definition modify {W} (f : W → W) : M W unit := λ w, (f w, inr tt).

(** [try: body  except <caught> as e: handler(e)]; an exception outside
    [caught] goes on. *)
Definition try_except {W A} (caught : exn → bool) (body : M W A)
    (handler : exn → M W A) : M W A :=
  λ w, match body w with
       | (w', inr a) => (w', inr a)
       | (w', inl e) => if caught e then handler e w' else (w', inl e)
       end.

(** [except Exception] *)
Definition Exception (e : exn) : bool := true.
End Monad.
Import Monad.

Notation "'let*' x ':=' m 'in' k" := (bind m (λ x, k))
  (at level 10, x pattern, m at level 100, k at level 200).
Notation "m '>>' k" := (bind m (λ _, k))
  (at level 65, right associativity, only parsing).

(** ** Data shared by the two strategies *)

Inductive Direction := LONG | SHORT.

(** The [strategy_state] dict: [{}] at construction, [{"seq": n}] without a
    position, the six-key dict with one. *)
Inductive StrategyState :=
| NoState
| EmptyState (seq : Z)
| FullState (SL TP ENTRY TSA : option Q) (TRAILING_STOP_ACTIVE : bool) (seq : Z).

(** [state.get("seq")] *)
Definition state_seq (st : StrategyState) : option Z :=
  match st with
  | NoState => None
  | EmptyState n => Some n
  | FullState _ _ _ _ _ n => Some n
  end.

Inductive PositionTag := OPEN | UPDATE | CLOSE.

Inductive Reason :=
| SIGNAL_DETECTED
| POSITION_TIME_LIMIT_HIT
| STOP_LOSS_HIT
| TRAILING_STOP_UPDATED
| TRAILING_STOP_ACTIVATED.

(** The ["event_data"] payload, one constructor per shape the code builds.
    Its ["strategy_state"] entry is the very dict of the enclosing event and
    is not repeated. *)
Inductive EventData :=
| OpenData (signal_direction : Direction)
    (entry_price predicted_price stop_loss_price : Q)
    (trailing_activation_price : option Q)
| TimeLimitData (direction : Direction)
    (entry_price : option Q) (current_price pnl pnl_percentage : Q)
| TrailingData (direction : Direction)
    (entry_price stop_loss_price peak_price : option Q) (current_price : Q)
| CloseData (direction : Direction)
    (entry_price stop_loss_price current_price pnl pnl_percentage : Q).

(** A ["strategy_event"] message.  [event_id] is the f-string
    [{instance_name}_{event_counter}_{milliseconds}]. *)
Record Event := {
  event_id : string * Z * Z;
  event_time : Z;
  ev_instance_name : string;
  position : PositionTag;
  reason : Reason;
  ev_strategy_state : StrategyState;
  event_data : EventData;
}.

Definition mk_event_id (name : string) (counter now : Z) : string * Z * Z :=
  (name, counter, now / 1000).

(** ** The world a handler runs in *)

Section World.
Context {I L : Type}.

(** The instance ([self]), the messages handed to [self.broadcast] and the
    lines handed to [self.log], oldest first. *)
Record World := {
  self : I;
  broadcasts : list Event;
  logs : list (string * L);
}.

Definition get_self : M World I := λ w, (w, inr (self w)).

Definition update_self (f : I → I) : M World unit :=
  modify (λ w, {| self := f (self w); broadcasts := broadcasts w; logs := logs w |}).

Definition broadcast (e : Event) : M World unit :=
  modify (λ w, {| self := self w; broadcasts := broadcasts w ++ [e]; logs := logs w |}).

Definition log (level : string) (msg : L) : M World unit :=
  modify (λ w, {| self := self w; broadcasts := broadcasts w; logs := logs w ++ [(level, msg)] |}).

Definition fresh (s : I) : World :=
  {| self := s; broadcasts := []; logs := [] |}.

(** One call: the instance afterwards, what was broadcast, what was
    logged, the value returned, or the exception that left the call. *)
Record Outcome {A : Type} := {
  after : I;
  emitted : list Event;
  logged : list (string * L);
  result : exn + A;
}.

Definition call {A} (m : M World A) (s : I) : @Outcome A :=
  let r := m (fresh s) in
  {| after := self r.1;
     emitted := broadcasts r.1;
     logged := logs r.1;
     result := r.2 |}.
End World.
Arguments World : clear implicits.
Arguments Outcome : clear implicits.

(** ** [IPCStrategy] (ipc_strategy.py) *)

Module IPC.

(** [active_signal["prediction_data"]] *)
Record PredictionData := {
  prediction_price : Q;
  pd_predicted_price : Q;
  prediction_time : pyval;
}.

(** The [active_signal] dict: the Position. *)
Record Signal := {
  direction : Direction;
  entry_price : Q;
  stop_loss : Q;
  target : Q;
  trailing_activation_price : Q;
  entry_time : Z;
  prediction_data : PredictionData;
}.

(** [active_signal["stop_loss"] = v] *)
Definition set_stop_loss (v : Q) (sig : Signal) : Signal :=
  {| direction := direction sig;
     entry_price := entry_price sig;
     stop_loss := v;
     target := target sig;
     trailing_activation_price := trailing_activation_price sig;
     entry_time := entry_time sig;
     prediction_data := prediction_data sig |}.

(** The keyword parameters of [__init__], never assigned afterwards. *)
Record Params := {
  delta : Q;
  initial_stop_loss_points : Q;
  trailing_activation_offset : Q;
  trailing_stop_distance : Q;
  max_position_duration_hours : Z;
  session_filter : bool;
}.

(** The defaults of [params.get]. *)
Definition default_params : Params :=
  {| delta := 500;
     initial_stop_loss_points := 2000;
     trailing_activation_offset := 1000;
     trailing_stop_distance := 900;
     max_position_duration_hours := 2;
     session_filter := true |}.

Record IPCStrategy := {
  instance_name : string;
  event_counter : Z;
  params : Params;
  active_signal : option Signal;
  trailing_stop_active : bool;
  peak_price : option Q;
  strategy_state : StrategyState;
  _state_sequence : Z;
}.

(** [IPCStrategy.__init__] *)
Definition init (name : string) (p : Params) : IPCStrategy :=
  {| instance_name := name;
     event_counter := 0;
     params := p;
     active_signal := None;
     trailing_stop_active := false;
     peak_price := None;
     strategy_state := NoState;
     _state_sequence := 0 |}.

Definition set_event_counter (v : Z) (s : IPCStrategy) : IPCStrategy :=
  {| instance_name := instance_name s; event_counter := v; params := params s;
     active_signal := active_signal s; trailing_stop_active := trailing_stop_active s;
     peak_price := peak_price s; strategy_state := strategy_state s;
     _state_sequence := _state_sequence s |}.

Definition set_active_signal (v : option Signal) (s : IPCStrategy) : IPCStrategy :=
  {| instance_name := instance_name s; event_counter := event_counter s; params := params s;
     active_signal := v; trailing_stop_active := trailing_stop_active s;
     peak_price := peak_price s; strategy_state := strategy_state s;
     _state_sequence := _state_sequence s |}.

Definition set_trailing_stop_active (v : bool) (s : IPCStrategy) : IPCStrategy :=
  {| instance_name := instance_name s; event_counter := event_counter s; params := params s;
     active_signal := active_signal s; trailing_stop_active := v;
     peak_price := peak_price s; strategy_state := strategy_state s;
     _state_sequence := _state_sequence s |}.

Definition set_peak_price (v : option Q) (s : IPCStrategy) : IPCStrategy :=
  {| instance_name := instance_name s; event_counter := event_counter s; params := params s;
     active_signal := active_signal s; trailing_stop_active := trailing_stop_active s;
     peak_price := v; strategy_state := strategy_state s;
     _state_sequence := _state_sequence s |}.

Definition set_strategy_state (v : StrategyState) (s : IPCStrategy) : IPCStrategy :=
  {| instance_name := instance_name s; event_counter := event_counter s; params := params s;
     active_signal := active_signal s; trailing_stop_active := trailing_stop_active s;
     peak_price := peak_price s; strategy_state := v;
     _state_sequence := _state_sequence s |}.

Definition set_state_sequence (v : Z) (s : IPCStrategy) : IPCStrategy :=
  {| instance_name := instance_name s; event_counter := event_counter s; params := params s;
     active_signal := active_signal s; trailing_stop_active := trailing_stop_active s;
     peak_price := peak_price s; strategy_state := strategy_state s;
     _state_sequence := v |}.

(** The messages given to [self.log], by the f-string they come from. *)
Inductive LogMsg :=
| SignalGenerated (d : Direction) (entry sl tgt : Q)
| ErrorCheckingSignalTrigger (e : exn)
| TimeLimitHit (d : Direction) (pnl pnl_pct : Q)
| TrailingStopActivated (peak new_sl : Q)
| PositionClosed (r : Reason) (d : Direction) (exit_price pnl pnl_pct : Q)
| ErrorInPositionManagement (e : exn).

(** A computation over an [IPCStrategy] instance. *)
Abbreviation Handler := (M (World IPCStrategy LogMsg)).

(** The dict [_update_strategy_state] builds for an instance. *)
Definition snapshot (s : IPCStrategy) : StrategyState :=
  match active_signal s with
  | None => EmptyState (_state_sequence s)
  | Some sig =>
      FullState (Some (stop_loss sig)) (Some (target sig)) (Some (entry_price sig))
        (Some (trailing_activation_price sig)) (trailing_stop_active s)
        (_state_sequence s)
  end.

Definition _update_strategy_state : Handler unit :=
  update_self (λ s, set_state_sequence (_state_sequence s + 1) s) >>
  update_self (λ s, set_strategy_state (snapshot s) s).

(** [self.event_counter += 1] and the [event_id] f-string *)
Definition next_event_id (now : Z) : Handler (string * Z * Z) :=
  update_self (λ s, set_event_counter (event_counter s + 1) s) >>
  let* s := get_self in
  ret (mk_event_id (instance_name s) (event_counter s) now).

Definition mk_event (s : IPCStrategy) (id : string * Z * Z) (now : Z)
    (pos : PositionTag) (r : Reason) (data : EventData) : Event :=
  {| event_id := id;
     event_time := now;
     ev_instance_name := instance_name s;
     position := pos;
     reason := r;
     ev_strategy_state := strategy_state s;
     event_data := data |}.

(** [pnl] and [pnl_pct] as both closing paths compute them *)
Definition pnl_of (d : Direction) (entry_price price : Q) : Q :=
  match d with
  | LONG => (price - entry_price)%Q
  | SHORT => (entry_price - price)%Q
  end.

Definition pnl_pct_of (pnl entry_price : Q) : exn + Q :=
  match py_div pnl entry_price with
  | inr r => inr (r * 100)%Q
  | inl e => inl e
  end.

Section Handlers.
Context {RT : Runtime}.

Definition check_signal_trigger (now : Z) (prediction tick_data : gmap string pyval) : Handler unit :=
  let* s := get_self in
  match active_signal s with
  | Some _ => ret tt
  | None =>
    try_except Exception
      (let* current_price_pred := lift (py_float (dict_get prediction "prediction_price" (PyInt 0))) in
       let* predicted_price := lift (py_float (dict_get prediction "predicted_price" (PyInt 0))) in
       let prediction_time_str := dict_get prediction "prediction_time" (PyStr "") in
       if negb (truthy prediction_time_str) then ret tt
       else
       let* prediction_time := lift (parse_iso_time prediction_time_str) in
       let* current_tick_price := lift (py_float (dict_get tick_data "p" (PyInt 0))) in
       let price_diff := (predicted_price - current_price_pred)%Q in
       if Qle_bool (Qabs price_diff) (delta (params s)) then ret tt
       else
       let ny_time := ny_local prediction_time in
       if session_filter (params s)
          && ((5 <=? weekday ny_time) || (hour ny_time <? 8) || (11 <=? hour ny_time))
       then ret tt
       else
       let direction := if Qltb 0 price_diff then LONG else SHORT in
       let entry_price := current_tick_price in
       let stop_loss :=
         match direction with
         | LONG => (entry_price - initial_stop_loss_points (params s))%Q
         | SHORT => (entry_price + initial_stop_loss_points (params s))%Q
         end in
       let trailing_activation :=
         match direction with
         | LONG => (entry_price + trailing_activation_offset (params s))%Q
         | SHORT => (entry_price - trailing_activation_offset (params s))%Q
         end in
       update_self (set_active_signal (Some
         {| direction := direction;
            entry_price := entry_price;
            stop_loss := stop_loss;
            target := predicted_price;
            trailing_activation_price := trailing_activation;
            entry_time := now;
            prediction_data :=
              {| prediction_price := current_price_pred;
                 pd_predicted_price := predicted_price;
                 prediction_time := prediction_time_str |} |})) >>
       update_self (set_peak_price (Some entry_price)) >>
       update_self (set_trailing_stop_active false) >>
       log "INFO" (SignalGenerated direction entry_price stop_loss predicted_price) >>
       let* event_id := next_event_id now in
       _update_strategy_state >>
       let* s' := get_self in
       broadcast (mk_event s' event_id now OPEN SIGNAL_DETECTED
         (OpenData direction entry_price predicted_price stop_loss (Some trailing_activation))))
      (λ e, log "ERROR" (ErrorCheckingSignalTrigger e))
  end.

Definition close_position (now : Z) (exit_price : Q) (reason : Reason) : Handler unit :=
  let* s := get_self in
  match active_signal s with
  | None => ret tt
  | Some sig =>
      let direction := direction sig in
      let entry_price := entry_price sig in
      let stop_loss := stop_loss sig in
      let pnl := pnl_of direction entry_price exit_price in
      let* pnl_pct := lift (pnl_pct_of pnl entry_price) in
      log "INFO" (PositionClosed reason direction exit_price pnl pnl_pct) >>
      let* event_id := next_event_id now in
      update_self (set_active_signal None) >>
      update_self (set_trailing_stop_active false) >>
      update_self (set_peak_price None) >>
      _update_strategy_state >>
      let* s' := get_self in
      broadcast (mk_event s' event_id now CLOSE reason
        (CloseData direction entry_price stop_loss exit_price pnl pnl_pct))
  end.

(** [self.peak_price] in a comparison with a float: [None] is a [TypeError]. *)
Definition peak_of (s : IPCStrategy) : exn + Q :=
  match peak_price s with
  | Some p => inr p
  | None => inl TypeError
  end.

(** The body shared by the four trailing branches: move the peak to the
    tick price, put the stop [trailing_stop_distance] behind it, stamp and
    broadcast an [UPDATE]. *)
Definition trail_to (now : Z) (sig : Signal) (current_price : Q)
    (activating : bool) : Handler unit :=
  let* s := get_self in
  (if activating then update_self (set_trailing_stop_active true) else ret tt) >>
  update_self (set_peak_price (Some current_price)) >>
  let new_sl :=
    match direction sig with
    | LONG => (current_price - trailing_stop_distance (params s))%Q
    | SHORT => (current_price + trailing_stop_distance (params s))%Q
    end in
  update_self (set_active_signal (Some (set_stop_loss new_sl sig))) >>
  (if activating then log "INFO" (TrailingStopActivated current_price new_sl) else ret tt) >>
  let* event_id := next_event_id now in
  _update_strategy_state >>
  let* s' := get_self in
  broadcast (mk_event s' event_id now UPDATE
    (if activating then TRAILING_STOP_ACTIVATED else TRAILING_STOP_UPDATED)
    (TrailingData (direction sig) (Some (entry_price sig)) (Some new_sl)
       (Some current_price) current_price)).

Definition check_position_management (now : Z) (tick_data : gmap string pyval) : Handler unit :=
  let* s := get_self in
  match active_signal s with
  | None => ret tt
  | Some sig =>
    try_except Exception
      (let* current_price := lift (py_float (dict_get tick_data "p" (PyInt 0))) in
       let direction := direction sig in
       let entry_price := entry_price sig in
       let stop_loss := stop_loss sig in
       (* the stored isoformat string parses back to the instant it was made from *)
       let time_since_entry := now - entry_time sig in
       if timedelta_hours (max_position_duration_hours (params s)) <? time_since_entry then
         let pnl := pnl_of direction entry_price current_price in
         let* pnl_pct := lift (pnl_pct_of pnl entry_price) in
         log "INFO" (TimeLimitHit direction pnl pnl_pct) >>
         let* event_id := next_event_id now in
         update_self (set_active_signal None) >>
         update_self (set_trailing_stop_active false) >>
         _update_strategy_state >>
         let* s' := get_self in
         broadcast (mk_event s' event_id now CLOSE POSITION_TIME_LIMIT_HIT
           (TimeLimitData direction (Some entry_price) current_price pnl pnl_pct))
       else
         match direction with
         | LONG =>
             if Qle_bool current_price stop_loss then
               close_position now current_price STOP_LOSS_HIT
             else if trailing_stop_active s then
               let* peak := lift (peak_of s) in
               if Qltb peak current_price then trail_to now sig current_price false
               else ret tt
             else if Qle_bool (trailing_activation_price sig) current_price then
               trail_to now sig current_price true
             else ret tt
         | SHORT =>
             if Qle_bool stop_loss current_price then
               close_position now current_price STOP_LOSS_HIT
             else if trailing_stop_active s then
               let* peak := lift (peak_of s) in
               if Qltb current_price peak then trail_to now sig current_price false
               else ret tt
             else if Qle_bool current_price (trailing_activation_price sig) then
               trail_to now sig current_price true
             else ret tt
         end)
      (λ e, log "ERROR" (ErrorInPositionManagement e))
  end.

(** [get_strategy_state]: a copy of the dict *)
Definition get_strategy_state (s : IPCStrategy) : StrategyState := strategy_state s.

(** *** Driving the instance

    The server calls [check_position_management] for every tick and
    [check_signal_trigger] for a new prediction with the latest tick.  A
    handler runs to its end before another starts: every mutation precedes
    the one [await] that can suspend. *)

Inductive Call :=
| CheckSignalTrigger (now : Z) (prediction tick_data : gmap string pyval)
| CheckPositionManagement (now : Z) (tick_data : gmap string pyval).

Definition handler (c : Call) : Handler unit :=
  match c with
  | CheckSignalTrigger now prediction tick_data => check_signal_trigger now prediction tick_data
  | CheckPositionManagement now tick_data => check_position_management now tick_data
  end.

Definition step (c : Call) (s : IPCStrategy) : Outcome IPCStrategy LogMsg unit :=
  call (handler c) s.

(** The instance after a sequence of calls. *)
Fixpoint run (calls : list Call) (s : IPCStrategy) : IPCStrategy :=
  match calls with
  | [] => s
  | c :: rest => run rest (after (step c s))
  end.

(** Everything broadcast during a sequence of calls, in order. *)
Fixpoint trace (calls : list Call) (s : IPCStrategy) : list Event :=
  match calls with
  | [] => []
  | c :: rest => emitted (step c s) ++ trace rest (after (step c s))
  end.

End Handlers.
End IPC.

(** ** [IPCStrategy.check_signal_trigger] in float arithmetic

    The method of [IPC] once more, with what the rationals leave out: the
    three prices are the floats [float(...)] returns, the difference, the
    stop and the activation price are rounded, and the three readings of
    [datetime.now(UTC)] (for ["entry_time"], for the milliseconds of the
    event id and for ["event_time"]) are three arguments.  A parameter is
    read as the float nearest to it, which leaves a float and an [int] below
    [2 ** 53] as they are. *)

Module IPC64.
Import IPC.

(** [int(t.timestamp() * 1000)]; [timestamp] is [total_seconds] since the
    epoch. *)
Definition timestamp_ms (t : Z) : Z :=
  py_int (float_mul (binary64 (inject_Z t / inject_Z usec_per_sec)) 1000).

Section Handlers.
Context {RT : Runtime}.

Definition check_signal_trigger (t_entry t_id t_event : Z)
    (prediction tick_data : gmap string pyval) : Handler unit :=
  let* s := get_self in
  match active_signal s with
  | Some _ => ret tt
  | None =>
    try_except Exception
      (let* current_price_pred :=
         lift (py_float64 (dict_get prediction "prediction_price" (PyInt 0))) in
       let* predicted_price :=
         lift (py_float64 (dict_get prediction "predicted_price" (PyInt 0))) in
       let prediction_time_str := dict_get prediction "prediction_time" (PyStr "") in
       if negb (truthy prediction_time_str) then ret tt
       else
       let* prediction_time := lift (parse_iso_time prediction_time_str) in
       let* current_tick_price := lift (py_float64 (dict_get tick_data "p" (PyInt 0))) in
       let price_diff := float_sub predicted_price current_price_pred in
       if Qle_bool (Qabs price_diff) (binary64 (delta (params s))) then ret tt
       else
       let ny_time := ny_local prediction_time in
       if session_filter (params s)
          && ((5 <=? weekday ny_time) || (hour ny_time <? 8) || (11 <=? hour ny_time))
       then ret tt
       else
       let direction := if Qltb 0 price_diff then LONG else SHORT in
       let entry_price := current_tick_price in
       let stop_loss :=
         match direction with
         | LONG => float_sub entry_price (initial_stop_loss_points (params s))
         | SHORT => float_add entry_price (initial_stop_loss_points (params s))
         end in
       let trailing_activation :=
         match direction with
         | LONG => float_add entry_price (trailing_activation_offset (params s))
         | SHORT => float_sub entry_price (trailing_activation_offset (params s))
         end in
       update_self (set_active_signal (Some
         {| direction := direction;
            entry_price := entry_price;
            stop_loss := stop_loss;
            target := predicted_price;
            trailing_activation_price := trailing_activation;
            entry_time := t_entry;
            prediction_data :=
              {| prediction_price := current_price_pred;
                 pd_predicted_price := predicted_price;
                 prediction_time := prediction_time_str |} |})) >>
       update_self (set_peak_price (Some entry_price)) >>
       update_self (set_trailing_stop_active false) >>
       log "INFO" (SignalGenerated direction entry_price stop_loss predicted_price) >>
       update_self (λ s, set_event_counter (event_counter s + 1) s) >>
       let* s1 := get_self in
       let event_id := (instance_name s1, event_counter s1, timestamp_ms t_id) in
       _update_strategy_state >>
       let* s' := get_self in
       broadcast (mk_event s' event_id t_event OPEN SIGNAL_DETECTED
         (OpenData direction entry_price predicted_price stop_loss (Some trailing_activation))))
      (λ e, log "ERROR" (ErrorCheckingSignalTrigger e))
  end.

End Handlers.
End IPC64.

(** ** [SimpleTestStrategy] (simple_test_strategy.py) *)

Module Test.

(** The keyword parameters of [__init__] the modelled methods read. *)
Record Params := {
  initial_stop_loss_points : Q;
  trailing_activation_offset : Q;
  trailing_stop_distance : Q;
  direction : Direction;
  simulate_offline : bool;
  offline_start_delay : Q;
  offline_duration : Q;
}.

(** The defaults of [params.get]. *)
Definition default_params : Params :=
  {| initial_stop_loss_points := 2000;
     trailing_activation_offset := 1000;
     trailing_stop_distance := 900;
     direction := LONG;
     simulate_offline := true;
     offline_start_delay := 10;
     offline_duration := 10 |}.

(** The position fields, which [_reset_strategy_state] clears together. *)
Record Position := {
  entry_time : option Z;
  entry_price : option Q;
  stop_loss_price : option Q;
  target_price : option Q;
  trailing_activation_price : option Q;
  trailing_stop_active : bool;
  peak_price : option Q;
}.

Definition no_position : Position :=
  {| entry_time := None; entry_price := None; stop_loss_price := None;
     target_price := None; trailing_activation_price := None;
     trailing_stop_active := false; peak_price := None |}.

Record SimpleTestStrategy := {
  instance_name : string;
  event_counter : Z;
  params : Params;
  is_running : bool;
  start_time : option Z;
  current_price : option Q;
  pos : Position;
  strategy_state : StrategyState;
  _state_sequence : Z;
  _offline_frozen_state : option StrategyState;
  (* the two attributes tested with hasattr *)
  _logged_offline_start : bool;
  _logged_suppression : bool;
}.

(** [SimpleTestStrategy.__init__] *)
Definition init (name : string) (p : Params) : SimpleTestStrategy :=
  {| instance_name := name; event_counter := 0; params := p;
     is_running := false; start_time := None; current_price := None;
     pos := no_position; strategy_state := NoState; _state_sequence := 0;
     _offline_frozen_state := None;
     _logged_offline_start := false; _logged_suppression := false |}.

Definition set_event_counter (v : Z) (s : SimpleTestStrategy) : SimpleTestStrategy :=
  {| instance_name := instance_name s; event_counter := v; params := params s;
     is_running := is_running s; start_time := start_time s;
     current_price := current_price s; pos := pos s;
     strategy_state := strategy_state s; _state_sequence := _state_sequence s;
     _offline_frozen_state := _offline_frozen_state s;
     _logged_offline_start := _logged_offline_start s;
     _logged_suppression := _logged_suppression s |}.

Definition set_running (v : bool) (t : option Z) (s : SimpleTestStrategy) : SimpleTestStrategy :=
  {| instance_name := instance_name s; event_counter := event_counter s; params := params s;
     is_running := v; start_time := t;
     current_price := current_price s; pos := pos s;
     strategy_state := strategy_state s; _state_sequence := _state_sequence s;
     _offline_frozen_state := _offline_frozen_state s;
     _logged_offline_start := _logged_offline_start s;
     _logged_suppression := _logged_suppression s |}.

Definition set_current_price (v : option Q) (s : SimpleTestStrategy) : SimpleTestStrategy :=
  {| instance_name := instance_name s; event_counter := event_counter s; params := params s;
     is_running := is_running s; start_time := start_time s;
     current_price := v; pos := pos s;
     strategy_state := strategy_state s; _state_sequence := _state_sequence s;
     _offline_frozen_state := _offline_frozen_state s;
     _logged_offline_start := _logged_offline_start s;
     _logged_suppression := _logged_suppression s |}.

Definition set_pos (v : Position) (s : SimpleTestStrategy) : SimpleTestStrategy :=
  {| instance_name := instance_name s; event_counter := event_counter s; params := params s;
     is_running := is_running s; start_time := start_time s;
     current_price := current_price s; pos := v;
     strategy_state := strategy_state s; _state_sequence := _state_sequence s;
     _offline_frozen_state := _offline_frozen_state s;
     _logged_offline_start := _logged_offline_start s;
     _logged_suppression := _logged_suppression s |}.

Definition set_strategy_state (v : StrategyState) (s : SimpleTestStrategy) : SimpleTestStrategy :=
  {| instance_name := instance_name s; event_counter := event_counter s; params := params s;
     is_running := is_running s; start_time := start_time s;
     current_price := current_price s; pos := pos s;
     strategy_state := v; _state_sequence := _state_sequence s;
     _offline_frozen_state := _offline_frozen_state s;
     _logged_offline_start := _logged_offline_start s;
     _logged_suppression := _logged_suppression s |}.

Definition set_state_sequence (v : Z) (s : SimpleTestStrategy) : SimpleTestStrategy :=
  {| instance_name := instance_name s; event_counter := event_counter s; params := params s;
     is_running := is_running s; start_time := start_time s;
     current_price := current_price s; pos := pos s;
     strategy_state := strategy_state s; _state_sequence := v;
     _offline_frozen_state := _offline_frozen_state s;
     _logged_offline_start := _logged_offline_start s;
     _logged_suppression := _logged_suppression s |}.

Definition set_offline_frozen_state (v : option StrategyState) (s : SimpleTestStrategy)
    : SimpleTestStrategy :=
  {| instance_name := instance_name s; event_counter := event_counter s; params := params s;
     is_running := is_running s; start_time := start_time s;
     current_price := current_price s; pos := pos s;
     strategy_state := strategy_state s; _state_sequence := _state_sequence s;
     _offline_frozen_state := v;
     _logged_offline_start := _logged_offline_start s;
     _logged_suppression := _logged_suppression s |}.

Definition set_logged (offline_start suppression : bool) (s : SimpleTestStrategy)
    : SimpleTestStrategy :=
  {| instance_name := instance_name s; event_counter := event_counter s; params := params s;
     is_running := is_running s; start_time := start_time s;
     current_price := current_price s; pos := pos s;
     strategy_state := strategy_state s; _state_sequence := _state_sequence s;
     _offline_frozen_state := _offline_frozen_state s;
     _logged_offline_start := offline_start;
     _logged_suppression := suppression |}.

(** The messages given to [self.log]; consecutive lines of one place are one
    message. *)
Inductive LogMsg :=
| EnteringOfflineWindow (time_since_entry : Q)
| SuppressingHeartbeat
| FreezingState (seq : option Z)
| BackOnline (seq : Z)
| SuppressingBroadcast (r : Reason)
| StrategyStarted (t : Z)
| StrategyStopped
| FirstTickReceived (price : Q)
| FailedToParseTick (e : exn)
| Entered (d : Direction) (entry sl tgt tsa : Q)
| TimeLimitExit (price pnl pnl_pct : Q)
| TrailingStopActivated (price new_sl : Q)
| TrailingStopUpdated (old_peak new_peak new_sl : Q).

(** A computation over a [SimpleTestStrategy] instance. *)
Abbreviation Handler := (M (World SimpleTestStrategy LogMsg)).

(** [not x] for an optional float: [None] and [0.0] are falsy. *)
Definition falsy (x : option Q) : bool :=
  match x with
  | Some v => negb (Qnonzero v)
  | None => true
  end.

(** An optional float used as a number: [None] is a [TypeError]. *)
Definition num (x : option Q) : exn + Q :=
  match x with
  | Some v => inr v
  | None => inl TypeError
  end.

(** [(now - entry_time).total_seconds()]: the microseconds divided by
    [10 ** 6], correctly rounded *)
Definition total_seconds (dt : Z) : Q := binary64 (inject_Z dt / inject_Z usec_per_sec).

Definition _is_in_offline_window (now : Z) : Handler bool :=
  let* s := get_self in
  if negb (simulate_offline (params s)) then ret false
  else
    match entry_time (pos s) with
    | None => ret false
    | Some entry =>
        let time_since_entry := total_seconds (now - entry) in
        let offline_start := binary64 (offline_start_delay (params s)) in
        let offline_end := float_add (offline_start_delay (params s)) (offline_duration (params s)) in
        let is_offline := Qle_bool offline_start time_since_entry && Qltb time_since_entry offline_end in
        (if is_offline && negb (_logged_offline_start s) then
           update_self (λ s, set_logged true (_logged_suppression s) s) >>
           log "INFO" (EnteringOfflineWindow time_since_entry)
         else ret tt) >>
        ret is_offline
    end.

(** The dict [_update_strategy_state] builds for an instance. *)
Definition snapshot (s : SimpleTestStrategy) : StrategyState :=
  if falsy (entry_price (pos s)) then EmptyState (_state_sequence s)
  else
    FullState (stop_loss_price (pos s)) (target_price (pos s)) (entry_price (pos s))
      (trailing_activation_price (pos s)) (trailing_stop_active (pos s))
      (_state_sequence s).

Definition _update_strategy_state : Handler unit :=
  update_self (λ s, set_state_sequence (_state_sequence s + 1) s) >>
  update_self (λ s, set_strategy_state (snapshot s) s).

(** [self.event_counter += 1] and the [event_id] f-string *)
Definition next_event_id (now : Z) : Handler (string * Z * Z) :=
  update_self (λ s, set_event_counter (event_counter s + 1) s) >>
  let* s := get_self in
  ret (mk_event_id (instance_name s) (event_counter s) now).

Definition mk_event (s : SimpleTestStrategy) (id : string * Z * Z) (now : Z)
    (p : PositionTag) (r : Reason) (data : EventData) : Event :=
  {| event_id := id;
     event_time := now;
     ev_instance_name := instance_name s;
     position := p;
     reason := r;
     ev_strategy_state := strategy_state s;
     event_data := data |}.

Definition _reset_strategy_state : Handler unit :=
  update_self (set_pos no_position) >>
  update_self (set_offline_frozen_state None) >>
  update_self (set_logged false false) >>
  _update_strategy_state.

(** [start]; the task it creates is the caller of the methods below. *)
Definition start (now : Z) : Handler unit :=
  update_self (set_running true (Some now)) >>
  _reset_strategy_state >>
  log "INFO" (StrategyStarted now).

(** [stop], once the cancelled task has ended. *)
Definition stop : Handler unit :=
  update_self (λ s, set_running false (start_time s) s) >>
  _reset_strategy_state >>
  log "INFO" StrategyStopped.

Definition _enter_trade (now : Z) : Handler unit :=
  let* s := get_self in
  let entry_price :=
    match current_price s with
    | Some p => p
    | None => 50000%Q
    end in
  let sl_points := initial_stop_loss_points (params s) in
  let offset := trailing_activation_offset (params s) in
  let '(stop_loss_price, target_price, trailing_activation_price) :=
    match direction (params s) with
    | LONG => ((entry_price - sl_points)%Q, (entry_price + sl_points)%Q, (entry_price + offset)%Q)
    | SHORT => ((entry_price + sl_points)%Q, (entry_price - sl_points)%Q, (entry_price - offset)%Q)
    end in
  update_self (set_pos
    {| entry_time := Some now;
       entry_price := Some entry_price;
       stop_loss_price := Some stop_loss_price;
       target_price := Some target_price;
       trailing_activation_price := Some trailing_activation_price;
       trailing_stop_active := false;
       peak_price := Some entry_price |}) >>
  log "INFO" (Entered (direction (params s)) entry_price stop_loss_price target_price
                trailing_activation_price) >>
  let* event_id := next_event_id now in
  _update_strategy_state >>
  let* s' := get_self in
  broadcast (mk_event s' event_id now OPEN SIGNAL_DETECTED
    (OpenData (direction (params s)) entry_price target_price stop_loss_price None)).

Definition _calculate_pnl (s : SimpleTestStrategy) (price : Q) : Q :=
  match entry_price (pos s) with
  | Some entry =>
      if Qnonzero entry then
        match direction (params s) with
        | LONG => (price - entry)%Q
        | SHORT => (entry - price)%Q
        end
      else 0%Q
  | None => 0%Q
  end.

Definition _exit_trade_time_limit (now : Z) : Handler unit :=
  let* s := get_self in
  match entry_time (pos s), entry_price (pos s) with
  | Some _, Some entry =>
      if negb (Qnonzero entry) then ret tt
      else
        let price :=
          match current_price s with
          | Some p => p
          | None => entry
          end in
        let pnl := _calculate_pnl s price in
        let* ratio := lift (py_div pnl entry) in
        let pnl_percentage := (ratio * 100)%Q in
        log "INFO" (TimeLimitExit price pnl pnl_percentage) >>
        let* event_id := next_event_id now in
        _reset_strategy_state >>
        let* s' := get_self in
        broadcast (mk_event s' event_id now CLOSE POSITION_TIME_LIMIT_HIT
          (TimeLimitData (direction (params s')) (entry_price (pos s')) price pnl pnl_percentage))
  | _, _ => ret tt
  end.

Definition should_suppress_heartbeat (now : Z) : Handler bool :=
  let* is_suppressed := _is_in_offline_window now in
  let* s := get_self in
  (if is_suppressed && negb (_logged_suppression s) then
     update_self (λ s, set_logged (_logged_offline_start s) true s) >>
     log "INFO" SuppressingHeartbeat
   else ret tt) >>
  ret is_suppressed.

Definition get_strategy_state (now : Z) : Handler StrategyState :=
  let* in_offline := _is_in_offline_window now in
  if in_offline then
    let* s := get_self in
    (match _offline_frozen_state s with
     | None =>
         update_self (set_offline_frozen_state (Some (strategy_state s))) >>
         log "INFO" (FreezingState (state_seq (strategy_state s)))
     | Some _ => ret tt
     end) >>
    let* s' := get_self in
    match _offline_frozen_state s' with
    | Some frozen => ret frozen
    | None => raise AttributeError
    end
  else
    let* s := get_self in
    (match _offline_frozen_state s with
     | Some _ =>
         log "INFO" (BackOnline (_state_sequence s)) >>
         update_self (set_offline_frozen_state None)
     | None => ret tt
     end) >>
    let* s' := get_self in
    ret (strategy_state s').

Definition _broadcast_trailing_stop_update (now : Z) (price : Q) (activated : bool)
    : Handler unit :=
  let r := if activated then TRAILING_STOP_ACTIVATED else TRAILING_STOP_UPDATED in
  _update_strategy_state >>
  let* offline := _is_in_offline_window now in
  if offline then log "DEBUG" (SuppressingBroadcast r)
  else
    let* event_id := next_event_id now in
    let* s := get_self in
    broadcast (mk_event s event_id now UPDATE r
      (TrailingData (direction (params s)) (entry_price (pos s)) (stop_loss_price (pos s))
         (peak_price (pos s)) price)).

(** [self.trailing_stop_active = True] (when activating),
    [self.peak_price = price], [self.stop_loss_price = new_sl] *)
Definition set_trailing (activating : bool) (price new_sl : Q) (p : Position) : Position :=
  {| entry_time := entry_time p;
     entry_price := entry_price p;
     stop_loss_price := Some new_sl;
     target_price := target_price p;
     trailing_activation_price := trailing_activation_price p;
     trailing_stop_active := if activating then true else trailing_stop_active p;
     peak_price := Some price |}.

Definition _check_trailing_stop (now : Z) (price : Q) : Handler unit :=
  let* s := get_self in
  if falsy (entry_price (pos s)) || falsy (stop_loss_price (pos s))
     || falsy (trailing_activation_price (pos s))
  then ret tt
  else
    let* tsa := lift (num (trailing_activation_price (pos s))) in
    let distance := trailing_stop_distance (params s) in
    match direction (params s) with
    | LONG =>
        if negb (trailing_stop_active (pos s)) && Qle_bool tsa price then
          let new_sl := (price - distance)%Q in
          update_self (λ s, set_pos (set_trailing true price new_sl (pos s)) s) >>
          log "INFO" (TrailingStopActivated price new_sl) >>
          _broadcast_trailing_stop_update now price true
        else if trailing_stop_active (pos s) then
          let* old_peak := lift (num (peak_price (pos s))) in
          if Qltb old_peak price then
            let new_sl := (price - distance)%Q in
            update_self (λ s, set_pos (set_trailing false price new_sl (pos s)) s) >>
            log "INFO" (TrailingStopUpdated old_peak price new_sl) >>
            _broadcast_trailing_stop_update now price false
          else ret tt
        else ret tt
    | SHORT =>
        if negb (trailing_stop_active (pos s)) && Qle_bool price tsa then
          let new_sl := (price + distance)%Q in
          update_self (λ s, set_pos (set_trailing true price new_sl (pos s)) s) >>
          log "INFO" (TrailingStopActivated price new_sl) >>
          _broadcast_trailing_stop_update now price true
        else if trailing_stop_active (pos s) then
          let* old_peak := lift (num (peak_price (pos s))) in
          if Qltb price old_peak then
            let new_sl := (price + distance)%Q in
            update_self (λ s, set_pos (set_trailing false price new_sl (pos s)) s) >>
            log "INFO" (TrailingStopUpdated old_peak price new_sl) >>
            _broadcast_trailing_stop_update now price false
          else ret tt
        else ret tt
    end.

(** [except (ValueError, KeyError)] *)
Definition ValueError_or_KeyError (e : exn) : bool :=
  match e with
  | ValueError => true
  | _ => false
  end.

Section Handlers.
Context {RT : Runtime}.

Definition process_tick (now : Z) (tick_data : gmap string pyval) : Handler unit :=
  try_except ValueError_or_KeyError
    (let* s := get_self in
     let old_price := current_price s in
     (match tick_data !! "price", tick_data !! "p" with
      | Some v, _ =>
          let* x := lift (py_float v) in update_self (set_current_price (Some x))
      | None, Some v =>
          let* x := lift (py_float v) in update_self (set_current_price (Some x))
      | None, None => ret tt
      end) >>
     let* s' := get_self in
     (match old_price, current_price s' with
      | None, Some x => log "INFO" (FirstTickReceived x)
      | _, _ => ret tt
      end) >>
     match entry_price (pos s'), current_price s' with
     | Some _, Some x => _check_trailing_stop now x
     | _, _ => ret tt
     end)
    (λ e, log "WARNING" (FailedToParseTick e)).

(** *** Driving the instance

    What the strategy task, the tick relay and the heartbeat loop call, each
    running to its end before the next starts. *)
Inductive Call :=
| Start (now : Z)
| Stop
| EnterTrade (now : Z)
| ProcessTick (now : Z) (tick_data : gmap string pyval)
| ExitTradeTimeLimit (now : Z)
| ShouldSuppressHeartbeat (now : Z)
| GetStrategyState (now : Z).

Definition handler (c : Call) : Handler unit :=
  match c with
  | Start now => start now
  | Stop => stop
  | EnterTrade now => _enter_trade now
  | ProcessTick now tick_data => process_tick now tick_data
  | ExitTradeTimeLimit now => _exit_trade_time_limit now
  | ShouldSuppressHeartbeat now => should_suppress_heartbeat now >> ret tt
  | GetStrategyState now => get_strategy_state now >> ret tt
  end.

Definition step (c : Call) (s : SimpleTestStrategy) : Outcome SimpleTestStrategy LogMsg unit :=
  call (handler c) s.

(** The instance after a sequence of calls. *)
Fixpoint run (calls : list Call) (s : SimpleTestStrategy) : SimpleTestStrategy :=
  match calls with
  | [] => s
  | c :: rest => run rest (after (step c s))
  end.

(** Everything broadcast during a sequence of calls, in order. *)
Fixpoint trace (calls : list Call) (s : SimpleTestStrategy) : list Event :=
  match calls with
  | [] => []
  | c :: rest => emitted (step c s) ++ trace rest (after (step c s))
  end.

End Handlers.
End Test.

(** ** [IPCUIServer] (ipc_ui_server.py): what it does with its strategy *)

Module Server.

(** [self.strategy], by class. *)
Inductive Strategy :=
| IPCInstance (s : IPC.IPCStrategy)
| TestInstance (s : Test.SimpleTestStrategy).

(** The messages handed to [IPCUIServer.broadcast] by the tick relay, the
    strategies and the heartbeat loop. *)
Inductive Message :=
| Trade (tick_data : gmap string pyval)
| StrategyEvent (e : Event)
| StrategyHeartbeat (instance_name instance_id : string) (heartbeat_at : Z)
    (strategy_state : StrategyState).

(** The attributes the three loops read and write.  What [self.log] prints
    is not kept. *)
Record IPCUIServer := {
  test_mode : bool;
  runtime_id : string;
  latest_tick : option (gmap string pyval);
  strategy : option Strategy;
}.

Definition set_latest_tick (v : option (gmap string pyval)) (srv : IPCUIServer) : IPCUIServer :=
  {| test_mode := test_mode srv; runtime_id := runtime_id srv;
     latest_tick := v; strategy := strategy srv |}.

Definition set_strategy (v : option Strategy) (srv : IPCUIServer) : IPCUIServer :=
  {| test_mode := test_mode srv; runtime_id := runtime_id srv;
     latest_tick := latest_tick srv; strategy := v |}.

(** [IPCUIServer.__init__] followed by the strategy initialisation of
    [start]. *)
Definition start (test_mode : bool) (runtime_id : string) : IPCUIServer :=
  {| test_mode := test_mode;
     runtime_id := runtime_id;
     latest_tick := None;
     strategy :=
       Some (if test_mode
             then TestInstance (Test.init "TestStrategy" Test.default_params)
             else IPCInstance (IPC.init "IPC" IPC.default_params)) |}.

(** The wait computed at the top of [poll_oracle_api_predictions]. *)
Definition seconds_until_next (current_minute current_second : Z) : Z :=
  let minutes_past_boundary := current_minute mod 5 in
  if (minutes_past_boundary =? 0) && (45 <=? current_second) then
    5 * 60 - current_second + 45
  else if minutes_past_boundary =? 0 then
    45 - current_second
  else
    let minutes_until_boundary := 5 - minutes_past_boundary in
    minutes_until_boundary * 60 - current_second + 45.

(** What the body of a loop leaves behind: the server, and the messages
    broadcast, in order. *)
Definition Turn : Type := IPCUIServer * list Message.

(** ["TestStrategy" if self.test_mode else "IPC"] *)
Definition heartbeat_name (srv : IPCUIServer) : string :=
  if test_mode srv then "TestStrategy" else "IPC".

(** One turn of [_heartbeat_loop].  The three arguments are the readings of
    [datetime.now(UTC)] made by [should_suppress_heartbeat], by
    [get_strategy_state] and for ["heartbeat_at"]. *)
Definition _heartbeat_loop (t_check t_state t_send : Z) (srv : IPCUIServer) : Turn :=
  let instance_name := heartbeat_name srv in
  match strategy srv with
  | None => (srv, [])
  | Some (IPCInstance s) =>
      (* no should_suppress_heartbeat attribute *)
      (srv, [StrategyHeartbeat instance_name (runtime_id srv) t_send (IPC.get_strategy_state s)])
  | Some (TestInstance s) =>
      let checked := call (Test.should_suppress_heartbeat t_check) s in
      let should_suppress :=
        match result checked with
        | inr b => b
        | inl _ => false
        end in
      if should_suppress then (set_strategy (Some (TestInstance (after checked))) srv, [])
      else
        let read := call (Test.get_strategy_state t_state) (after checked) in
        let strategy_state :=
          match result read with
          | inr st => st
          | inl _ => NoState
          end in
        (set_strategy (Some (TestInstance (after read))) srv,
         [StrategyHeartbeat instance_name (runtime_id srv) t_send strategy_state])
  end.

(** How the body of [async for message in ws] ends: the loop goes on, or an
    exception leaves it and the connection is dropped. *)
Inductive Relay :=
| Continue
| Reconnect (e : exn).

Section Relay.
Context {RT : Runtime}.

(** The body of the tick relay of [start_binance_tick_stream] for one
    message that parsed to the dict [tick_data]. *)
Definition start_binance_tick_stream (now : Z) (tick_data : gmap string pyval)
    (srv : IPCUIServer) : Turn * Relay :=
  let srv := set_latest_tick (Some tick_data) srv in
  match strategy srv with
  | None => ((srv, [Trade tick_data]), Continue)
  | Some (TestInstance s) =>
      let o := Test.step (Test.ProcessTick now tick_data) s in
      ((set_strategy (Some (TestInstance (after o))) srv,
        Trade tick_data :: map StrategyEvent (emitted o)),
       match result o with
       | inr _ => Continue
       | inl e => Reconnect e
       end)
  | Some (IPCInstance s) =>
      let o := IPC.step (IPC.CheckPositionManagement now tick_data) s in
      ((set_strategy (Some (IPCInstance (after o))) srv,
        Trade tick_data :: map StrategyEvent (emitted o)),
       match result o with
       | inr _ => Continue
       | inl e => Reconnect e
       end)
  end.

End Relay.
End Server.

(** ** Vocabulary of the properties *)

(** One stamped transition of an [IPCStrategy]: the sequence number moved by
    exactly one, the event carries the dict just stamped, the parameters are
    untouched, and the event's tag tells what happened to the Position. *)
Definition transition (s s' : IPC.IPCStrategy) (e : Event) : Prop :=
  IPC._state_sequence s' = IPC._state_sequence s + 1
  ∧ ev_strategy_state e = IPC.strategy_state s'
  ∧ state_seq (IPC.strategy_state s') = Some (IPC._state_sequence s')
  ∧ IPC.params s' = IPC.params s
  ∧ IPC.instance_name s' = IPC.instance_name s
  ∧ match position e with
    | OPEN => IPC.active_signal s = None ∧ is_Some (IPC.active_signal s')
    | UPDATE => is_Some (IPC.active_signal s) ∧ is_Some (IPC.active_signal s')
    | CLOSE => is_Some (IPC.active_signal s) ∧ IPC.active_signal s' = None
    end.

(** An event list in which an [OPEN] is only accepted while no Position is
    held ([held] tells whether one is at the start). *)
Fixpoint alternates (held : bool) (evs : list Event) : bool :=
  match evs with
  | [] => true
  | e :: rest =>
      match position e with
      | OPEN => negb held && alternates true rest
      | UPDATE => alternates held rest
      | CLOSE => alternates false rest
      end
  end.


(** While trailing is active the stop sits [trailing_stop_distance] behind
    the peak. *)
Definition trailing_coherent (s : IPC.IPCStrategy) : Prop :=
  IPC.trailing_stop_active s = true →
  ∃ sig peak,
    IPC.active_signal s = Some sig
    ∧ IPC.peak_price s = Some peak
    ∧ IPC.stop_loss sig =
        match IPC.direction sig with
        | LONG => (peak - IPC.trailing_stop_distance (IPC.params s))%Q
        | SHORT => (peak + IPC.trailing_stop_distance (IPC.params s))%Q
        end.

(** The session gate of [check_signal_trigger] lets a prediction made at
    the instant [t] through. *)
Definition session_permits {RT : Runtime} (s : IPC.IPCStrategy) (t : Z) : Prop :=
  IPC.session_filter (IPC.params s) = true →
  weekday (ny_local t) < 5 ∧ 8 ≤ hour (ny_local t) < 11.

(** A prediction the signal generator can read: both prices convert, the
    time is a non-empty string that parses. *)
Definition reads_prediction {RT : Runtime} (prediction : gmap string pyval)
    (prediction_price predicted_price : Q) (t : Z) : Prop :=
  py_float (dict_get prediction "prediction_price" (PyInt 0)) = inr prediction_price
  ∧ py_float (dict_get prediction "predicted_price" (PyInt 0)) = inr predicted_price
  ∧ truthy (dict_get prediction "prediction_time" (PyStr "")) = true
  ∧ parse_iso_time (dict_get prediction "prediction_time" (PyStr "")) = inr t.

(** A call of [check_signal_trigger] that gives no signal: the instance is
    as it was and nothing is broadcast. *)
Definition no_signal (s : IPC.IPCStrategy) (o : Outcome IPC.IPCStrategy IPC.LogMsg unit)
    : Prop :=
  after o = s ∧ emitted o = [].

(** A call that gives a signal: one [OPEN] is broadcast, and a Position
    entered at [price] in the direction [d] is held. *)
Definition signal (o : Outcome IPC.IPCStrategy IPC.LogMsg unit) (price : Q) (d : Direction)
    : Prop :=
  ∃ e sig,
    emitted o = [e]
    ∧ position e = OPEN ∧ reason e = SIGNAL_DETECTED
    ∧ IPC.active_signal (after o) = Some sig
    ∧ IPC.entry_price sig = price
    ∧ IPC.direction sig = d.

(** The call passes the tests that come with the threshold: no Position is
    held, the prediction time and the tick price can be read, and the
    session gate lets the prediction through. *)
Definition passes_other_tests {RT : Runtime} (s : IPC.IPCStrategy)
    (prediction tick_data : gmap string pyval) (price : Q) : Prop :=
  IPC.active_signal s = None
  ∧ truthy (dict_get prediction "prediction_time" (PyStr "")) = true
  ∧ py_float64 (dict_get tick_data "p" (PyInt 0)) = inr price
  ∧ ∃ t, parse_iso_time (dict_get prediction "prediction_time" (PyStr "")) = inr t
         ∧ session_permits s t.

(** The strict threshold on a difference [diff] of the two prices: equal to
    [delta] there is no signal; above it there is one, when the other tests
    pass. *)
Definition strict_threshold {RT : Runtime} (t_entry t_id t_event : Z)
    (prediction tick_data : gmap string pyval) (s : IPC.IPCStrategy) (diff : Q) : Prop :=
  ((Qabs diff == IPC.delta (IPC.params s))%Q →
   no_signal s (call (IPC64.check_signal_trigger t_entry t_id t_event prediction tick_data) s))
  ∧ ((IPC.delta (IPC.params s) < Qabs diff)%Q →
     ∀ price, passes_other_tests s prediction tick_data price →
       ∃ d, signal (call (IPC64.check_signal_trigger t_entry t_id t_event prediction tick_data) s)
              price d).

(** The pure reading of [_is_in_offline_window]: the float seconds since
    entry are at least [offline_start_delay] and below the float sum
    [offline_start_delay + offline_duration]. *)
Definition offline_window_active (s : Test.SimpleTestStrategy) (now : Z) : bool :=
  Test.simulate_offline (Test.params s)
  && match Test.entry_time (Test.pos s) with
     | None => false
     | Some entry =>
         Qle_bool (binary64 (Test.offline_start_delay (Test.params s)))
           (Test.total_seconds (now - entry))
         && Qltb (Test.total_seconds (now - entry))
              (float_add (Test.offline_start_delay (Test.params s))
                 (Test.offline_duration (Test.params s)))
     end.





(** *** Vocabulary of the further properties *)

(** Where an [IPCStrategy] is in the life of a Position. *)
Inductive Phase := Flat | Untrailed | Trailed.

Definition phase_of (s : IPC.IPCStrategy) : Phase :=
  match IPC.active_signal s with
  | None => Flat
  | Some _ => if IPC.trailing_stop_active s then Trailed else Untrailed
  end.

(** The order the reasons of a Position's events come in: a signal, at most
    one activation, updates only after it, one close. *)
Definition next_phase (ph : Phase) (r : Reason) : option Phase :=
  match ph, r with
  | Flat, SIGNAL_DETECTED => Some Untrailed
  | Untrailed, TRAILING_STOP_ACTIVATED => Some Trailed
  | Trailed, TRAILING_STOP_UPDATED => Some Trailed
  | (Untrailed | Trailed), (STOP_LOSS_HIT | POSITION_TIME_LIMIT_HIT) => Some Flat
  | _, _ => None
  end.

Fixpoint lifecycle (ph : Phase) (evs : list Event) : bool :=
  match evs with
  | [] => true
  | e :: rest =>
      match next_phase ph (reason e) with
      | Some ph' => lifecycle ph' rest
      | None => false
      end
  end.

(** The tag, the reason, the state dict and the payload of an event of an
    [IPCStrategy] fit together. *)
Definition ipc_event_shape (e : Event) : Prop :=
  match position e, reason e, ev_strategy_state e, event_data e with
  | OPEN, SIGNAL_DETECTED,
    FullState (Some sl) (Some tp) (Some entry) (Some tsa) false _,
    OpenData _ entry' tp' sl' (Some tsa') =>
      entry' = entry ∧ tp' = tp ∧ sl' = sl ∧ tsa' = tsa
  | UPDATE, (TRAILING_STOP_ACTIVATED | TRAILING_STOP_UPDATED),
    FullState (Some sl) _ (Some entry) _ true _,
    TrailingData _ (Some entry') (Some sl') (Some peak) price =>
      entry' = entry ∧ sl' = sl ∧ peak = price
  | CLOSE, POSITION_TIME_LIMIT_HIT, EmptyState _, TimeLimitData _ (Some _) _ _ _ => True
  | CLOSE, STOP_LOSS_HIT, EmptyState _, CloseData _ _ _ _ _ _ => True
  | _, _, _, _ => False
  end.

(** The figures of a closing event add up: the pnl is the signed distance
    from the entry to the closing price, the percentage is taken of a
    non-zero entry, and a stop-loss exit is at or beyond its stop. *)
Definition close_accounting (e : Event) : Prop :=
  match event_data e with
  | TimeLimitData d (Some entry) price pnl pct =>
      ¬ (entry == 0)%Q ∧ pnl = IPC.pnl_of d entry price ∧ pct = (pnl / entry * 100)%Q
  | CloseData d entry stop price pnl pct =>
      ¬ (entry == 0)%Q ∧ pnl = IPC.pnl_of d entry price ∧ pct = (pnl / entry * 100)%Q
      ∧ match d with
        | LONG => (price <= stop)%Q
        | SHORT => (stop <= price)%Q
        end
  | _ => True
  end.

(** The state dict an [IPCStrategy] hands to the heartbeat is the empty
    dict of [__init__] until the first stamping, and from then on the dict
    [_update_strategy_state] would build from the fields as they are. *)
Definition state_tracks_fields (s : IPC.IPCStrategy) : Prop :=
  (IPC._state_sequence s = 0 ∧ IPC.strategy_state s = NoState ∧ IPC.active_signal s = None
   ∧ IPC.event_counter s = 0)
  ∨ (0 < IPC._state_sequence s ∧ IPC.strategy_state s = IPC.snapshot s
     ∧ IPC.event_counter s = IPC._state_sequence s).

(** While trailing is active the peak is at or beyond the activation
    price the Position was opened with. *)
Definition peak_beyond_activation (s : IPC.IPCStrategy) : Prop :=
  IPC.trailing_stop_active s = true →
  ∃ sig peak,
    IPC.active_signal s = Some sig
    ∧ IPC.peak_price s = Some peak
    ∧ match IPC.direction sig with
      | LONG => (IPC.trailing_activation_price sig <= peak)%Q
      | SHORT => (peak <= IPC.trailing_activation_price sig)%Q
      end.

(** One numbered event of an [IPCStrategy]: its id starts with the
    instance name and the next counter value, it has the shape above, and
    its reason is the next one in the life of the Position. *)
Definition numbered (s s' : IPC.IPCStrategy) (e : Event) : Prop :=
  (event_id e).1 = (IPC.instance_name s, IPC.event_counter s + 1)
  ∧ IPC.event_counter s' = IPC.event_counter s + 1
  ∧ ipc_event_shape e
  ∧ next_phase (phase_of s) (reason e) = Some (phase_of s').

(** The ways [check_signal_trigger] fails to read its arguments, in the
    order it reads them, with the exception raised. *)
Definition unreadable {RT : Runtime} (prediction tick_data : gmap string pyval) (e : exn)
    : Prop :=
  let prediction_price := py_float (dict_get prediction "prediction_price" (PyInt 0)) in
  let predicted_price := py_float (dict_get prediction "predicted_price" (PyInt 0)) in
  let prediction_time_str := dict_get prediction "prediction_time" (PyStr "") in
  let tick_price := py_float (dict_get tick_data "p" (PyInt 0)) in
  prediction_price = inl e
  ∨ (∃ x, prediction_price = inr x) ∧ predicted_price = inl e
  ∨ (∃ x y, prediction_price = inr x ∧ predicted_price = inr y)
    ∧ truthy prediction_time_str = true
    ∧ (parse_iso_time prediction_time_str = inl e
       ∨ (∃ t, parse_iso_time prediction_time_str = inr t) ∧ tick_price = inl e).

(** The stop that goes with a peak: [trailing_stop_distance] behind it. *)
Definition trailed_stop (s : Test.SimpleTestStrategy) (peak : Q) : Q :=
  match Test.direction (Test.params s) with
  | LONG => (peak - Test.trailing_stop_distance (Test.params s))%Q
  | SHORT => (peak + Test.trailing_stop_distance (Test.params s))%Q
  end.

(** The position fields [p] are those of [s] with the trailing stop armed
    at, or moved to, a new peak: armed only when it was not, moved only to a
    peak beyond the old one. *)
Definition trailed (s : Test.SimpleTestStrategy) (p : Test.Position) : Prop :=
  ∃ activating price,
    p = Test.set_trailing activating price (trailed_stop s price) (Test.pos s)
    ∧ if activating then Test.trailing_stop_active (Test.pos s) = false
      else Test.trailing_stop_active (Test.pos s) = true
           ∧ ∃ old_peak,
               Test.peak_price (Test.pos s) = Some old_peak
               ∧ match Test.direction (Test.params s) with
                 | LONG => (old_peak < price)%Q
                 | SHORT => (price < old_peak)%Q
                 end.

(** What a tick can do to a [SimpleTestStrategy] beyond recording the
    price: nothing to the parameters, the run flag or the entry; the
    position fields stay or are trailed; whatever is broadcast is one
    [UPDATE] carrying the dict just stamped, and nothing is while the
    offline window is active. *)
Definition tick_effect (now : Z) (s s' : Test.SimpleTestStrategy) (evs : list Event) : Prop :=
  Test.params s' = Test.params s
  ∧ Test.instance_name s' = Test.instance_name s
  ∧ Test.is_running s' = Test.is_running s
  ∧ Test.event_counter s' = Test.event_counter s + Z.of_nat (length evs)
  ∧ (Test.pos s' = Test.pos s ∨ trailed s (Test.pos s'))
  ∧ (offline_window_active s now = true → evs = [])
  ∧ (offline_window_active s now = false →
     Test._state_sequence s' ≠ Test._state_sequence s → evs ≠ [])
  ∧ ∀ e, e ∈ evs →
      evs = [e]
      ∧ position e = UPDATE
      ∧ (event_id e).1 = (Test.instance_name s, Test.event_counter s + 1)
      ∧ ev_strategy_state e = Test.strategy_state s'.

(** The events of one call of a [SimpleTestStrategy] take the next counter
    values for their ids. *)
Definition test_numbered (s s' : Test.SimpleTestStrategy) (evs : list Event) : Prop :=
  Test.instance_name s' = Test.instance_name s
  ∧ Test.event_counter s' = Test.event_counter s + Z.of_nat (length evs)
  ∧ ∀ e, e ∈ evs →
      evs = [e]
      ∧ (event_id e).1 = (Test.instance_name s, Test.event_counter s + 1).

(** The calls the tick relay and the heartbeat loop make; the others are
    the strategy task's. *)
Definition observes (c : Test.Call) : bool :=
  match c with
  | Test.ProcessTick _ _ | Test.ShouldSuppressHeartbeat _ | Test.GetStrategyState _ => true
  | _ => false
  end.

(** While trailing is active the stop of a [SimpleTestStrategy] sits
    [trailing_stop_distance] behind the peak. *)
Definition test_trailing_coherent (s : Test.SimpleTestStrategy) : Prop :=
  Test.trailing_stop_active (Test.pos s) = true →
  ∃ peak,
    Test.peak_price (Test.pos s) = Some peak
    ∧ Test.stop_loss_price (Test.pos s) = Some (trailed_stop s peak).






(** What a heartbeat must leave alone in the strategy: everything of an
    [IPCStrategy]; the parameters, the position fields, the state dict and
    the sequence number of a [SimpleTestStrategy]. *)
Definition same_published_state (before after : option Server.Strategy) : Prop :=
  match before, after with
  | None, None => True
  | Some (Server.IPCInstance s), Some (Server.IPCInstance s') => s' = s
  | Some (Server.TestInstance s), Some (Server.TestInstance s') =>
      Test.params s' = Test.params s
      ∧ Test.pos s' = Test.pos s
      ∧ Test.strategy_state s' = Test.strategy_state s
      ∧ Test._state_sequence s' = Test._state_sequence s
  | _, _ => False
  end.

(** *** Sample inputs *)

(** Four prediction times of January 2025, when New York is on EST
    (UTC-5): Monday the 6th at 07:59:59, 08:00:00 and 11:00:00 New York
    time, and Saturday the 11th at 09:00:00. *)
Definition sample_time_str : string := "2025-01-06T13:00:00Z".
Definition sample_time : Z := 1736168400 * usec_per_sec.
Definition before_open_str : string := "2025-01-06T12:59:59Z".
Definition at_close_str : string := "2025-01-06T16:00:00Z".
Definition saturday_str : string := "2025-01-11T14:00:00Z".

(** A runtime for the examples: [float] reads no string, the four
    timestamps parse, and the UTC offset is that of EST. *)
Definition sample_runtime : Runtime :=
  {| float_of_str := λ _, None;
     fromisoformat := λ s,
       if String.eqb s "2025-01-06T12:59:59+00:00" then Some (1736168399 * usec_per_sec)
       else if String.eqb s "2025-01-06T13:00:00+00:00" then Some sample_time
       else if String.eqb s "2025-01-06T16:00:00+00:00" then Some (1736179200 * usec_per_sec)
       else if String.eqb s "2025-01-11T14:00:00+00:00" then Some (1736604000 * usec_per_sec)
       else None;
     ny_utcoffset := λ _, -18000 |}.

(** The parameters of the end-to-end scenario of the specification. *)
Definition scenario_params : IPC.Params :=
  {| IPC.delta := 500;
     IPC.initial_stop_loss_points := 2000;
     IPC.trailing_activation_offset := 1000;
     IPC.trailing_stop_distance := 900;
     IPC.max_position_duration_hours := 2;
     IPC.session_filter := false |}.

Definition mk_prediction (prediction_price predicted_price : Q) (time : pyval)
    : gmap string pyval :=
  {[ "prediction_price" := PyFloat prediction_price;
     "predicted_price" := PyFloat predicted_price;
     "prediction_time" := time ]}.

Definition tick_at (price : Q) : gmap string pyval := {[ "p" := PyFloat price ]}.

(** The prediction of the scenario, made on the Monday at 08:00:00. *)
Definition sample_prediction : gmap string pyval :=
  mk_prediction 100000 100700 (PyStr sample_time_str).

Definition sample_open : IPC.Call :=
  IPC.CheckSignalTrigger 0 sample_prediction (tick_at 100000).

Definition sample_tick (price : Q) : IPC.Call :=
  IPC.CheckPositionManagement 1 (tick_at price).

(** The instance of the scenario once its Position is open ... *)
Definition scenario_opened : IPC.IPCStrategy :=
  IPC.run (RT := sample_runtime) [sample_open] (IPC.init "IPC" scenario_params).

(** ... and the Position it then holds, before and after trailing is
    armed at 101000 and after the peak moves to 102000. *)
Definition scenario_signal (stop : Q) : IPC.Signal :=
  {| IPC.direction := LONG;
     IPC.entry_price := 100000;
     IPC.stop_loss := stop;
     IPC.target := 100700;
     IPC.trailing_activation_price := 101000;
     IPC.entry_time := 0;
     IPC.prediction_data :=
       {| IPC.prediction_price := 100000;
          IPC.pd_predicted_price := 100700;
          IPC.prediction_time := PyStr sample_time_str |} |}.

(** The test strategy with its default parameters, started and entered at
    time 0 with no tick seen: LONG at 50000, stop 48000, activation 51000,
    offline from 10 s to 20 s after entry. *)
Definition test_entered : Test.SimpleTestStrategy :=
  Test.run (RT := sample_runtime) [Test.Start 0; Test.EnterTrade 0]
    (Test.init "TestStrategy" Test.default_params).

Definition seconds (n : Z) : Z := n * usec_per_sec.

(** The same with an offline window given by two decimal literals. *)
Definition offline_params (offline_start_delay offline_duration : Q) : Test.Params :=
  {| Test.initial_stop_loss_points := 2000;
     Test.trailing_activation_offset := 1000;
     Test.trailing_stop_distance := 900;
     Test.direction := LONG;
     Test.simulate_offline := true;
     Test.offline_start_delay := offline_start_delay;
     Test.offline_duration := offline_duration |}.

Definition test_entered_offline (offline_start_delay offline_duration : Q)
    : Test.SimpleTestStrategy :=
  Test.run (RT := sample_runtime) [Test.Start 0; Test.EnterTrade 0]
    (Test.init "TestStrategy" (offline_params offline_start_delay offline_duration)).

(** The three calls of the end-to-end scenario. *)
Definition scenario_calls : list IPC.Call :=
  [sample_open; sample_tick 101000; sample_tick 100050].

(** The scenario's prediction met by a tick without a price: the Position
    is entered at 0, with its stop at -2000 and its activation at 1000. *)
Definition zero_entry_opened : IPC.IPCStrategy :=
  IPC.run (RT := sample_runtime) [IPC.CheckSignalTrigger 0 sample_prediction ∅]
    (IPC.init "IPC" scenario_params).

Definition zero_entry_signal : IPC.Signal :=
  {| IPC.direction := LONG;
     IPC.entry_price := 0;
     IPC.stop_loss := -2000;
     IPC.target := 100700;
     IPC.trailing_activation_price := 1000;
     IPC.entry_time := 0;
     IPC.prediction_data :=
       {| IPC.prediction_price := 100000;
          IPC.pd_predicted_price := 100700;
          IPC.prediction_time := PyStr sample_time_str |} |}.

(** Three ticks for it: one after the time limit, one below the stop, one
    beyond the activation price. *)
Definition zero_entry_calls : list IPC.Call :=
  [IPC.CheckPositionManagement (timedelta_hours 3) (tick_at 50);
   IPC.CheckPositionManagement 1 (tick_at (-3000));
   IPC.CheckPositionManagement 2 (tick_at 1500)].

(** A prediction that names no predicted price. *)
Definition prediction_without_target : gmap string pyval :=
  {[ "prediction_price" := PyFloat 100000;
     "prediction_time" := PyStr sample_time_str ]}.


(** A server in test mode whose strategy has entered its trade. *)
Definition sample_server : Server.IPCUIServer :=
  Server.set_strategy (Some (Server.TestInstance test_entered)) (Server.start true "host-1-0").

(** * Properties *)

(** ** Arithmetic and list facts *)

(** [binary64] on literals and sums of this file; the fractions are those
    [float.as_integer_ratio] returns in the interpreter. *)
Example binary64_examples :
  binary64 0.1 = (3602879701896397 # 36028797018963968)%Q
  ∧ binary64 0.3 = (5404319552844595 # 18014398509481984)%Q
  ∧ float_add 0.1 0.2 = (1351079888211149 # 4503599627370496)%Q
  ∧ float_add 0.25 0.05 = binary64 0.3
  ∧ float_sub 65536.02 65036.02 = (68719476736001 # 137438953472)%Q
  ∧ float_sub 500.04 0.04 = 500%Q
  ∧ binary64 9007199254740993 = 9007199254740992%Q
  ∧ binary64 (-2000) = (-2000)%Q
  ∧ IPC64.timestamp_ms 1001000 = 1000.
Proof. vm_compute. repeat split. Qed.

Lemma Qltb_lt (x y : Q) : Qltb x y = true ↔ (x < y)%Q.
Proof.
  unfold Qltb. rewrite negb_true_iff, <- not_true_iff_false, Qle_bool_iff.
  split; [apply Qnot_le_lt | apply Qlt_not_le].
Qed.

Lemma Qltb_ge (x y : Q) : Qltb x y = false ↔ (y <= x)%Q.
Proof.
  unfold Qltb. rewrite negb_false_iff. apply Qle_bool_iff.
Qed.

Lemma Qle_bool_gt (x y : Q) : Qle_bool x y = false ↔ (y < x)%Q.
Proof.
  rewrite <- not_true_iff_false, Qle_bool_iff.
  split; [apply Qnot_le_lt | apply Qlt_not_le].
Qed.

Lemma alternates_held_close (evs : list Event) :
  ∀ (j : nat) (e2 : Event),
    alternates true evs = true →
    evs !! j = Some e2 → position e2 = OPEN →
    ∃ (k : nat) (e : Event), (k < j)%nat ∧ evs !! k = Some e ∧ position e = CLOSE.
Proof.
  induction evs as [|a rest IH]; intros j e2 Halt Hj Hopen; [done|].
  destruct j as [|j]; cbn in Hj, Halt.
  - injection Hj as ->. by rewrite Hopen in Halt.
  - destruct (position a) eqn:Ha; [done| |].
    + destruct (IH j e2 Halt Hj Hopen) as (k & e & Hk & Hlook & Hclose).
      exists (S k), e. split; [lia|]. done.
    + exists 0%nat, a. split; [lia|]. done.
Qed.

Lemma alternates_no_double_open (evs : list Event) :
  ∀ (held : bool) (i j : nat) (e1 e2 : Event),
    alternates held evs = true →
    (i < j)%nat →
    evs !! i = Some e1 → evs !! j = Some e2 →
    position e1 = OPEN → position e2 = OPEN →
    ∃ (k : nat) (e : Event), (i < k < j)%nat ∧ evs !! k = Some e ∧ position e = CLOSE.
Proof.
  induction evs as [|a rest IH]; intros held i j e1 e2 Halt Hij Hi Hj H1 H2; [done|].
  destruct j as [|j]; [lia|]. cbn in Hj.
  destruct i as [|i]; cbn in Hi, Halt.
  - injection Hi as ->. rewrite H1 in Halt.
    apply andb_true_iff in Halt as [_ Halt].
    destruct (alternates_held_close rest j e2 Halt Hj H2) as (k & e & Hk & Hlook & Hclose).
    exists (S k), e. split; [lia|]. done.
  - assert (∃ held', alternates held' rest = true) as [held' Hrest].
    { destruct (position a); [|by eauto..].
      apply andb_true_iff in Halt as [_ Halt]. by eauto. }
    destruct (IH held' i j e1 e2 Hrest ltac:(lia) Hi Hj H1 H2)
      as (k & e & Hk & Hlook & Hclose).
    exists (S k), e. split; [lia|]. done.
Qed.




(** ** Binary64 arithmetic

    [binary64] is monotone and idempotent, commutes with the sign, fixes the
    integers of at most 53 bits and, in the normal range, is within a
    relative [2 ^ -53] of its argument. *)

(** Powers of two. *)
Lemma pow2_pos (e : Z) : (0 < 2 ^ e)%Q.
Proof. apply Qpower_0_lt. reflexivity. Qed.

Lemma pow2_add (a b : Z) : (2 ^ (a + b) == 2 ^ a * 2 ^ b)%Q.
Proof. apply Qpower_plus. discriminate. Qed.

Lemma pow2_le (a b : Z) : a <= b -> (2 ^ a <= 2 ^ b)%Q.
Proof. intros H. apply Qpower_le_compat_l; [exact H | discriminate]. Qed.

Lemma pow2_lt (a b : Z) : a < b -> (2 ^ a < 2 ^ b)%Q.
Proof. intros H. apply Qpower_lt_compat_l; [exact H | reflexivity]. Qed.

Lemma pow2_lt_inv (a b : Z) : (2 ^ a < 2 ^ b)%Q -> a < b.
Proof. intros H. eapply Qpower_lt_compat_l_inv; [exact H | reflexivity]. Qed.

Lemma pow2_Z (n : Z) : 0 <= n -> (inject_Z (2 ^ n) == 2 ^ n)%Q.
Proof. intros H. apply (Zpower_Qpower 2 n H). Qed.

(** Scaling by a power of two. *)
Lemma scale_lt (x : Q) (k e : Z) : (x < 2 ^ k -> x / 2 ^ e < 2 ^ (k - e))%Q.
Proof.
  intros H. rewrite Qpower_minus by discriminate.
  apply Qmult_lt_r; [apply Qinv_lt_0_compat, pow2_pos | exact H].
Qed.

Lemma scale_le (x : Q) (k e : Z) : (2 ^ k <= x -> 2 ^ (k - e) <= x / 2 ^ e)%Q.
Proof.
  intros H. rewrite Qpower_minus by discriminate.
  apply Qmult_le_r; [apply Qinv_lt_0_compat, pow2_pos | exact H].
Qed.

Lemma scale_mono (x y : Q) (e : Z) : (x <= y -> x / 2 ^ e <= y / 2 ^ e)%Q.
Proof.
  intros H. apply Qmult_le_r; [apply Qinv_lt_0_compat, pow2_pos | exact H].
Qed.

Lemma scale_back (x : Q) (e : Z) : (x / 2 ^ e * 2 ^ e == x)%Q.
Proof.
  pose proof (pow2_pos e) as Hpos. field. intros H0. rewrite H0 in Hpos. discriminate.
Qed.

Lemma div_lt_div (n d x r : Q) :
  (0 < d -> 0 < r -> n * r < x * d -> n / d < x / r)%Q.
Proof.
  intros Hd Hr H. apply Qlt_shift_div_r; [exact Hd|].
  setoid_replace (x / r * d)%Q with (x * d / r)%Q using relation Qeq
    by (field; intros H0; rewrite H0 in Hr; discriminate).
  apply Qlt_shift_div_l; [exact Hr | exact H].
Qed.

Lemma div_le_div (n d x r : Q) :
  (0 < d -> 0 < r -> x * d <= n * r -> x / r <= n / d)%Q.
Proof.
  intros Hd Hr H. apply Qle_shift_div_l; [exact Hd|].
  setoid_replace (x / r * d)%Q with (x * d / r)%Q using relation Qeq
    by (field; intros H0; rewrite H0 in Hr; discriminate).
  apply Qle_shift_div_r; [exact Hr | exact H].
Qed.

(** [Qlog2 x] is the exponent of the power of two at or below [x]. *)
Lemma Qlog2_spec (x : Q) : (0 < x)%Q -> (2 ^ Qlog2 x <= x /\ x < 2 ^ (Qlog2 x + 1))%Q.
Proof.
  intros Hx. destruct x as [n d]. unfold Qlog2. cbn [Qnum Qden].
  assert (0 < n) as Hn. { unfold Qlt in Hx. cbn in Hx. lia. }
  destruct (Z.log2_spec n Hn) as [Hn1 Hn2].
  destruct (Z.log2_spec (Z.pos d) ltac:(lia)) as [Hd1 Hd2].
  pose proof (Z.log2_nonneg n) as Ha. pose proof (Z.log2_nonneg (Z.pos d)) as Hb.
  set (a := Z.log2 n) in *. set (b := Z.log2 (Z.pos d)) in *.
  assert (n # d == inject_Z n / inject_Z (Z.pos d))%Q as Hq by apply Qmake_Qdiv.
  assert (0 < inject_Z (Z.pos d))%Q as Hdpos by reflexivity.
  assert (inject_Z (2 ^ a) <= inject_Z n)%Q as Qn1 by (rewrite <- Zle_Qle; exact Hn1).
  assert (inject_Z n < inject_Z (2 ^ Z.succ a))%Q as Qn2 by (rewrite <- Zlt_Qlt; exact Hn2).
  assert (inject_Z (2 ^ b) <= inject_Z (Z.pos d))%Q as Qd1 by (rewrite <- Zle_Qle; exact Hd1).
  assert (inject_Z (Z.pos d) < inject_Z (2 ^ Z.succ b))%Q as Qd2 by (rewrite <- Zlt_Qlt; exact Hd2).
  rewrite pow2_Z in Qn1, Qn2, Qd1, Qd2 by lia.
  unfold Z.succ in Qn2, Qd2. rewrite pow2_add in Qn2, Qd2.
  change (2 ^ 1)%Q with 2%Q in Qn2, Qd2.
  pose proof (pow2_pos a) as Pa. pose proof (pow2_pos b) as Pb.
  assert (2 ^ (a - b) == 2 ^ a / 2 ^ b)%Q as Hab by (apply Qpower_minus; discriminate).
  assert (2 ^ (a - b + 1) == 2 ^ a * 2 / 2 ^ b)%Q as Hup1.
  { rewrite pow2_add, Hab. change (2 ^ 1)%Q with 2%Q. field.
    intros H0. rewrite H0 in Pb. discriminate. }
  assert (2 ^ (a - b - 1) == 2 ^ a / (2 ^ b * 2))%Q as Hlo1.
  { replace (a - b - 1) with (a - (b + 1)) by lia.
    rewrite Qpower_minus by discriminate. rewrite pow2_add. reflexivity. }
  generalize dependent (2 ^ a)%Q. generalize dependent (2 ^ b)%Q.
  generalize dependent (inject_Z n). generalize dependent (inject_Z (Z.pos d)).
  intros D Hdpos N Hq R Qd1 Qd2 Pb P Qn1 Qn2 Pa Hab Hup1 Hlo1.
  assert (n # d < 2 ^ (a - b + 1))%Q as Hup.
  { rewrite Hq, Hup1. apply div_lt_div; [assumption.. |]. nra. }
  assert (2 ^ (a - b - 1) <= n # d)%Q as Hlo.
  { rewrite Hq, Hlo1. apply div_le_div; [assumption | nra | nra]. }
  destruct (Qle_bool (2 ^ (a - b)) (n # d)) eqn:Hc.
  - apply Qle_bool_iff in Hc. split; [exact Hc | exact Hup].
  - split; [exact Hlo|]. replace (a - b - 1 + 1) with (a - b) by lia.
    apply Qnot_le_lt. intros H. apply Qle_bool_iff in H. congruence.
Qed.

Lemma Qlog2_unique (x : Q) (L : Z) :
  (2 ^ L <= x)%Q -> (x < 2 ^ (L + 1))%Q -> Qlog2 x = L.
Proof.
  intros H1 H2.
  assert (0 < x)%Q as Hx by (eapply Qlt_le_trans; [apply pow2_pos | exact H1]).
  destruct (Qlog2_spec x Hx) as [H3 H4].
  assert (L < Qlog2 x + 1).
  { apply pow2_lt_inv. eapply Qle_lt_trans; [exact H1 | exact H4]. }
  assert (Qlog2 x < L + 1).
  { apply pow2_lt_inv. eapply Qle_lt_trans; [exact H3 | exact H2]. }
  lia.
Qed.

Lemma Qlog2_wd (x y : Q) : (0 < x)%Q -> (x == y)%Q -> Qlog2 x = Qlog2 y.
Proof.
  intros Hx Heq. symmetry. destruct (Qlog2_spec x Hx) as [H1 H2].
  apply Qlog2_unique; rewrite <- Heq; assumption.
Qed.

Lemma Qlog2_mono (x y : Q) : (0 < x)%Q -> (x <= y)%Q -> Qlog2 x <= Qlog2 y.
Proof.
  intros Hx Hxy.
  assert (0 < y)%Q as Hy by (eapply Qlt_le_trans; eassumption).
  destruct (Qlog2_spec x Hx) as [H1 _]. destruct (Qlog2_spec y Hy) as [_ H2].
  assert (Qlog2 x < Qlog2 y + 1); [|lia].
  apply pow2_lt_inv. eapply Qle_lt_trans; [exact H1|]. eapply Qle_lt_trans; eassumption.
Qed.

(** [round_half_even] is monotone, fixes the integers and stays within one
    half of its argument. *)
Lemma round_half_even_wd (x y : Q) : (x == y)%Q -> round_half_even x = round_half_even y.
Proof.
  intros H. unfold round_half_even.
  assert (Qfloor x = Qfloor y) as -> by (apply Qfloor_comp; exact H).
  assert ((x - inject_Z (Qfloor y) ?= 1 # 2) = (y - inject_Z (Qfloor y) ?= 1 # 2))%Q as ->.
  { apply Qcompare_comp; [rewrite H|]; reflexivity. }
  reflexivity.
Qed.

Lemma round_half_even_Z (n : Z) : round_half_even (inject_Z n) = n.
Proof.
  unfold round_half_even. rewrite Qfloor_Z.
  assert ((inject_Z n - inject_Z n ?= 1 # 2) = Lt)%Q as ->; [|reflexivity].
  apply Qlt_alt.
  setoid_replace (inject_Z n - inject_Z n)%Q with 0%Q using relation Qeq by ring.
  reflexivity.
Qed.

Lemma round_half_even_floor (x : Q) :
  Qfloor x <= round_half_even x <= Qfloor x + 1.
Proof.
  unfold round_half_even.
  destruct (x - inject_Z (Qfloor x) ?= 1 # 2)%Q; [destruct (Z.even (Qfloor x))|..]; lia.
Qed.

Lemma round_half_even_mono (x y : Q) :
  (x <= y)%Q -> round_half_even x <= round_half_even y.
Proof.
  intros Hxy. pose proof (Qfloor_resp_le x y Hxy) as Hfloor.
  destruct (Z.eq_dec (Qfloor x) (Qfloor y)) as [Heq | Hne].
  - unfold round_half_even. rewrite Heq.
    destruct (Qcompare_spec (x - inject_Z (Qfloor y)) (1 # 2)) as [H1 | H1 | H1];
      destruct (Qcompare_spec (y - inject_Z (Qfloor y)) (1 # 2)) as [H2 | H2 | H2];
      try destruct (Z.even (Qfloor y)); try lia; exfalso; lra.
  - pose proof (round_half_even_floor x). pose proof (round_half_even_floor y). lia.
Qed.

Lemma round_half_even_near (x : Q) :
  (x - (1 # 2) <= inject_Z (round_half_even x) <= x + (1 # 2))%Q.
Proof.
  pose proof (Qfloor_le x) as Hlo. pose proof (Qlt_floor x) as Hhi.
  unfold round_half_even.
  rewrite inject_Z_plus in Hhi. change (inject_Z 1) with 1%Q in Hhi.
  destruct (Qcompare_spec (x - inject_Z (Qfloor x)) (1 # 2)) as [H1 | H1 | H1];
    try destruct (Z.even (Qfloor x));
    rewrite ?inject_Z_plus; change (inject_Z 1) with 1%Q; split; lra.
Qed.

Lemma expo_wd (x y : Q) : (0 < x)%Q -> (x == y)%Q -> expo x = expo y.
Proof. intros Hx H. unfold expo. rewrite (Qlog2_wd x y Hx H); reflexivity. Qed.

Lemma rnd_wd (x y : Q) : (0 < x)%Q -> (x == y)%Q -> (rnd x == rnd y)%Q.
Proof.
  intros Hx H. unfold rnd. rewrite (expo_wd x y Hx H).
  rewrite (round_half_even_wd (x / 2 ^ expo y) (y / 2 ^ expo y)); [reflexivity|].
  rewrite H; reflexivity.
Qed.

Lemma binary64_pos (x : Q) : (0 < x)%Q -> (binary64 x == rnd x)%Q.
Proof.
  intros Hx. unfold binary64.
  destruct (Qeq_bool x 0) eqn:E; [apply Qeq_bool_iff in E; lra|].
  assert (Qle_bool 0 x = true) as -> by (apply Qle_bool_iff; lra).
  rewrite Qred_correct.
  apply (rnd_wd (Qabs x) x); [|apply Qabs_pos; lra].
  rewrite Qabs_pos; lra.
Qed.

Lemma binary64_neg (x : Q) : (x < 0)%Q -> (binary64 x == - rnd (- x))%Q.
Proof.
  intros Hx. unfold binary64.
  destruct (Qeq_bool x 0) eqn:E; [apply Qeq_bool_iff in E; lra|].
  assert (Qle_bool 0 x = false) as ->.
  { destruct (Qle_bool 0 x) eqn:E'; [apply Qle_bool_iff in E'; lra | reflexivity]. }
  rewrite Qred_correct.
  assert (rnd (Qabs x) == rnd (- x))%Q as <-.
  { apply rnd_wd; [|apply Qabs_neg; lra]. rewrite Qabs_neg; lra. }
  unfold rnd, expo.
  generalize (2 ^ Z.max (Qlog2 (Qabs x) - 52) (-1074))%Q. intros p.
  generalize (inject_Z (round_half_even (Qabs x / p))). intros m. ring.
Qed.

Lemma binary64_zero (x : Q) : (x == 0)%Q -> binary64 x = 0%Q.
Proof. intros Hx. unfold binary64. apply Qeq_bool_iff in Hx. rewrite Hx. reflexivity. Qed.

Lemma rnd_nonneg (x : Q) : (0 < x)%Q -> (0 <= rnd x)%Q.
Proof.
  intros Hx. unfold rnd.
  pose proof (pow2_pos (expo x)) as Hp.
  assert (0 <= x / 2 ^ expo x)%Q as Hq.
  { apply Qle_shift_div_l; [exact Hp | lra]. }
  pose proof (round_half_even_mono 0 _ Hq) as Hm.
  change 0%Q with (inject_Z 0) in Hm at 1. rewrite round_half_even_Z in Hm.
  apply Qmult_le_0_compat; [|lra].
  change 0%Q with (inject_Z 0). rewrite <- Zle_Qle. exact Hm.
Qed.

Lemma binary64_wd (x y : Q) : (x == y)%Q -> (binary64 x == binary64 y)%Q.
Proof.
  intros H. destruct (Q_dec x 0) as [[Hneg | Hpos] | Hzero].
  - rewrite (binary64_neg x), (binary64_neg y) by lra.
    rewrite (rnd_wd (- x) (- y)); [reflexivity | lra | rewrite H; reflexivity].
  - rewrite (binary64_pos x), (binary64_pos y) by lra. apply rnd_wd; [lra | exact H].
  - rewrite (binary64_zero x), (binary64_zero y); [reflexivity | lra | lra].
Qed.

#[export] Instance binary64_proper : Proper (Qeq ==> Qeq) binary64.
Proof. intros x y H. apply binary64_wd, H. Qed.

Lemma expo_ge (x : Q) : Qlog2 x - 52 <= expo x /\ -1074 <= expo x.
Proof. unfold expo. lia. Qed.

(** The significand: at most [2 ^ 53], and at least [2 ^ 52] in the normal
    range. *)
Lemma significand_le (x : Q) :
  (0 < x)%Q -> 0 <= round_half_even (x / 2 ^ expo x) <= 2 ^ 53.
Proof.
  intros Hx. destruct (Qlog2_spec x Hx) as [_ Hup]. destruct (expo_ge x) as [He _].
  pose proof (pow2_pos (expo x)) as Hp.
  split.
  - rewrite <- (round_half_even_Z 0). apply round_half_even_mono.
    apply Qle_shift_div_l; [exact Hp|]. change (inject_Z 0) with 0%Q. lra.
  - rewrite <- (round_half_even_Z (2 ^ 53)). apply round_half_even_mono.
    rewrite pow2_Z by lia. apply Qlt_le_weak.
    eapply Qlt_le_trans; [apply scale_lt, Hup|]. apply pow2_le. lia.
Qed.

Lemma significand_ge (x : Q) :
  (0 < x)%Q -> expo x = Qlog2 x - 52 -> 2 ^ 52 <= round_half_even (x / 2 ^ expo x).
Proof.
  intros Hx He. destruct (Qlog2_spec x Hx) as [Hlo _].
  rewrite <- (round_half_even_Z (2 ^ 52)) at 1. apply round_half_even_mono.
  rewrite pow2_Z by lia.
  eapply Qle_trans; [|apply scale_le, Hlo]. apply pow2_le. lia.
Qed.

Lemma rnd_mono (x y : Q) : (0 < x)%Q -> (x <= y)%Q -> (rnd x <= rnd y)%Q.
Proof.
  intros Hx Hxy.
  assert (0 < y)%Q as Hy by lra.
  pose proof (Qlog2_mono x y Hx Hxy) as HL.
  destruct (Z.eq_dec (expo x) (expo y)) as [Heq | Hne].
  - unfold rnd. rewrite Heq.
    apply Qmult_le_compat_r; [|apply Qlt_le_weak, pow2_pos].
    rewrite <- Zle_Qle. apply round_half_even_mono, scale_mono, Hxy.
  - assert (expo x < expo y) as Hlt by (unfold expo in *; lia).
    assert (expo y = Qlog2 y - 52) as Hnormal by (unfold expo in *; lia).
    destruct (significand_le x Hx) as [_ Hmx].
    pose proof (significand_ge y Hy Hnormal) as Hmy.
    rewrite Zle_Qle in Hmx, Hmy. rewrite pow2_Z in Hmx, Hmy by lia.
    unfold rnd.
    apply Qle_trans with (2 ^ 53 * 2 ^ expo x)%Q.
    { apply Qmult_le_compat_r; [exact Hmx | apply Qlt_le_weak, pow2_pos]. }
    apply Qle_trans with (2 ^ 52 * 2 ^ expo y)%Q.
    { rewrite <- !pow2_add. apply pow2_le. lia. }
    apply Qmult_le_compat_r; [exact Hmy | apply Qlt_le_weak, pow2_pos].
Qed.

Lemma rnd_fixed (r : Q) (N : Z) :
  (r == inject_Z N * 2 ^ expo r)%Q -> (rnd r == r)%Q.
Proof.
  intros H. unfold rnd.
  pose proof (pow2_pos (expo r)) as Hp.
  rewrite (round_half_even_wd _ (inject_Z N)).
  - rewrite round_half_even_Z. symmetry. exact H.
  - rewrite H at 1. field. intros H0. rewrite H0 in Hp. discriminate.
Qed.

Lemma rnd_idem (x : Q) : (0 < x)%Q -> (0 < rnd x)%Q -> (rnd (rnd x) == rnd x)%Q.
Proof.
  intros Hx Hr.
  destruct (significand_le x Hx) as [Hm0 Hm]. destruct (expo_ge x) as [_ He].
  set (M := round_half_even (x / 2 ^ expo x)) in *. set (e := expo x) in *.
  assert (rnd x == inject_Z M * 2 ^ e)%Q as Hrx by reflexivity.
  destruct (Qlog2_spec (rnd x) Hr) as [Hlo Hup].
  destruct (Z.eq_dec M (2 ^ 53)) as [Htop | Hbelow].
  - (* rounded up to the next power of two *)
    assert (rnd x == 2 ^ (53 + e))%Q as Hpow.
    { rewrite Hrx, Htop, pow2_Z, pow2_add by lia. reflexivity. }
    assert (Qlog2 (rnd x) = 53 + e) as HL.
    { apply Qlog2_unique; rewrite Hpow; [apply Qle_refl | apply pow2_lt; lia]. }
    apply (rnd_fixed _ (2 ^ 52)).
    assert (expo (rnd x) = e + 1) as -> by (unfold expo; lia).
    rewrite Hpow, pow2_Z, <- pow2_add by lia. f_equiv. lia.
  - assert (rnd x < 2 ^ (53 + e))%Q as Hlt.
    { rewrite Hrx, pow2_add. apply Qmult_lt_r; [apply pow2_pos|].
      rewrite <- pow2_Z by lia. rewrite <- Zlt_Qlt. lia. }
    assert (Qlog2 (rnd x) < 53 + e) as HL.
    { apply pow2_lt_inv. eapply Qle_lt_trans; [exact Hlo | exact Hlt]. }
    assert (expo (rnd x) <= e) as He' by (unfold expo; lia).
    apply (rnd_fixed _ (M * 2 ^ (e - expo (rnd x)))).
    rewrite inject_Z_mult, pow2_Z by lia.
    rewrite <- Qmult_assoc, <- pow2_add.
    replace (e - expo (rnd x) + expo (rnd x)) with e by lia. exact Hrx.
Qed.

Lemma binary64_idem (x : Q) : (binary64 (binary64 x) == binary64 x)%Q.
Proof.
  assert (forall z, 0 < z -> binary64 (rnd z) == rnd z)%Q as Hpos.
  { intros z Hz. pose proof (rnd_nonneg z Hz) as H0.
    destruct (Qeq_dec (rnd z) 0) as [Hzero | Hnz].
    - rewrite (binary64_zero _ Hzero). symmetry. exact Hzero.
    - assert (0 < rnd z)%Q as Hr by lra.
      rewrite (binary64_pos _ Hr). apply rnd_idem; assumption. }
  assert (forall z, 0 < z -> binary64 (- rnd z) == - rnd z)%Q as Hneg.
  { intros z Hz. pose proof (rnd_nonneg z Hz) as H0.
    destruct (Qeq_dec (rnd z) 0) as [Hzero | Hnz].
    - rewrite (binary64_zero (- rnd z)) by lra. lra.
    - assert (0 < rnd z)%Q as Hr by lra.
      rewrite (binary64_neg (- rnd z)) by lra.
      rewrite (rnd_wd (- - rnd z) (rnd z)) by (try lra; ring).
      rewrite (rnd_idem z Hz Hr). reflexivity. }
  destruct (Q_dec x 0) as [[Hx | Hx] | Hx].
  - rewrite (binary64_neg x Hx). apply Hneg. lra.
  - rewrite (binary64_pos x Hx). apply Hpos. exact Hx.
  - rewrite (binary64_zero x Hx). reflexivity.
Qed.

Lemma binary64_mono (x y : Q) : (x <= y)%Q -> (binary64 x <= binary64 y)%Q.
Proof.
  intros Hxy.
  assert (forall z, 0 < z -> 0 <= binary64 z)%Q as Hpos.
  { intros z Hz. rewrite (binary64_pos z Hz). apply rnd_nonneg, Hz. }
  assert (forall z, z < 0 -> binary64 z <= 0)%Q as Hneg.
  { intros z Hz. rewrite (binary64_neg z Hz).
    pose proof (rnd_nonneg (- z) ltac:(lra)). lra. }
  destruct (Q_dec x 0) as [[Hx | Hx] | Hx]; destruct (Q_dec y 0) as [[Hy | Hy] | Hy];
    try (exfalso; lra).
  - rewrite (binary64_neg x Hx), (binary64_neg y Hy).
    pose proof (rnd_mono (- y) (- x) ltac:(lra) ltac:(lra)). lra.
  - pose proof (Hneg x Hx). pose proof (Hpos y Hy). lra.
  - rewrite (binary64_zero y Hy). apply Hneg, Hx.
  - rewrite (binary64_pos x Hx), (binary64_pos y Hy). apply rnd_mono; assumption.
  - rewrite (binary64_zero x Hx). apply Hpos, Hy.
  - rewrite (binary64_zero x Hx), (binary64_zero y Hy). apply Qle_refl.
Qed.

Lemma binary64_opp (x : Q) : (binary64 (- x) == - binary64 x)%Q.
Proof.
  destruct (Q_dec x 0) as [[Hx | Hx] | Hx].
  - rewrite (binary64_neg x Hx), (binary64_pos (- x)) by lra. ring.
  - rewrite (binary64_pos x Hx), (binary64_neg (- x)) by lra.
    rewrite (rnd_wd (- - x) x) by (try lra; ring). reflexivity.
  - rewrite (binary64_zero x Hx), (binary64_zero (- x)) by lra. reflexivity.
Qed.

Lemma binary64_abs (x : Q) : (Qabs (binary64 x) == binary64 (Qabs x))%Q.
Proof.
  destruct (Qlt_le_dec x 0) as [Hx | Hx].
  - rewrite (Qabs_neg x) by lra. rewrite binary64_opp.
    apply Qabs_neg. rewrite (binary64_neg x Hx).
    pose proof (rnd_nonneg (- x) ltac:(lra)). lra.
  - rewrite (Qabs_pos x Hx). apply Qabs_pos.
    rewrite <- (binary64_zero 0) by reflexivity. apply binary64_mono, Hx.
Qed.

(** An integer of at most 53 bits is a float. *)
Lemma binary64_Z (n : Z) : Z.abs n <= 2 ^ 53 -> (binary64 (inject_Z n) == inject_Z n)%Q.
Proof.
  assert (forall k : Z, 0 < k <= 2 ^ 53 -> (rnd (inject_Z k) == inject_Z k)%Q) as Hpos.
  { intros k [Hk0 Hk].
    assert (0 < inject_Z k)%Q as Hq by (change 0%Q with (inject_Z 0); rewrite <- Zlt_Qlt; lia).
    destruct (Qlog2_spec _ Hq) as [Hlo Hup].
    destruct (Z.eq_dec k (2 ^ 53)) as [-> | Hne].
    - assert (Qlog2 (inject_Z (2 ^ 53)) = 53) as HL.
      { apply Qlog2_unique; rewrite pow2_Z by lia; [apply Qle_refl | apply pow2_lt; lia]. }
      apply (rnd_fixed _ (2 ^ 52)).
      assert (expo (inject_Z (2 ^ 53)) = 1) as -> by (unfold expo; lia).
      reflexivity.
    - assert (inject_Z k < 2 ^ 53)%Q as Hlt.
      { rewrite <- pow2_Z by lia. rewrite <- Zlt_Qlt. lia. }
      assert (Qlog2 (inject_Z k) < 53) as HL.
      { apply pow2_lt_inv. eapply Qle_lt_trans; [exact Hlo | exact Hlt]. }
      assert (-1074 <= expo (inject_Z k) <= 0) as He by (unfold expo; lia).
      apply (rnd_fixed _ (k * 2 ^ (- expo (inject_Z k)))).
      rewrite inject_Z_mult, pow2_Z by lia.
      rewrite <- Qmult_assoc, <- pow2_add.
      replace (- expo (inject_Z k) + expo (inject_Z k)) with 0 by lia.
      change (2 ^ 0)%Q with 1%Q. ring. }
  intros Hn. destruct (Z.lt_trichotomy n 0) as [Hneg | [-> | Hp]].
  - assert (inject_Z n < 0)%Q as Hq by (change 0%Q with (inject_Z 0); rewrite <- Zlt_Qlt; lia).
    rewrite (binary64_neg _ Hq). rewrite <- inject_Z_opp. rewrite Hpos by lia.
    rewrite inject_Z_opp. ring.
  - reflexivity.
  - assert (0 < inject_Z n)%Q as Hq by (change 0%Q with (inject_Z 0); rewrite <- Zlt_Qlt; lia).
    rewrite (binary64_pos _ Hq). apply Hpos. lia.
Qed.

(** The result is within half a unit in the last place. *)
Lemma rnd_error (x : Q) : (0 < x)%Q -> (Qabs (rnd x - x) <= 2 ^ (expo x - 1))%Q.
Proof.
  intros Hx. unfold rnd.
  pose proof (pow2_pos (expo x)) as Hp.
  pose proof (round_half_even_near (x / 2 ^ expo x)) as [Hlo Hhi].
  pose proof (scale_back x (expo x)) as Hback.
  assert (2 ^ (expo x - 1) == 2 ^ expo x * (1 # 2))%Q as ->.
  { unfold Z.sub. rewrite pow2_add. reflexivity. }
  set (p := (2 ^ expo x)%Q) in *. set (q := (x / p)%Q) in *.
  set (m := inject_Z (round_half_even q)) in *. clearbody m. clearbody q. clearbody p.
  apply Qabs_Qle_condition. rewrite <- Hback. split; nra.
Qed.

Lemma binary64_error (x : Q) :
  (2 ^ (-1022) <= Qabs x)%Q -> (Qabs (binary64 x - x) <= Qabs x * 2 ^ (-53))%Q.
Proof.
  assert (forall z, 2 ^ (-1022) <= z -> Qabs (rnd z - z) <= z * 2 ^ (-53))%Q as Hpos.
  { intros z Hz.
    assert (0 < z)%Q as Hz0 by (eapply Qlt_le_trans; [apply pow2_pos | exact Hz]).
    destruct (Qlog2_spec z Hz0) as [Hlo Hup].
    assert (-1022 < Qlog2 z + 1) as HL.
    { apply pow2_lt_inv. eapply Qle_lt_trans; [exact Hz | exact Hup]. }
    eapply Qle_trans; [apply rnd_error, Hz0|].
    assert (expo z - 1 = Qlog2 z + -53) as -> by (unfold expo; lia).
    rewrite pow2_add. apply Qmult_le_compat_r; [exact Hlo | apply Qlt_le_weak, pow2_pos]. }
  intros Hx.
  assert (0 < Qabs x)%Q as Habs by (eapply Qlt_le_trans; [apply pow2_pos | exact Hx]).
  destruct (Qlt_le_dec x 0) as [Hneg | Hnn].
  - rewrite (Qabs_neg x) in * by lra.
    rewrite (binary64_neg x Hneg).
    setoid_replace (- rnd (- x) - x)%Q with (- (rnd (- x) - - x))%Q using relation Qeq by ring.
    rewrite Qabs_opp. apply Hpos, Hx.
  - rewrite (Qabs_pos x) in * by lra.
    rewrite (binary64_pos x Habs). apply Hpos, Hx.
Qed.

(** ** [IPCStrategy] *)

Section IPCProperties.
Import IPC.
Context {RT : Runtime}.

(** Run the monad layer by call-by-value, then read the records. *)
Ltac exec :=
  cbv [call step handler check_signal_trigger check_position_management close_position trail_to
       next_event_id _update_strategy_state
       try_except Exception bind lift ret raise get_self update_self broadcast log modify fresh
       self broadcasts logs after emitted logged result fst snd app] in *;
  cbn [set_event_counter set_active_signal set_trailing_stop_active set_peak_price
       set_strategy_state set_state_sequence set_stop_loss snapshot mk_event
       instance_name event_counter params active_signal trailing_stop_active peak_price
       strategy_state _state_sequence
       direction entry_price stop_loss target trailing_activation_price entry_time
       event_id event_time ev_instance_name position reason ev_strategy_state event_data
       state_seq] in *.

(** Split on the next undecided test of the handler. *)
Ltac crunch :=
  repeat (exec;
          first [ match goal with |- context [lift ?r] => destruct r eqn:? end
                | case_match ];
          simplify_eq).

Lemma step_of_run (c : Call) (s : IPCStrategy) w r :
  handler c (fresh s) = (w, r) →
  step c s = {| after := self w; emitted := broadcasts w; logged := logs w; result := r |}.
Proof. intros Hrun. unfold step, call. by rewrite Hrun. Qed.

Lemma check_signal_trigger_cases now prediction tick_data (s : IPCStrategy) :
  ∃ w, check_signal_trigger now prediction tick_data (fresh s) = (w, inr tt)
       ∧ ((self w = s ∧ broadcasts w = [])
          ∨ ∃ e, broadcasts w = [e] ∧ transition s (self w) e).
Proof.
  unfold check_signal_trigger.
  generalize (py_float (dict_get prediction "prediction_price" (PyInt 0))).
  generalize (py_float (dict_get prediction "predicted_price" (PyInt 0))).
  generalize (dict_get prediction "prediction_time" (PyStr "")).
  generalize (py_float (dict_get tick_data "p" (PyInt 0))).
  intros tick_price time_str predicted current.
  crunch; exec.
  all: eexists; (split; [reflexivity|]); exec; try (left; done).
  all: right; eexists; (split; [reflexivity|]); unfold transition; exec; eauto 10.
Qed.

Lemma check_position_management_cases now tick_data (s : IPCStrategy) :
  ∃ w, check_position_management now tick_data (fresh s) = (w, inr tt)
       ∧ ((self w = s ∧ broadcasts w = [])
          ∨ ∃ e, broadcasts w = [e] ∧ transition s (self w) e).
Proof.
  unfold check_position_management.
  generalize (py_float (dict_get tick_data "p" (PyInt 0))).
  intros tick_price.
  crunch; exec.
  all: eexists; (split; [reflexivity|]); exec; try (left; done).
  all: right; eexists; (split; [reflexivity|]); unfold transition; exec; eauto 10.
Qed.

(** Every call returns normally and either leaves the instance as it was,
    broadcasting nothing, or makes one stamped transition and broadcasts its
    one event. *)
Lemma step_cases (c : Call) (s : IPCStrategy) :
  result (step c s) = inr tt
  ∧ ((after (step c s) = s ∧ emitted (step c s) = [])
     ∨ ∃ e, emitted (step c s) = [e] ∧ transition s (after (step c s)) e).
Proof.
  destruct c as [now prediction tick_data | now tick_data].
  - destruct (check_signal_trigger_cases now prediction tick_data s) as (w & Hrun & Hw).
    by rewrite (step_of_run (CheckSignalTrigger now prediction tick_data) s w _ Hrun).
  - destruct (check_position_management_cases now tick_data s) as (w & Hrun & Hw).
    by rewrite (step_of_run (CheckPositionManagement now tick_data) s w _ Hrun).
Qed.

Lemma check_signal_trigger_held now prediction tick_data (s : IPCStrategy) sig :
  active_signal s = Some sig →
  step (CheckSignalTrigger now prediction tick_data) s
  = {| after := s; emitted := []; logged := []; result := inr tt |}.
Proof. intros Hs. exec. by rewrite Hs. Qed.

Lemma trace_alternates (calls : list Call) :
  ∀ s, alternates (bool_decide (is_Some (active_signal s))) (trace calls s) = true.
Proof.
  induction calls as [|c rest IH]; intros s; [done|].
  cbn [trace].
  destruct (step_cases c s) as [_ [[-> ->] | (e & -> & Ht)]]; [apply IH|].
  destruct Ht as (_ & _ & _ & _ & _ & Hpos).
  specialize (IH (after (step c s))).
  cbn [app alternates].
  destruct (position e); destruct Hpos as [Hbefore Hafter].
  - rewrite Hbefore. rewrite bool_decide_eq_true_2 in IH by done.
    rewrite bool_decide_eq_false_2 by (by intros [? ?]). done.
  - rewrite bool_decide_eq_true_2 in IH by done.
    by rewrite bool_decide_eq_true_2.
  - rewrite Hafter in IH. rewrite bool_decide_eq_false_2 in IH by (by intros [? ?]). done.
Qed.

(** C1.  [check_signal_trigger] does nothing at all while [active_signal] is
    set, and in the events of any sequence of calls, from any instance, two
    [OPEN]s always have a [CLOSE] between them. *)
Theorem at_most_one_position (calls : list Call) (s : IPCStrategy) :
  (∀ now prediction tick_data,
     is_Some (active_signal s) →
     step (CheckSignalTrigger now prediction tick_data) s
     = {| after := s; emitted := []; logged := []; result := inr tt |})
  ∧ (∀ (i j : nat) (e1 e2 : Event),
       (i < j)%nat →
       trace calls s !! i = Some e1 → trace calls s !! j = Some e2 →
       position e1 = OPEN → position e2 = OPEN →
       ∃ (k : nat) (e : Event),
         (i < k < j)%nat ∧ trace calls s !! k = Some e ∧ position e = CLOSE).
Proof.
  split.
  - intros now prediction tick_data [sig Hs]. by eapply check_signal_trigger_held.
  - intros i j e1 e2. eapply alternates_no_double_open, trace_alternates.
Qed.


(** The parameters are never assigned. *)
Lemma step_params (c : Call) (s : IPCStrategy) :
  params (after (step c s)) = params s.
Proof.
  destruct (step_cases c s) as [_ [[-> _] | (e & _ & Ht)]]; [done|].
  by destruct Ht as (_ & _ & _ & Hp & _).
Qed.

Lemma init_coherent name p : trailing_coherent (init name p).
Proof. by intros Ht. Qed.

Lemma step_coherent (c : Call) (s : IPCStrategy) :
  trailing_coherent s → trailing_coherent (after (step c s)).
Proof.
  intros Hs.
  destruct c as [now prediction tick_data | now tick_data]; unfold step, handler.
  - unfold check_signal_trigger.
    generalize (py_float (dict_get prediction "prediction_price" (PyInt 0))).
    generalize (py_float (dict_get prediction "predicted_price" (PyInt 0))).
    generalize (dict_get prediction "prediction_time" (PyStr "")).
    generalize (py_float (dict_get tick_data "p" (PyInt 0))).
    intros tick_price time_str predicted current.
    crunch; exec; try done.
    all: by intros Ht.
  - unfold check_position_management.
    generalize (py_float (dict_get tick_data "p" (PyInt 0))).
    intros tick_price.
    crunch; exec; try done.
    all: intros Ht; exec; try done.
    all: eexists _, _; exec; (split; [reflexivity|]); (split; [reflexivity|]).
    all: exec; by match goal with H : direction _ = _ |- _ => rewrite H end.
Qed.

Lemma run_coherent (calls : list Call) :
  ∀ s, trailing_coherent s → trailing_coherent (run calls s).
Proof.
  induction calls as [|c rest IH]; intros s Hs; [done|].
  cbn [run]. by apply IH, step_coherent.
Qed.

(** One call on a coherent instance with trailing active: a Position that
    survives the call keeps its direction and its stop does not loosen. *)
Lemma step_tightens (c : Call) (s : IPCStrategy) sig sig' :
  trailing_coherent s →
  trailing_stop_active s = true →
  active_signal s = Some sig →
  active_signal (after (step c s)) = Some sig' →
  direction sig' = direction sig
  ∧ match direction sig with
    | LONG => (stop_loss sig <= stop_loss sig')%Q
    | SHORT => (stop_loss sig' <= stop_loss sig)%Q
    end.
Proof.
  intros Hcoh Ht Hs.
  destruct (Hcoh Ht) as (sig0 & peak & Hs0 & Hpeak & Hstop).
  assert (sig0 = sig) as -> by congruence. clear Hcoh.
  assert (∀ d, match d with LONG | SHORT => (stop_loss sig <= stop_loss sig)%Q end) as Hrefl.
  { intros []; apply Qle_refl. }
  destruct c as [now prediction tick_data | now tick_data].
  - rewrite (check_signal_trigger_held _ _ _ _ _ Hs). cbn [after]. intros Hs'.
    assert (sig' = sig) as -> by congruence. split; [done | apply Hrefl].
  - unfold step, handler, check_position_management.
    generalize (py_float (dict_get tick_data "p" (PyInt 0))).
    intros tick_price. unfold peak_of.
    crunch; exec; intros Hs'; simplify_eq; exec; try done;
      try (split; [done | apply Qle_refl]).
    all: split; [done|].
    all: match goal with H : Qltb _ _ = true |- _ => apply Qltb_lt in H end.
    all: rewrite Hstop; lra.
Qed.

(** C4.  In every instance reached from [__init__] by any sequence of calls,
    once [trailing_stop_active] is set, a call that leaves the Position in
    place leaves its [stop_loss] where it was or moves it up for a LONG and
    down for a SHORT. *)
Theorem trailing_stop_never_loosened (name : string) (p : Params)
    (calls : list Call) (c : Call) (sig sig' : Signal) :
  trailing_stop_active (run calls (init name p)) = true →
  active_signal (run calls (init name p)) = Some sig →
  active_signal (after (step c (run calls (init name p)))) = Some sig' →
  direction sig' = direction sig
  ∧ match direction sig with
    | LONG => (stop_loss sig <= stop_loss sig')%Q
    | SHORT => (stop_loss sig' <= stop_loss sig)%Q
    end.
Proof.
  apply step_tightens, run_coherent, init_coherent.
Qed.


Lemma session_gate_open (s : IPCStrategy) (t : Z) :
  session_permits s t →
  session_filter (params s)
  && ((5 <=? weekday (ny_local t)) || (hour (ny_local t) <? 8) || (11 <=? hour (ny_local t)))
  = false.
Proof.
  unfold session_permits. intros Hperm. destruct (session_filter (params s)); [|done].
  destruct (Hperm eq_refl) as (Hday & Hlo & Hhi).
  cbn [andb]. rewrite !orb_false_iff. repeat split; lia.
Qed.

Lemma session_gate_closed (s : IPCStrategy) (t : Z) :
  session_filter (params s) = true →
  5 ≤ weekday (ny_local t) ∨ hour (ny_local t) < 8 ∨ 11 ≤ hour (ny_local t) →
  session_filter (params s)
  && ((5 <=? weekday (ny_local t)) || (hour (ny_local t) <? 8) || (11 <=? hour (ny_local t)))
  = true.
Proof.
  intros -> Hout. cbn [andb]. rewrite !orb_true_iff. lia.
Qed.

(** What a prediction that passes every test does: the Position it opens
    and the one event it broadcasts. *)
Lemma check_signal_trigger_opens now prediction tick_data (s : IPCStrategy)
    (x y price : Q) (t : Z) :
  active_signal s = None →
  reads_prediction prediction x y t →
  py_float (dict_get tick_data "p" (PyInt 0)) = inr price →
  (delta (params s) < Qabs (y - x))%Q →
  session_permits s t →
  ∃ e sig,
    emitted (step (CheckSignalTrigger now prediction tick_data) s) = [e]
    ∧ result (step (CheckSignalTrigger now prediction tick_data) s) = inr tt
    ∧ active_signal (after (step (CheckSignalTrigger now prediction tick_data) s)) = Some sig
    ∧ trailing_stop_active (after (step (CheckSignalTrigger now prediction tick_data) s)) = false
    ∧ peak_price (after (step (CheckSignalTrigger now prediction tick_data) s)) = Some price
    ∧ _state_sequence (after (step (CheckSignalTrigger now prediction tick_data) s))
      = _state_sequence s + 1
    ∧ direction sig = (if Qltb 0 (y - x) then LONG else SHORT)
    ∧ entry_price sig = price
    ∧ target sig = y
    ∧ entry_time sig = now
    ∧ stop_loss sig =
        match direction sig with
        | LONG => (price - initial_stop_loss_points (params s))%Q
        | SHORT => (price + initial_stop_loss_points (params s))%Q
        end
    ∧ trailing_activation_price sig =
        match direction sig with
        | LONG => (price + trailing_activation_offset (params s))%Q
        | SHORT => (price - trailing_activation_offset (params s))%Q
        end
    ∧ position e = OPEN
    ∧ reason e = SIGNAL_DETECTED
    ∧ ev_strategy_state e =
        FullState (Some (stop_loss sig)) (Some y) (Some price)
          (Some (trailing_activation_price sig)) false (_state_sequence s + 1)
    ∧ event_data e =
        OpenData (direction sig) price y (stop_loss sig) (Some (trailing_activation_price sig)).
Proof.
  intros Hs (Hx & Hy & Htruthy & Hparse) Htick Hdelta Hperm.
  apply Qle_bool_gt in Hdelta. apply session_gate_open in Hperm.
  unfold step, handler, check_signal_trigger.
  rewrite Hx, Hy, Htruthy, Hparse, Htick.
  exec. rewrite Hs. exec. rewrite Hdelta, Hperm. exec.
  eexists _, _. repeat (split; [reflexivity|]). reflexivity.
Qed.


Lemma hour_lt (local h : Z) :
  hour local < h ↔ local mod usec_per_day < h * usec_per_hour.
Proof.
  unfold hour. cbv [usec_per_day usec_per_hour usec_per_sec].
  Z.div_mod_to_equations. lia.
Qed.

Lemma hour_ge (local h : Z) :
  h ≤ hour local ↔ h * usec_per_hour ≤ local mod usec_per_day.
Proof.
  unfold hour. cbv [usec_per_day usec_per_hour usec_per_sec].
  Z.div_mod_to_equations. lia.
Qed.

(** With the session filter on, a prediction made outside the window
    changes nothing and broadcasts nothing. *)
Lemma check_signal_trigger_outside_session now prediction tick_data (s : IPCStrategy) (t : Z) :
  session_filter (params s) = true →
  parse_iso_time (dict_get prediction "prediction_time" (PyStr "")) = inr t →
  5 ≤ weekday (ny_local t) ∨ hour (ny_local t) < 8 ∨ 11 ≤ hour (ny_local t) →
  after (step (CheckSignalTrigger now prediction tick_data) s) = s
  ∧ emitted (step (CheckSignalTrigger now prediction tick_data) s) = [].
Proof.
  intros Hfilter Hparse Hout.
  pose proof (session_gate_closed s t Hfilter Hout) as Hgate.
  unfold step, handler, check_signal_trigger. rewrite Hparse.
  generalize (py_float (dict_get prediction "prediction_price" (PyInt 0))).
  generalize (py_float (dict_get prediction "predicted_price" (PyInt 0))).
  generalize (truthy (dict_get prediction "prediction_time" (PyStr ""))).
  generalize (py_float (dict_get tick_data "p" (PyInt 0))).
  intros tick_price nonempty predicted current.
  crunch; exec; done.
Qed.

(** C6.  With the session filter on, a prediction whose time in New York is
    before 08:00, at or after 11:00, or on a Saturday or Sunday changes
    nothing and broadcasts nothing, whatever its prices; one made at 08:00:00
    on a weekday opens a Position when the other tests pass. *)
Theorem session_filter_boundary now prediction tick_data (s : IPCStrategy) (t : Z) :
  session_filter (params s) = true →
  truthy (dict_get prediction "prediction_time" (PyStr "")) = true →
  parse_iso_time (dict_get prediction "prediction_time" (PyStr "")) = inr t →
  ((ny_local t mod usec_per_day < 8 * usec_per_hour
    ∨ 11 * usec_per_hour ≤ ny_local t mod usec_per_day
    ∨ 5 ≤ weekday (ny_local t)) →
     after (step (CheckSignalTrigger now prediction tick_data) s) = s
     ∧ emitted (step (CheckSignalTrigger now prediction tick_data) s) = [])
  ∧ (weekday (ny_local t) < 5 →
     ny_local t mod usec_per_day = 8 * usec_per_hour →
     ∀ (x y price : Q),
       active_signal s = None →
       py_float (dict_get prediction "prediction_price" (PyInt 0)) = inr x →
       py_float (dict_get prediction "predicted_price" (PyInt 0)) = inr y →
       py_float (dict_get tick_data "p" (PyInt 0)) = inr price →
       (delta (params s) < Qabs (y - x))%Q →
       ∃ e,
         emitted (step (CheckSignalTrigger now prediction tick_data) s) = [e]
         ∧ position e = OPEN
         ∧ is_Some (active_signal (after (step (CheckSignalTrigger now prediction tick_data) s)))).
Proof.
  intros Hfilter Htruthy Hparse. split.
  - intros Hout. eapply check_signal_trigger_outside_session; [done..|].
    rewrite hour_lt, hour_ge. tauto.
  - intros Hday Height x y price Hs Hx Hy Htick Hdelta.
    destruct (check_signal_trigger_opens now prediction tick_data s x y price t)
      as (e & sig & He & _ & Hafter & _ & _ & _ & _ & _ & _ & _ & _ & _ & Hpos & _);
      [done | by repeat split | done | done | |].
    + intros _. split; [done|]. rewrite hour_ge, hour_lt, Height.
      cbv [usec_per_hour usec_per_sec]. lia.
    + exists e. rewrite Hafter. by eauto.
Qed.

(** C10.  When the tick dict has no ["p"] key the price read is 0: a
    prediction that passes the tests opens a Position entered at 0, and a
    LONG one has its stop at minus [initial_stop_loss_points] and its
    trailing activation price at [trailing_activation_offset]. *)
Theorem missing_tick_price_defaults_to_zero now prediction tick_data (s : IPCStrategy)
    (x y : Q) (t : Z) :
  tick_data !! "p" = None →
  active_signal s = None →
  reads_prediction prediction x y t →
  (delta (params s) < Qabs (y - x))%Q →
  session_permits s t →
  ∃ sig,
    active_signal (after (step (CheckSignalTrigger now prediction tick_data) s)) = Some sig
    ∧ entry_price sig = 0%Q
    ∧ ((0 < y - x)%Q →
       direction sig = LONG
       ∧ (stop_loss sig == - initial_stop_loss_points (params s))%Q
       ∧ (trailing_activation_price sig == trailing_activation_offset (params s))%Q).
Proof.
  intros Hmissing Hs Hreads Hdelta Hperm.
  destruct (check_signal_trigger_opens now prediction tick_data s x y (inject_Z 0) t)
    as (e & sig & _ & _ & Hafter & _ & _ & _ & Hdir & Hentry & _ & _ & Hstop & Htsa & _);
    [done | done | | done | done |].
  { unfold dict_get. by rewrite Hmissing. }
  exists sig. split; [done|]. split; [done|].
  intros Hlong. apply Qltb_lt in Hlong. rewrite Hlong in Hdir.
  rewrite Hdir in Hstop, Htsa. rewrite Hstop, Htsa.
  split; [done|]. split; unfold inject_Z; lra.
Qed.

(** C8.  A tick that is within the time limit, beyond the stop on the safe
    side, short of the activation price while trailing is off and no new peak
    while it is on returns the instance untouched, broadcasts nothing and
    logs nothing. *)
Theorem noop_tick_idempotent now tick_data (s : IPCStrategy) (sig : Signal) (price : Q) :
  active_signal s = Some sig →
  py_float (dict_get tick_data "p" (PyInt 0)) = inr price →
  now - entry_time sig ≤ timedelta_hours (max_position_duration_hours (params s)) →
  match direction sig with
  | LONG => (stop_loss sig < price)%Q
  | SHORT => (price < stop_loss sig)%Q
  end →
  (trailing_stop_active s = false →
   match direction sig with
   | LONG => (price < trailing_activation_price sig)%Q
   | SHORT => (trailing_activation_price sig < price)%Q
   end) →
  (trailing_stop_active s = true →
   ∃ peak, peak_price s = Some peak
           ∧ match direction sig with
             | LONG => (price <= peak)%Q
             | SHORT => (peak <= price)%Q
             end) →
  step (CheckPositionManagement now tick_data) s
  = {| after := s; emitted := []; logged := []; result := inr tt |}.
Proof.
  intros Hs Htick Htime Hstop Hactivation Hpeak.
  apply Z.ltb_ge in Htime.
  unfold step, handler, check_position_management. rewrite Htick.
  exec. rewrite Hs. exec. rewrite Htime.
  destruct (direction sig), (trailing_stop_active s) eqn:Ht.
  all: apply Qle_bool_gt in Hstop; rewrite Hstop.
  all: try (destruct (Hpeak eq_refl) as (peak & Hp & Hle); apply Qltb_ge in Hle;
            unfold peak_of; rewrite Hp; exec; by rewrite Hle).
  all: specialize (Hactivation eq_refl); apply Qle_bool_gt in Hactivation;
    by rewrite Hactivation.
Qed.

(** C7, as the code has it.  No call lets an exception out, and a tick
    whose ["p"] is there but is not a number for [float] changes nothing and
    broadcasts nothing; with a Position held it is logged as an error. *)
Theorem non_numeric_tick_ignored now tick_data (s : IPCStrategy) (v : pyval) (e : exn) :
  tick_data !! "p" = Some v →
  py_float v = inl e →
  step (CheckPositionManagement now tick_data) s
  = {| after := s;
       emitted := [];
       logged := match active_signal s with
                 | Some _ => [("ERROR"%string, ErrorInPositionManagement e)]
                 | None => []
                 end;
       result := inr tt |}
  ∧ ∀ c, result (step c s) = inr tt.
Proof.
  intros Hv He. split; [|intros c; apply step_cases].
  unfold step, handler, check_position_management, dict_get. rewrite Hv, He.
  exec. by destruct (active_signal s).
Qed.


(** Evaluate the closed tests and dict lookups of a concrete call. *)
Ltac evaluate :=
  repeat match goal with
    | |- context [dict_get ?d ?k ?v] =>
        let r := eval vm_compute in (dict_get d k v) in change (dict_get d k v) with r
    | |- context [Qle_bool ?a ?b] =>
        let r := eval vm_compute in (Qle_bool a b) in change (Qle_bool a b) with r
    | |- context [Qltb ?a ?b] =>
        let r := eval vm_compute in (Qltb a b) in change (Qltb a b) with r
    | |- context [pnl_pct_of ?a ?b] =>
        let r := eval vm_compute in (pnl_pct_of a b) in change (pnl_pct_of a b) with r
    end.

(** C3.  The end-to-end scenario of the specification, for any instance
    name, any prediction time that parses and any three clock readings
    within the two hours: [OPEN] LONG at 100000 with stop 98000, activation
    101000, target 100700 and seq 1; then [TRAILING_STOP_ACTIVATED] with peak
    101000, stop 100100 and seq 2; then [STOP_LOSS_HIT] with pnl 50, 0.05
    percent and seq 3, and no Position left. *)
Theorem end_to_end_scenario (name ts : string) (t now0 now1 now2 : Z) :
  ts ≠ ""%string →
  fromisoformat (replace_Z ts) = Some t →
  now1 - now0 ≤ timedelta_hours 2 →
  now2 - now0 ≤ timedelta_hours 2 →
  let s0 := init name scenario_params in
  let o1 := step (CheckSignalTrigger now0 (mk_prediction 100000 100700 (PyStr ts))
                    (tick_at 100000)) s0 in
  let o2 := step (CheckPositionManagement now1 (tick_at 101000)) (after o1) in
  let o3 := step (CheckPositionManagement now2 (tick_at 100050)) (after o2) in
  emitted o1 =
    [ {| event_id := mk_event_id name 1 now0;
         event_time := now0;
         ev_instance_name := name;
         position := OPEN;
         reason := SIGNAL_DETECTED;
         ev_strategy_state :=
           FullState (Some 98000%Q) (Some 100700%Q) (Some 100000%Q) (Some 101000%Q) false 1;
         event_data := OpenData LONG 100000 100700 98000 (Some 101000%Q) |} ]
  ∧ emitted o2 =
    [ {| event_id := mk_event_id name 2 now1;
         event_time := now1;
         ev_instance_name := name;
         position := UPDATE;
         reason := TRAILING_STOP_ACTIVATED;
         ev_strategy_state :=
           FullState (Some 100100%Q) (Some 100700%Q) (Some 100000%Q) (Some 101000%Q) true 2;
         event_data :=
           TrailingData LONG (Some 100000%Q) (Some 100100%Q) (Some 101000%Q) 101000 |} ]
  ∧ (∃ pnl pnl_pct,
       emitted o3 =
         [ {| event_id := mk_event_id name 3 now2;
              event_time := now2;
              ev_instance_name := name;
              position := CLOSE;
              reason := STOP_LOSS_HIT;
              ev_strategy_state := EmptyState 3;
              event_data := CloseData LONG 100000 100100 100050 pnl pnl_pct |} ]
       ∧ (pnl == 50)%Q ∧ (pnl_pct == 0.05)%Q)
  ∧ active_signal (after o3) = None
  ∧ strategy_state (after o3) = EmptyState 3.
Proof.
  intros Hts Hparse Hnow1 Hnow2 s0 o1 o2 o3.
  apply String.eqb_neq in Hts. apply Z.ltb_ge in Hnow1, Hnow2.
  assert (o1 =
    {| after :=
         {| instance_name := name; event_counter := 1; params := scenario_params;
            active_signal := Some
              {| direction := LONG; entry_price := 100000; stop_loss := 98000;
                 target := 100700; trailing_activation_price := 101000;
                 entry_time := now0;
                 prediction_data :=
                   {| prediction_price := 100000; pd_predicted_price := 100700;
                      prediction_time := PyStr ts |} |};
            trailing_stop_active := false; peak_price := Some 100000%Q;
            strategy_state :=
              FullState (Some 98000%Q) (Some 100700%Q) (Some 100000%Q) (Some 101000%Q) false 1;
            _state_sequence := 1 |};
       emitted :=
         [ {| event_id := mk_event_id name 1 now0; event_time := now0;
              ev_instance_name := name; position := OPEN; reason := SIGNAL_DETECTED;
              ev_strategy_state :=
                FullState (Some 98000%Q) (Some 100700%Q) (Some 100000%Q) (Some 101000%Q) false 1;
              event_data := OpenData LONG 100000 100700 98000 (Some 101000%Q) |} ];
       logged := [("INFO"%string, SignalGenerated LONG 100000 98000 100700)];
       result := inr tt |}) as Ho1.
  { subst o1 s0. unfold step, handler, check_signal_trigger.
    evaluate. cbn [py_float truthy parse_iso_time].
    rewrite Hts, Hparse. cbv [init scenario_params]. exec. cbn [delta session_filter].
    evaluate. exec. reflexivity. }
  assert (o2 =
    {| after :=
         {| instance_name := name; event_counter := 2; params := scenario_params;
            active_signal := Some
              {| direction := LONG; entry_price := 100000; stop_loss := 100100;
                 target := 100700; trailing_activation_price := 101000;
                 entry_time := now0;
                 prediction_data :=
                   {| prediction_price := 100000; pd_predicted_price := 100700;
                      prediction_time := PyStr ts |} |};
            trailing_stop_active := true; peak_price := Some 101000%Q;
            strategy_state :=
              FullState (Some 100100%Q) (Some 100700%Q) (Some 100000%Q) (Some 101000%Q) true 2;
            _state_sequence := 2 |};
       emitted :=
         [ {| event_id := mk_event_id name 2 now1; event_time := now1;
              ev_instance_name := name; position := UPDATE;
              reason := TRAILING_STOP_ACTIVATED;
              ev_strategy_state :=
                FullState (Some 100100%Q) (Some 100700%Q) (Some 100000%Q) (Some 101000%Q) true 2;
              event_data :=
                TrailingData LONG (Some 100000%Q) (Some 100100%Q) (Some 101000%Q) 101000 |} ];
       logged := [("INFO"%string, TrailingStopActivated 101000 100100)];
       result := inr tt |}) as Ho2.
  { subst o2. rewrite Ho1. cbn [after]. unfold step, handler, check_position_management.
    evaluate. cbn [py_float]. exec.
    cbn [max_position_duration_hours scenario_params]. rewrite Hnow1.
    evaluate. exec. cbn [trailing_stop_distance scenario_params]. reflexivity. }
  split; [by rewrite Ho1|]. split; [by rewrite Ho2|].
  assert (o3 =
    {| after :=
         {| instance_name := name; event_counter := 3; params := scenario_params;
            active_signal := None;
            trailing_stop_active := false; peak_price := None;
            strategy_state := EmptyState 3;
            _state_sequence := 3 |};
       emitted :=
         [ {| event_id := mk_event_id name 3 now2; event_time := now2;
              ev_instance_name := name; position := CLOSE; reason := STOP_LOSS_HIT;
              ev_strategy_state := EmptyState 3;
              event_data :=
                CloseData LONG 100000 100100 100050 (100050 - 100000) (5000 # 100000) |} ];
       logged :=
         [("INFO"%string,
           PositionClosed STOP_LOSS_HIT LONG 100050 (100050 - 100000) (5000 # 100000))];
       result := inr tt |}) as Ho3.
  { subst o3. rewrite Ho2. cbn [after]. unfold step, handler, check_position_management.
    evaluate. cbn [py_float]. exec.
    cbn [max_position_duration_hours scenario_params]. rewrite Hnow2.
    evaluate. exec. cbn [pnl_of]. evaluate. exec. reflexivity. }
  rewrite Ho3. cbn [after emitted active_signal strategy_state].
  split; [|done]. eexists _, _. split; [reflexivity|]. split; reflexivity.
Qed.


(** *** Further properties of the handlers *)

Lemma pnl_pct_of_nonzero (pnl entry : Q) :
  ¬ (entry == 0)%Q → pnl_pct_of pnl entry = inr (pnl / entry * 100)%Q.
Proof.
  intros Hne. unfold pnl_pct_of, py_div, Qnonzero.
  destruct (Qeq_bool entry 0) eqn:Heq; [|done].
  by apply Qeq_bool_iff in Heq.
Qed.

(** X1.  A tick that comes later than [max_position_duration_hours] after
    the entry closes the Position at the tick price with
    [POSITION_TIME_LIMIT_HIT], wherever that price is relative to the stop:
    the time limit is tested before the stop loss.  The pnl is the signed
    distance from the entry, the percentage is taken of the entry, which
    must not be 0; [peak_price] is left as it was. *)
Theorem time_limit_closes_first now tick_data (s : IPCStrategy) (sig : Signal) (price : Q) :
  active_signal s = Some sig →
  py_float (dict_get tick_data "p" (PyInt 0)) = inr price →
  timedelta_hours (max_position_duration_hours (params s)) < now - entry_time sig →
  ¬ (entry_price sig == 0)%Q →
  let pnl := pnl_of (direction sig) (entry_price sig) price in
  let pnl_pct := (pnl / entry_price sig * 100)%Q in
  step (CheckPositionManagement now tick_data) s
  = {| after :=
         {| instance_name := instance_name s;
            event_counter := event_counter s + 1;
            params := params s;
            active_signal := None;
            trailing_stop_active := false;
            peak_price := peak_price s;
            strategy_state := EmptyState (_state_sequence s + 1);
            _state_sequence := _state_sequence s + 1 |};
       emitted :=
         [ {| event_id := mk_event_id (instance_name s) (event_counter s + 1) now;
              event_time := now;
              ev_instance_name := instance_name s;
              position := CLOSE;
              reason := POSITION_TIME_LIMIT_HIT;
              ev_strategy_state := EmptyState (_state_sequence s + 1);
              event_data :=
                TimeLimitData (direction sig) (Some (entry_price sig)) price pnl pnl_pct |} ];
       logged := [("INFO"%string, TimeLimitHit (direction sig) pnl pnl_pct)];
       result := inr tt |}.
Proof.
  intros Hs Htick Htime Hentry pnl pnl_pct.
  apply Z.ltb_lt in Htime.
  unfold step, handler, check_position_management. rewrite Htick.
  exec. rewrite Hs. exec. rewrite Htime.
  rewrite (pnl_pct_of_nonzero _ _ Hentry). exec. reflexivity.
Qed.


Lemma check_signal_trigger_event now prediction tick_data (s : IPCStrategy) :
  ∃ w, check_signal_trigger now prediction tick_data (fresh s) = (w, inr tt)
       ∧ ((self w = s ∧ broadcasts w = [])
          ∨ ∃ e, broadcasts w = [e] ∧ numbered s (self w) e).
Proof.
  unfold check_signal_trigger.
  generalize (py_float (dict_get prediction "prediction_price" (PyInt 0))).
  generalize (py_float (dict_get prediction "predicted_price" (PyInt 0))).
  generalize (dict_get prediction "prediction_time" (PyStr "")).
  generalize (py_float (dict_get tick_data "p" (PyInt 0))).
  intros tick_price time_str predicted current.
  crunch; exec.
  all: eexists; (split; [reflexivity|]); exec; try (left; done).
  all: right; eexists; (split; [reflexivity|]); unfold numbered, ipc_event_shape, phase_of; exec.
  all: match goal with H : active_signal _ = _ |- _ => rewrite H end; done.
Qed.

Lemma check_position_management_event now tick_data (s : IPCStrategy) :
  ∃ w, check_position_management now tick_data (fresh s) = (w, inr tt)
       ∧ ((self w = s ∧ broadcasts w = [])
          ∨ ∃ e, broadcasts w = [e] ∧ numbered s (self w) e).
Proof.
  unfold check_position_management.
  generalize (py_float (dict_get tick_data "p" (PyInt 0))).
  intros tick_price.
  crunch; exec.
  all: eexists; (split; [reflexivity|]); exec; try (left; done).
  all: right; eexists; (split; [reflexivity|]); unfold numbered, ipc_event_shape, phase_of; exec.
  all: repeat match goal with H : active_signal _ = _ |- _ => rewrite H; clear H
                         | H : trailing_stop_active _ = _ |- _ => rewrite H; clear H end;
         try done.
  all: repeat split; by destruct (trailing_stop_active _).
Qed.

Lemma step_event (c : Call) (s : IPCStrategy) :
  (after (step c s) = s ∧ emitted (step c s) = [])
  ∨ ∃ e, emitted (step c s) = [e] ∧ numbered s (after (step c s)) e.
Proof.
  destruct c as [now prediction tick_data | now tick_data].
  - destruct (check_signal_trigger_event now prediction tick_data s) as (w & Hrun & Hw).
    by rewrite (step_of_run (CheckSignalTrigger now prediction tick_data) s w _ Hrun).
  - destruct (check_position_management_event now tick_data s) as (w & Hrun & Hw).
    by rewrite (step_of_run (CheckPositionManagement now tick_data) s w _ Hrun).
Qed.


(** X2.  Events are numbered without gaps: the k-th event (from 0)
    broadcast during any sequence of calls has an id that starts with the
    instance name and [event_counter + k + 1], and carries the seq
    [_state_sequence + k + 1], both counted from the instance the calls
    started on.  Nothing is said of the milliseconds that end the id. *)
Theorem events_numbered_consecutively (calls : list Call) :
  ∀ (s : IPCStrategy) (k : nat) (e : Event),
    trace calls s !! k = Some e →
    (event_id e).1 = (instance_name s, event_counter s + Z.of_nat k + 1)
    ∧ state_seq (ev_strategy_state e) = Some (_state_sequence s + Z.of_nat k + 1).
Proof.
  induction calls as [|c rest IH]; intros s k e Hk; [done|].
  cbn [trace] in Hk.
  destruct (step_event c s) as [[Hafter Hnone] | (e0 & Hone & Hid & Hn & _)].
  - rewrite Hnone, Hafter in Hk. by apply IH.
  - destruct (step_cases c s) as [_ [[Hsame Hnil] | (e' & He' & Ht)]];
      [by rewrite Hone in Hnil|].
    assert (e' = e0) as -> by congruence.
    destruct Ht as (Hseq & Hev & Hstamp & _ & Hname & _).
    rewrite Hone in Hk. destruct k as [|k]; cbn [app lookup list_lookup] in Hk.
    + injection Hk as <-. rewrite Hid, Hev, Hstamp, Hseq.
      split; f_equal; lia.
    + destruct (IH _ _ _ Hk) as [-> ->]. rewrite Hn, Hseq, Hname.
      split; f_equal; lia.
Qed.

(** X3.  Every event broadcast during any sequence of calls has one of
    four shapes: an [OPEN] for [SIGNAL_DETECTED] with the full state dict,
    trailing off, and a payload repeating its entry, target, stop and
    activation price; an [UPDATE] for a trailing reason with trailing on, a
    payload repeating entry and stop, and the peak at the tick price; a
    [CLOSE] for the time limit or for the stop loss, with the one-key state
    dict. *)
Theorem events_well_shaped (calls : list Call) :
  ∀ (s : IPCStrategy) (e : Event), e ∈ trace calls s → ipc_event_shape e.
Proof.
  induction calls as [|c rest IH]; intros s e He; [by apply elem_of_nil in He|].
  cbn [trace] in He. apply elem_of_app in He as [He | He]; [|by eapply IH].
  destruct (step_event c s) as [[_ Hnone] | (e0 & Hone & _ & _ & Hshape & _)].
  - rewrite Hnone in He. by apply elem_of_nil in He.
  - rewrite Hone in He. apply list_elem_of_singleton in He as ->. done.
Qed.

(** X4.  The reasons of the events of any sequence of calls, from any
    instance, come in the order of a Position's life: [SIGNAL_DETECTED] only
    with no Position, [TRAILING_STOP_ACTIVATED] once and only before any
    [TRAILING_STOP_UPDATED], a closing reason only with a Position. *)
Theorem events_follow_lifecycle (calls : list Call) :
  ∀ s : IPCStrategy, lifecycle (phase_of s) (trace calls s) = true.
Proof.
  induction calls as [|c rest IH]; intros s; [done|].
  cbn [trace].
  destruct (step_event c s) as [[-> ->] | (e & -> & _ & _ & _ & Hnext)]; [apply IH|].
  cbn [app lifecycle]. rewrite Hnext. apply IH.
Qed.


Lemma pnl_pct_of_inr (pnl entry q : Q) :
  pnl_pct_of pnl entry = inr q → ¬ (entry == 0)%Q ∧ q = (pnl / entry * 100)%Q.
Proof.
  unfold pnl_pct_of, py_div, Qnonzero.
  destruct (Qeq_bool entry 0) eqn:Heq; cbn [negb]; [done|].
  intros [= <-]. split; [|done].
  intros Hz. apply Qeq_bool_iff in Hz. congruence.
Qed.

(** What a call does to a held Position: it stays, with at most its stop
    moved, or it is closed, which takes a non-zero entry price. *)
Lemma step_position (c : Call) (s : IPCStrategy) (sig : Signal) :
  active_signal s = Some sig →
  (∃ x, active_signal (after (step c s)) = Some (set_stop_loss x sig)
        ∧ (emitted (step c s) = []
           ∨ ∃ e, emitted (step c s) = [e] ∧ position e = UPDATE))
  ∨ (active_signal (after (step c s)) = None
     ∧ ¬ (entry_price sig == 0)%Q
     ∧ ∃ e, emitted (step c s) = [e] ∧ position e = CLOSE).
Proof.
  intros Hs.
  assert (set_stop_loss (stop_loss sig) sig = sig) as Hsame by (by destruct sig).
  destruct c as [now prediction tick_data | now tick_data].
  - rewrite (check_signal_trigger_held _ _ _ _ _ Hs). cbn [after emitted].
    left. exists (stop_loss sig). rewrite Hsame. by auto.
  - unfold step, handler, check_position_management.
    generalize (py_float (dict_get tick_data "p" (PyInt 0))).
    intros tick_price.
    crunch; exec.
    all: try (left; exists (stop_loss sig); rewrite Hsame; split; [done | by left]).
    all: try (left; eexists; split; [reflexivity|]; right; eexists; by split).
    all: right; split; [done|].
    all: match goal with H : pnl_pct_of _ _ = inr _ |- _ => apply pnl_pct_of_inr in H as [? ?] end.
    all: split; [done|]; eexists; by split.
Qed.

(** X5.  A Position entered at price 0, as one opened on a tick without a
    price is, is never closed: both closing paths divide the pnl by the
    entry price, the [ZeroDivisionError] is caught by
    [check_position_management], and the Position stays.  Whatever calls
    follow, it is still held, with at most its stop moved, and every event
    broadcast is an [UPDATE]. *)
Theorem zero_entry_position_never_closes (calls : list Call) :
  ∀ (s : IPCStrategy) (sig : Signal),
    active_signal s = Some sig →
    (entry_price sig == 0)%Q →
    (∃ x, active_signal (run calls s) = Some (set_stop_loss x sig))
    ∧ ∀ e, e ∈ trace calls s → position e = UPDATE.
Proof.
  induction calls as [|c rest IH]; intros s sig Hs Hzero.
  - cbn [run trace]. split; [|by intros e He%elem_of_nil].
    exists (stop_loss sig). rewrite Hs. by destruct sig.
  - cbn [run trace].
    destruct (step_position c s sig Hs) as [(x & Hafter & Hevs) | (_ & Hne & _)]; [|done].
    destruct (IH _ _ Hafter Hzero) as [(y & Hrun) Htrace].
    split; [by exists y|].
    intros e [He | He]%elem_of_app; [|by apply Htrace].
    destruct Hevs as [Hnil | (e0 & Hone & Hupd)].
    + rewrite Hnil in He. by apply elem_of_nil in He.
    + rewrite Hone in He. by apply list_elem_of_singleton in He as ->.
Qed.

(** X6.  As long as no [CLOSE] is broadcast the Position held is the one
    that was entered: direction, entry price, target, activation price,
    entry time and prediction data are never reassigned; only the stop
    moves. *)
Theorem position_fixed_at_entry (calls : list Call) :
  ∀ (s : IPCStrategy) (sig : Signal),
    active_signal s = Some sig →
    (∀ e, e ∈ trace calls s → position e ≠ CLOSE) →
    ∃ x, active_signal (run calls s) = Some (set_stop_loss x sig).
Proof.
  induction calls as [|c rest IH]; intros s sig Hs Hopen.
  - cbn [run]. exists (stop_loss sig). rewrite Hs. by destruct sig.
  - cbn [run trace] in *.
    destruct (step_position c s sig Hs) as [(x & Hafter & _) | (_ & _ & e & Hone & Hclose)].
    + destruct (IH _ _ Hafter) as (y & Hrun).
      { intros e He. apply Hopen, elem_of_app. by right. }
      by exists y.
    + destruct (Hopen e); [|done]. rewrite Hone. apply elem_of_app. left. by left.
Qed.

Lemma step_accounting (c : Call) (s : IPCStrategy) (e : Event) :
  e ∈ emitted (step c s) → close_accounting e.
Proof.
  destruct c as [now prediction tick_data | now tick_data]; unfold step, handler.
  - unfold check_signal_trigger.
    generalize (py_float (dict_get prediction "prediction_price" (PyInt 0))).
    generalize (py_float (dict_get prediction "predicted_price" (PyInt 0))).
    generalize (dict_get prediction "prediction_time" (PyStr "")).
    generalize (py_float (dict_get tick_data "p" (PyInt 0))).
    intros tick_price time_str predicted current.
    crunch; exec; intros He; try (by apply elem_of_nil in He).
    all: by apply list_elem_of_singleton in He as ->.
  - unfold check_position_management.
    generalize (py_float (dict_get tick_data "p" (PyInt 0))).
    intros tick_price.
    crunch; exec; intros He; try (by apply elem_of_nil in He).
    all: apply list_elem_of_singleton in He as ->; unfold close_accounting; exec; try done.
    all: match goal with H : pnl_pct_of _ _ = inr _ |- _ => apply pnl_pct_of_inr in H as [? ?] end.
    all: repeat (split; [done|]); try done.
    all: match goal with H : direction _ = _ |- _ => rewrite H end.
    all: by apply Qle_bool_iff.
Qed.

(** X7.  In every closing event of any sequence of calls, the pnl is the
    signed distance from the entry to the closing price, the percentage is
    that pnl over the entry, which is not 0, times 100, and a
    [STOP_LOSS_HIT] reports a closing price at or beyond the stop it
    reports. *)
Theorem closing_figures_add_up (calls : list Call) :
  ∀ (s : IPCStrategy) (e : Event), e ∈ trace calls s → close_accounting e.
Proof.
  induction calls as [|c rest IH]; intros s e He; [by apply elem_of_nil in He|].
  cbn [trace] in He. apply elem_of_app in He as [He | He]; [|by eapply IH].
  by eapply step_accounting.
Qed.


Lemma step_peak (c : Call) (s : IPCStrategy) :
  peak_beyond_activation s → peak_beyond_activation (after (step c s)).
Proof.
  intros Hs.
  destruct c as [now prediction tick_data | now tick_data]; unfold step, handler.
  - unfold check_signal_trigger.
    generalize (py_float (dict_get prediction "prediction_price" (PyInt 0))).
    generalize (py_float (dict_get prediction "predicted_price" (PyInt 0))).
    generalize (dict_get prediction "prediction_time" (PyStr "")).
    generalize (py_float (dict_get tick_data "p" (PyInt 0))).
    intros tick_price time_str predicted current.
    crunch; exec; try done.
    all: by intros Hactive.
  - unfold check_position_management.
    generalize (py_float (dict_get tick_data "p" (PyInt 0))).
    intros tick_price. unfold peak_of.
    crunch; exec; try done.
    all: intros Hactive; exec; try done.
    all: eexists _, _; (split; [reflexivity|]); (split; [reflexivity|]); exec.
    all: match goal with H : direction _ = _ |- _ => rewrite H in * end.
    all: try (by apply Qle_bool_iff).
    all: match goal with H : trailing_stop_active _ = true |- _ =>
           destruct (Hs H) as (sig0 & peak & Hsig0 & Hp & Hle) end.
    all: simplify_eq.
    all: match goal with H : direction _ = _ |- _ => rewrite H in * end.
    all: match goal with H : Qltb _ _ = true |- _ => apply Qltb_lt in H end.
    all: lra.
Qed.

(** X8.  In every instance reached from [__init__], while trailing is
    active a Position is held and the peak is at or beyond the activation
    price stored in it: at or above it for a LONG, at or below it for a
    SHORT.  Only comparisons of stored prices are involved. *)
Theorem trailing_peak_beyond_activation (name : string) (p : Params) (calls : list Call) :
  trailing_stop_active (run calls (init name p)) = true →
  ∃ sig peak,
    active_signal (run calls (init name p)) = Some sig
    ∧ peak_price (run calls (init name p)) = Some peak
    ∧ match direction sig with
      | LONG => (trailing_activation_price sig <= peak)%Q
      | SHORT => (peak <= trailing_activation_price sig)%Q
      end.
Proof.
  assert (∀ s, peak_beyond_activation s → peak_beyond_activation (run calls s)) as Hrun.
  { induction calls as [|c rest IH]; intros s Hs; [done|].
    cbn [run]. by apply IH, step_peak. }
  apply Hrun. by intros Hactive.
Qed.

Lemma step_tracks_fields (c : Call) (s : IPCStrategy) :
  state_tracks_fields s → state_tracks_fields (after (step c s)).
Proof.
  intros Hs.
  destruct c as [now prediction tick_data | now tick_data]; unfold step, handler.
  - unfold check_signal_trigger.
    generalize (py_float (dict_get prediction "prediction_price" (PyInt 0))).
    generalize (py_float (dict_get prediction "predicted_price" (PyInt 0))).
    generalize (dict_get prediction "prediction_time" (PyStr "")).
    generalize (py_float (dict_get tick_data "p" (PyInt 0))).
    intros tick_price time_str predicted current.
    crunch; exec; try done.
    all: right; unfold state_tracks_fields in Hs; exec.
    all: destruct Hs as [(? & ? & ? & ?) | (? & ? & ?)]; (split; [lia|]); (split; [done|lia]).
  - unfold check_position_management.
    generalize (py_float (dict_get tick_data "p" (PyInt 0))).
    intros tick_price.
    crunch; exec; try done.
    all: right; unfold state_tracks_fields in Hs; exec.
    all: destruct Hs as [(? & ? & ? & ?) | (? & ? & ?)]; [congruence|].
    all: (split; [lia|]); (split; [done|lia]).
Qed.

(** X9.  In every instance reached from [__init__], [strategy_state], which
    [get_strategy_state] copies for the heartbeat, is the empty dict only
    before the first event, with no Position held; from then on it is the
    dict [_update_strategy_state] would build from the fields as they are,
    and [event_counter] equals [_state_sequence]. *)
Theorem state_dict_tracks_fields (name : string) (p : Params) (calls : list Call) :
  state_tracks_fields (run calls (init name p)).
Proof.
  assert (∀ s, state_tracks_fields s → state_tracks_fields (run calls s)) as Hrun.
  { induction calls as [|c rest IH]; intros s Hs; [done|].
    cbn [run]. by apply IH, step_tracks_fields. }
  apply Hrun. by left.
Qed.

(** X10.  With no Position held, a prediction or tick that
    [check_signal_trigger] cannot read (a price [float] rejects, a time that
    is not an ISO string) leaves the instance as it was, broadcasts nothing
    and logs the exception as an [ERROR]; a prediction whose prices can be
    read but which has no [prediction_time], or an empty one, is dropped
    without a log line. *)
Theorem unreadable_prediction_dropped now prediction tick_data (s : IPCStrategy) :
  active_signal s = None →
  (∀ e, unreadable prediction tick_data e →
        step (CheckSignalTrigger now prediction tick_data) s
        = {| after := s; emitted := [];
             logged := [("ERROR"%string, ErrorCheckingSignalTrigger e)];
             result := inr tt |})
  ∧ (∀ x y,
       py_float (dict_get prediction "prediction_price" (PyInt 0)) = inr x →
       py_float (dict_get prediction "predicted_price" (PyInt 0)) = inr y →
       truthy (dict_get prediction "prediction_time" (PyStr "")) = false →
       step (CheckSignalTrigger now prediction tick_data) s
       = {| after := s; emitted := []; logged := []; result := inr tt |}).
Proof.
  intros Hs. unfold unreadable, step, handler, check_signal_trigger. exec. rewrite Hs.
  split.
  - intros e [-> | [[[x ->] ->] | ((x & y & -> & ->) & -> & [-> | [[t ->] ->]])]];
      reflexivity.
  - by intros x y -> -> ->.
Qed.

(** X11.  A prediction without a ["predicted_price"] is read as predicting
    the price 0: when its [prediction_price] is positive and above [delta],
    and the other tests pass, it opens a SHORT Position with target 0 and
    the stop [initial_stop_loss_points] above the tick price. *)
Theorem missing_predicted_price_opens_short now prediction tick_data (s : IPCStrategy)
    (x price : Q) (t : Z) :
  active_signal s = None →
  prediction !! "predicted_price" = None →
  py_float (dict_get prediction "prediction_price" (PyInt 0)) = inr x →
  truthy (dict_get prediction "prediction_time" (PyStr "")) = true →
  parse_iso_time (dict_get prediction "prediction_time" (PyStr "")) = inr t →
  py_float (dict_get tick_data "p" (PyInt 0)) = inr price →
  session_permits s t →
  (0 < x)%Q →
  (delta (params s) < x)%Q →
  ∃ e sig,
    emitted (step (CheckSignalTrigger now prediction tick_data) s) = [e]
    ∧ position e = OPEN
    ∧ active_signal (after (step (CheckSignalTrigger now prediction tick_data) s)) = Some sig
    ∧ direction sig = SHORT
    ∧ target sig = 0%Q
    ∧ entry_price sig = price
    ∧ stop_loss sig = (price + initial_stop_loss_points (params s))%Q.
Proof.
  intros Hs Hmissing Hx Htruthy Hparse Htick Hperm Hpos Hdelta.
  destruct (check_signal_trigger_opens now prediction tick_data s x (inject_Z 0) price t)
    as (e & sig & He & _ & Hafter & _ & _ & _ & Hdir & Hentry & Htarget & _ & Hstop & _ & Hopen & _);
    [done | | done | | done |].
  { repeat split; try done. unfold dict_get. by rewrite Hmissing. }
  { apply Qlt_le_trans with x; [done|].
    rewrite Qabs_neg by (unfold inject_Z; lra). unfold inject_Z. lra. }
  assert (Qltb 0 (inject_Z 0 - x) = false) as Hshort.
  { apply Qltb_ge. unfold inject_Z. lra. }
  rewrite Hshort in Hdir. rewrite Hdir in Hstop.
  exists e, sig. by repeat split.
Qed.

End IPCProperties.

Section IPCWitnesses.
Import IPC.

(** *** The theorems at the sample inputs *)

Lemma at_most_one_position_witness :
  step (RT := sample_runtime) sample_open scenario_opened
  = {| after := scenario_opened; emitted := []; logged := []; result := inr tt |}
  ∧ ∃ (k : nat) (e : Event),
      (1 < k < 3)%nat
      ∧ trace (RT := sample_runtime)
          [sample_tick 97000; sample_open; sample_tick 97000; sample_open]
          scenario_opened !! k = Some e
      ∧ position e = CLOSE.
Proof.
  destruct (at_most_one_position (RT := sample_runtime)
              [sample_tick 97000; sample_open; sample_tick 97000; sample_open]
              scenario_opened) as [Hnoop Htrace].
  split.
  - apply Hnoop. vm_compute. eauto.
  - eapply (Htrace 1%nat 3%nat);
      [lia | vm_compute; reflexivity | vm_compute; reflexivity | reflexivity | reflexivity].
Defined.

Lemma end_to_end_scenario_witness :
  strategy_state
    (run (RT := sample_runtime)
       [sample_open; sample_tick 101000; sample_tick 100050]
       (init "IPC" scenario_params))
  = EmptyState 3.
Proof.
  apply (end_to_end_scenario (RT := sample_runtime) "IPC" sample_time_str sample_time 0 1 1);
    [done | vm_compute; reflexivity | vm_compute; discriminate | vm_compute; discriminate].
Defined.

Lemma trailing_stop_never_loosened_witness :
  (stop_loss (scenario_signal 100100) <= stop_loss (scenario_signal 101100))%Q.
Proof.
  apply (trailing_stop_never_loosened (RT := sample_runtime) "IPC" scenario_params
           [sample_open; sample_tick 101000] (sample_tick 102000)
           (scenario_signal 100100) (scenario_signal 101100));
    vm_compute; reflexivity.
Defined.

Lemma session_filter_boundary_witness :
  (* 07:59:59, 11:00:00 and Saturday: nothing *)
  emitted (step (RT := sample_runtime)
             (CheckSignalTrigger 0 (mk_prediction 100000 100700 (PyStr before_open_str))
                (tick_at 100000))
             (init "IPC" default_params)) = []
  ∧ emitted (step (RT := sample_runtime)
               (CheckSignalTrigger 0 (mk_prediction 100000 100700 (PyStr at_close_str))
                  (tick_at 100000))
               (init "IPC" default_params)) = []
  ∧ emitted (step (RT := sample_runtime)
               (CheckSignalTrigger 0 (mk_prediction 100000 100700 (PyStr saturday_str))
                  (tick_at 100000))
               (init "IPC" default_params)) = []
  (* 08:00:00 on the Monday: a signal *)
  ∧ ∃ e,
      emitted (step (RT := sample_runtime)
                 (CheckSignalTrigger 0 sample_prediction (tick_at 100000))
                 (init "IPC" default_params)) = [e]
      ∧ position e = OPEN
      ∧ is_Some (active_signal
                   (after (step (RT := sample_runtime)
                             (CheckSignalTrigger 0 sample_prediction (tick_at 100000))
                             (init "IPC" default_params)))).
Proof.
  split; [|split; [|split]].
  - apply (session_filter_boundary (RT := sample_runtime) 0
             (mk_prediction 100000 100700 (PyStr before_open_str)) (tick_at 100000)
             (init "IPC" default_params) (1736168399 * usec_per_sec));
      [reflexivity | reflexivity | vm_compute; reflexivity |].
    left. vm_compute. reflexivity.
  - apply (session_filter_boundary (RT := sample_runtime) 0
             (mk_prediction 100000 100700 (PyStr at_close_str)) (tick_at 100000)
             (init "IPC" default_params) (1736179200 * usec_per_sec));
      [reflexivity | reflexivity | vm_compute; reflexivity |].
    right. left. vm_compute. discriminate.
  - apply (session_filter_boundary (RT := sample_runtime) 0
             (mk_prediction 100000 100700 (PyStr saturday_str)) (tick_at 100000)
             (init "IPC" default_params) (1736604000 * usec_per_sec));
      [reflexivity | reflexivity | vm_compute; reflexivity |].
    right. right. vm_compute. discriminate.
  - apply (session_filter_boundary (RT := sample_runtime) 0
             sample_prediction (tick_at 100000)
             (init "IPC" default_params) sample_time)
      with (x := 100000%Q) (y := 100700%Q) (price := 100000%Q);
      vm_compute; reflexivity.
Defined.

(** C7 as the specification states it fails: on the open Position of the
    scenario, a tick without a price is read as price 0, which is below the
    stop; the Position is closed and a [CLOSE] is broadcast. *)
Lemma missing_price_closes_position :
  ¬ (∀ (RT : Runtime) (now : Z) (tick_data : gmap string pyval) (s : IPCStrategy),
       (tick_data !! "p" = None
        ∨ ∃ v e, tick_data !! "p" = Some v ∧ py_float v = inl e) →
       result (step (CheckPositionManagement now tick_data) s) = inr tt
       ∧ after (step (CheckPositionManagement now tick_data) s) = s
       ∧ emitted (step (CheckPositionManagement now tick_data) s) = []).
Proof.
  intros Hclaim.
  destruct (Hclaim sample_runtime 1 ∅ scenario_opened) as (_ & _ & Hemitted); [by left|].
  vm_compute in Hemitted. discriminate.
Qed.

Lemma non_numeric_tick_ignored_witness :
  step (RT := sample_runtime) (CheckPositionManagement 1 {[ "p" := PyStr "abc" ]})
    scenario_opened
  = {| after := scenario_opened;
       emitted := [];
       logged := [("ERROR"%string, ErrorInPositionManagement ValueError)];
       result := inr tt |}.
Proof.
  apply (non_numeric_tick_ignored (RT := sample_runtime) 1 {[ "p" := PyStr "abc" ]}
           scenario_opened (PyStr "abc") ValueError);
    reflexivity.
Defined.

Lemma noop_tick_idempotent_witness :
  step (RT := sample_runtime) (sample_tick 100500) scenario_opened
  = {| after := scenario_opened; emitted := []; logged := []; result := inr tt |}.
Proof.
  apply (noop_tick_idempotent (RT := sample_runtime) 1 (tick_at 100500) scenario_opened
           (scenario_signal 98000) 100500).
  - vm_compute. reflexivity.
  - reflexivity.
  - vm_compute. discriminate.
  - vm_compute. reflexivity.
  - intros _. vm_compute. reflexivity.
  - intros Hactive. vm_compute in Hactive. discriminate.
Defined.

Lemma missing_tick_price_defaults_to_zero_witness :
  ∃ sig,
    active_signal
      (after (step (RT := sample_runtime) (CheckSignalTrigger 0 sample_prediction ∅)
                (init "IPC" scenario_params))) = Some sig
    ∧ entry_price sig = 0%Q
    ∧ ((0 < 100700 - 100000)%Q →
       direction sig = LONG
       ∧ (stop_loss sig == - 2000)%Q
       ∧ (trailing_activation_price sig == 1000)%Q).
Proof.
  apply (missing_tick_price_defaults_to_zero (RT := sample_runtime) 0 sample_prediction ∅
           (init "IPC" scenario_params) 100000 100700 sample_time).
  - reflexivity.
  - reflexivity.
  - repeat split; vm_compute; reflexivity.
  - vm_compute. reflexivity.
  - intros Hfilter. vm_compute in Hfilter. discriminate.
Defined.


Lemma time_limit_closes_first_witness :
  map reason
    (emitted (step (RT := sample_runtime)
                (CheckPositionManagement (timedelta_hours 3) (tick_at 97000)) scenario_opened))
  = [POSITION_TIME_LIMIT_HIT].
Proof.
  rewrite (time_limit_closes_first (RT := sample_runtime) (timedelta_hours 3) (tick_at 97000)
             scenario_opened (scenario_signal 98000) 97000);
    [reflexivity | vm_compute; reflexivity | reflexivity | vm_compute; reflexivity
    | vm_compute; discriminate].
Defined.

Lemma zero_entry_position_never_closes_witness :
  (∃ x, active_signal (run (RT := sample_runtime) zero_entry_calls zero_entry_opened)
        = Some (set_stop_loss x zero_entry_signal))
  ∧ Forall (λ e, position e = UPDATE)
      (trace (RT := sample_runtime) zero_entry_calls zero_entry_opened).
Proof.
  destruct (zero_entry_position_never_closes (RT := sample_runtime) zero_entry_calls
              zero_entry_opened zero_entry_signal) as [Hheld Hevents];
    [vm_compute; reflexivity | vm_compute; reflexivity |].
  split; [exact Hheld|]. apply Forall_forall. exact Hevents.
Defined.

Lemma closing_figures_add_up_witness :
  ∃ e, trace (RT := sample_runtime) scenario_calls (init "IPC" scenario_params) !! 2%nat
       = Some e
       ∧ close_accounting e.
Proof.
  eexists. split; [vm_compute; reflexivity|].
  apply (closing_figures_add_up (RT := sample_runtime) scenario_calls
           (init "IPC" scenario_params)).
  apply (list_elem_of_lookup_2 _ 2%nat). vm_compute. reflexivity.
Defined.

Lemma events_numbered_consecutively_witness :
  ∃ e, trace (RT := sample_runtime) scenario_calls (init "IPC" scenario_params) !! 2%nat
       = Some e
       ∧ (event_id e).1 = ("IPC"%string, 3)
       ∧ state_seq (ev_strategy_state e) = Some 3.
Proof.
  eexists. split; [vm_compute; reflexivity|].
  apply (events_numbered_consecutively (RT := sample_runtime) scenario_calls
           (init "IPC" scenario_params) 2%nat).
  vm_compute. reflexivity.
Defined.

Lemma events_well_shaped_witness :
  ∃ e, trace (RT := sample_runtime) scenario_calls (init "IPC" scenario_params) !! 1%nat
       = Some e
       ∧ ipc_event_shape e.
Proof.
  eexists. split; [vm_compute; reflexivity|].
  apply (events_well_shaped (RT := sample_runtime) scenario_calls
           (init "IPC" scenario_params)).
  apply (list_elem_of_lookup_2 _ 1%nat). vm_compute. reflexivity.
Defined.

Lemma position_fixed_at_entry_witness :
  ∃ x, active_signal
         (run (RT := sample_runtime) [sample_tick 101000; sample_tick 102000] scenario_opened)
       = Some (set_stop_loss x (scenario_signal 98000)).
Proof.
  apply (position_fixed_at_entry (RT := sample_runtime)
           [sample_tick 101000; sample_tick 102000] scenario_opened (scenario_signal 98000)).
  - vm_compute. reflexivity.
  - apply Forall_forall. vm_compute. repeat constructor; discriminate.
Defined.

Lemma trailing_peak_beyond_activation_witness :
  ∃ sig peak,
    active_signal (run (RT := sample_runtime) [sample_open; sample_tick 101000]
                     (init "IPC" scenario_params)) = Some sig
    ∧ peak_price (run (RT := sample_runtime) [sample_open; sample_tick 101000]
                    (init "IPC" scenario_params)) = Some peak
    ∧ match direction sig with
      | LONG => (trailing_activation_price sig <= peak)%Q
      | SHORT => (peak <= trailing_activation_price sig)%Q
      end.
Proof.
  apply (trailing_peak_beyond_activation (RT := sample_runtime) "IPC" scenario_params
           [sample_open; sample_tick 101000]).
  vm_compute. reflexivity.
Defined.

Lemma unreadable_prediction_dropped_witness :
  step (RT := sample_runtime)
    (CheckSignalTrigger 0 (mk_prediction 100000 100700 (PyStr "soon")) (tick_at 100000))
    (init "IPC" scenario_params)
  = {| after := init "IPC" scenario_params; emitted := [];
       logged := [("ERROR"%string, ErrorCheckingSignalTrigger ValueError)];
       result := inr tt |}.
Proof.
  apply (unreadable_prediction_dropped (RT := sample_runtime) 0
           (mk_prediction 100000 100700 (PyStr "soon")) (tick_at 100000)
           (init "IPC" scenario_params)); [reflexivity|].
  right. right. split; [by eexists _, _|]. split; [reflexivity|]. left.
  vm_compute. reflexivity.
Defined.

Lemma missing_predicted_price_opens_short_witness :
  ∃ e sig,
    emitted (step (RT := sample_runtime)
               (CheckSignalTrigger 0 prediction_without_target (tick_at 100000))
               (init "IPC" scenario_params)) = [e]
    ∧ position e = OPEN
    ∧ active_signal
        (after (step (RT := sample_runtime)
                  (CheckSignalTrigger 0 prediction_without_target (tick_at 100000))
                  (init "IPC" scenario_params))) = Some sig
    ∧ direction sig = SHORT
    ∧ target sig = 0%Q
    ∧ entry_price sig = 100000%Q
    ∧ stop_loss sig = (100000 + initial_stop_loss_points scenario_params)%Q.
Proof.
  apply (missing_predicted_price_opens_short (RT := sample_runtime) 0
           prediction_without_target (tick_at 100000) (init "IPC" scenario_params)
           100000 100000 sample_time);
    try (vm_compute; reflexivity).
  intros Hfilter. vm_compute in Hfilter. discriminate.
Defined.

End IPCWitnesses.

(** ** [check_signal_trigger] in float arithmetic *)

Section ThresholdProperties.
Import IPC.
Context {RT : Runtime}.

Ltac exec :=
  cbv [call IPC64.check_signal_trigger _update_strategy_state
       try_except Exception bind lift ret raise get_self update_self broadcast log modify fresh
       self broadcasts logs after emitted logged result fst snd app] in *;
  cbn [set_event_counter set_active_signal set_trailing_stop_active set_peak_price
       set_strategy_state set_state_sequence set_stop_loss snapshot mk_event
       instance_name event_counter params active_signal trailing_stop_active peak_price
       strategy_state _state_sequence
       direction entry_price stop_loss target trailing_activation_price entry_time
       event_id event_time ev_instance_name position reason ev_strategy_state event_data
       state_seq] in *.

(** A prediction whose computed difference does not exceed [delta] changes
    nothing and broadcasts nothing. *)
Lemma float_threshold_not_exceeded t_entry t_id t_event prediction tick_data
    (s : IPCStrategy) (x y : Q) :
  py_float64 (dict_get prediction "prediction_price" (PyInt 0)) = inr x →
  py_float64 (dict_get prediction "predicted_price" (PyInt 0)) = inr y →
  (Qabs (float_sub y x) <= binary64 (delta (params s)))%Q →
  no_signal s (call (IPC64.check_signal_trigger t_entry t_id t_event prediction tick_data) s).
Proof.
  intros Hx Hy Hdelta. apply Qle_bool_iff in Hdelta.
  unfold no_signal, call, IPC64.check_signal_trigger. rewrite Hx, Hy.
  generalize (dict_get prediction "prediction_time" (PyStr "")).
  generalize (py_float64 (dict_get tick_data "p" (PyInt 0))).
  intros tick_price time_str.
  repeat (exec;
          first [ match goal with |- context [lift ?r] => destruct r eqn:? end
                | case_match ];
          simplify_eq);
    exec; done.
Qed.

(** One whose computed difference exceeds it opens a Position at the tick
    price, when the other tests pass. *)
Lemma float_threshold_exceeded t_entry t_id t_event prediction tick_data
    (s : IPCStrategy) (x y price : Q) :
  py_float64 (dict_get prediction "prediction_price" (PyInt 0)) = inr x →
  py_float64 (dict_get prediction "predicted_price" (PyInt 0)) = inr y →
  (binary64 (delta (params s)) < Qabs (float_sub y x))%Q →
  passes_other_tests s prediction tick_data price →
  signal (call (IPC64.check_signal_trigger t_entry t_id t_event prediction tick_data) s)
    price (if Qltb 0 (float_sub y x) then LONG else SHORT).
Proof.
  intros Hx Hy Hdelta (Hs & Htruthy & Htick & t & Hparse & Hperm).
  apply Qle_bool_gt in Hdelta. apply session_gate_open in Hperm.
  unfold signal, call, IPC64.check_signal_trigger.
  rewrite Hx, Hy, Htruthy, Hparse, Htick.
  exec. rewrite Hs. exec. rewrite Hdelta, Hperm. exec.
  eexists _, _. repeat (split; [reflexivity|]). reflexivity.
Qed.

(** What [float] returns is a float, and on floats [float_sub] rounds the
    difference once. *)
Lemma py_float64_float (v : pyval) (x : Q) :
  py_float64 v = inr x → (binary64 x == x)%Q.
Proof.
  unfold py_float64. destruct (py_float v) as [e | x0]; [done|].
  intros [= <-]. apply binary64_idem.
Qed.

Lemma float_sub_floats (x y : Q) :
  (binary64 x == x)%Q → (binary64 y == y)%Q → (float_sub y x == binary64 (y - x))%Q.
Proof. intros Hx Hy. unfold float_sub. by rewrite Hx, Hy. Qed.

(** C5.  The threshold is tested on the difference as float subtraction
    returns it.  A prediction whose computed difference is at most [delta]
    changes nothing and broadcasts nothing; one whose computed difference
    is larger opens a Position and broadcasts [OPEN], when none is held, the
    prediction time and the tick price can be read, and the session gate
    lets it through.  So two floats that differ by at most [delta] give no
    signal, and two that differ by at least some float above [delta] give
    one; in between the rounding of the subtraction decides.  When the
    subtraction is exact and [delta] is a float, that is the strict
    threshold on the difference of the two prices. *)
Theorem delta_threshold_on_computed_difference t_entry t_id t_event prediction tick_data
    (s : IPCStrategy) (x y : Q) :
  py_float64 (dict_get prediction "prediction_price" (PyInt 0)) = inr x →
  py_float64 (dict_get prediction "predicted_price" (PyInt 0)) = inr y →
  ((Qabs (float_sub y x) <= binary64 (delta (params s)))%Q →
   no_signal s (call (IPC64.check_signal_trigger t_entry t_id t_event prediction tick_data) s))
  ∧ ((binary64 (delta (params s)) < Qabs (float_sub y x))%Q →
     ∀ price, passes_other_tests s prediction tick_data price →
       signal (call (IPC64.check_signal_trigger t_entry t_id t_event prediction tick_data) s)
         price (if Qltb 0 (float_sub y x) then LONG else SHORT))
  ∧ ((Qabs (y - x) <= binary64 (delta (params s)))%Q →
     no_signal s (call (IPC64.check_signal_trigger t_entry t_id t_event prediction tick_data) s))
  ∧ (∀ f : Q,
       (binary64 (delta (params s)) < binary64 f)%Q → (binary64 f <= Qabs (y - x))%Q →
       ∀ price, passes_other_tests s prediction tick_data price →
         signal (call (IPC64.check_signal_trigger t_entry t_id t_event prediction tick_data) s)
           price (if Qltb 0 (float_sub y x) then LONG else SHORT))
  ∧ ((float_sub y x == y - x)%Q →
     (binary64 (delta (params s)) == delta (params s))%Q →
     strict_threshold t_entry t_id t_event prediction tick_data s (y - x)).
Proof.
  intros Hx Hy.
  assert (Qabs (float_sub y x) == binary64 (Qabs (y - x)))%Q as Habs.
  { rewrite (float_sub_floats x y) by (eapply py_float64_float; eassumption).
    apply binary64_abs. }
  split_and!.
  - by apply float_threshold_not_exceeded.
  - intros Hgt price Hpass. by apply float_threshold_exceeded.
  - intros Hle. eapply float_threshold_not_exceeded; [done..|].
    rewrite Habs, <- (binary64_idem (delta (params s))). by apply binary64_mono.
  - intros f Hlt Hle price Hpass. eapply float_threshold_exceeded; [done..| |done].
    rewrite Habs. eapply Qlt_le_trans; [exact Hlt|].
    rewrite <- (binary64_idem f). by apply binary64_mono.
  - intros Hexact Hdelta. split.
    + intros Heq. eapply float_threshold_not_exceeded; [done..|].
      rewrite Hexact, Heq, Hdelta. apply Qle_refl.
    + intros Hgt price Hpass. eexists.
      eapply float_threshold_exceeded; [done..| |done].
      by rewrite Hexact, Hdelta.
Qed.

End ThresholdProperties.

Section ThresholdWitnesses.
Import IPC.

(** C5 as the specification states it fails, on the floats read and on the
    numbers as they are written.  The floats nearest to 0.04 and 500.04
    differ by more than the [delta] of 500, by less than the subtraction can
    return: the computed difference is 500.0 and nothing happens.  The
    numbers 65036.02 and 65536.02 differ by 500 exactly; the difference of
    their floats is returned as 500.0000000000073, and a Position is
    opened. *)
Lemma threshold_moved_by_rounding :
  ¬ (∀ (RT : Runtime) (t_entry t_id t_event : Z) (prediction tick_data : gmap string pyval)
       (s : IPCStrategy) (x y : Q),
       py_float64 (dict_get prediction "prediction_price" (PyInt 0)) = inr x →
       py_float64 (dict_get prediction "predicted_price" (PyInt 0)) = inr y →
       strict_threshold t_entry t_id t_event prediction tick_data s (y - x))
  ∧ ¬ (∀ (RT : Runtime) (t_entry t_id t_event : Z) (prediction tick_data : gmap string pyval)
         (s : IPCStrategy) (x y : Q),
         py_float (dict_get prediction "prediction_price" (PyInt 0)) = inr x →
         py_float (dict_get prediction "predicted_price" (PyInt 0)) = inr y →
         strict_threshold t_entry t_id t_event prediction tick_data s (y - x)).
Proof.
  split; intros Hclaim.
  - destruct (Hclaim sample_runtime 0 0 0
                (mk_prediction 0.04 500.04 (PyStr sample_time_str)) (tick_at 100000)
                (init "IPC" scenario_params) (binary64 0.04) (binary64 500.04))
      as [_ Habove]; [vm_compute; reflexivity..|].
    destruct (Habove ltac:(vm_compute; reflexivity) 100000%Q) as (d & e & sig & Hemitted & _).
    { split; [reflexivity|]. split; [reflexivity|]. split; [vm_compute; reflexivity|].
      exists sample_time. split; [vm_compute; reflexivity|].
      intros Hfilter. vm_compute in Hfilter. discriminate. }
    vm_compute in Hemitted. discriminate.
  - destruct (Hclaim sample_runtime 0 0 0
                (mk_prediction 65036.02 65536.02 (PyStr sample_time_str)) (tick_at 100000)
                (init "IPC" scenario_params) 65036.02%Q 65536.02%Q)
      as [Hequal _]; [vm_compute; reflexivity..|].
    destruct (Hequal ltac:(vm_compute; reflexivity)) as [_ Hemitted].
    vm_compute in Hemitted. discriminate.
Qed.

Lemma delta_threshold_on_computed_difference_witness :
  (* 100000 and 100500: the floats differ by delta *)
  no_signal (init "IPC" scenario_params)
    (call (IPC64.check_signal_trigger (RT := sample_runtime) 0 0 0
             (mk_prediction 100000 100500 (PyStr sample_time_str)) (tick_at 100000))
       (init "IPC" scenario_params))
  (* 100000 and 100500.01: the floats differ by more than the float 500.005 *)
  ∧ signal
      (call (IPC64.check_signal_trigger (RT := sample_runtime) 0 0 0
               (mk_prediction 100000 100500.01 (PyStr sample_time_str)) (tick_at 100000))
         (init "IPC" scenario_params))
      100000 LONG
  (* 65036.02 and 65536.02: the computed difference is above delta *)
  ∧ signal
      (call (IPC64.check_signal_trigger (RT := sample_runtime) 0 0 0
               (mk_prediction 65036.02 65536.02 (PyStr sample_time_str)) (tick_at 65036.02))
         (init "IPC" scenario_params))
      (binary64 65036.02) LONG
  (* 0.04 and 500.04: the computed difference is delta *)
  ∧ no_signal (init "IPC" scenario_params)
      (call (IPC64.check_signal_trigger (RT := sample_runtime) 0 0 0
               (mk_prediction 0.04 500.04 (PyStr sample_time_str)) (tick_at 100000))
         (init "IPC" scenario_params)).
Proof.
  assert (∀ prediction price,
            truthy (dict_get prediction "prediction_time" (PyStr "")) = true →
            parse_iso_time (RT := sample_runtime)
              (dict_get prediction "prediction_time" (PyStr "")) = inr sample_time →
            passes_other_tests (RT := sample_runtime) (init "IPC" scenario_params)
              prediction (tick_at price) (binary64 price)) as Hpass.
  { intros prediction price Htruthy Hparse.
    split; [reflexivity|]. split; [exact Htruthy|]. split; [reflexivity|].
    exists sample_time. split; [exact Hparse|].
    intros Hfilter. vm_compute in Hfilter. discriminate. }
  split_and!.
  - destruct (delta_threshold_on_computed_difference (RT := sample_runtime) 0 0 0
                (mk_prediction 100000 100500 (PyStr sample_time_str)) (tick_at 100000)
                (init "IPC" scenario_params) (binary64 100000) (binary64 100500))
      as (_ & _ & Hwithin & _); [vm_compute; reflexivity..|].
    apply Hwithin, Qle_bool_iff. vm_compute. reflexivity.
  - destruct (delta_threshold_on_computed_difference (RT := sample_runtime) 0 0 0
                (mk_prediction 100000 100500.01 (PyStr sample_time_str)) (tick_at 100000)
                (init "IPC" scenario_params) (binary64 100000) (binary64 100500.01))
      as (_ & _ & _ & Hbeyond & _); [vm_compute; reflexivity..|].
    apply (Hbeyond 500.005%Q ltac:(vm_compute; reflexivity)
             ltac:(apply Qle_bool_iff; vm_compute; reflexivity) (binary64 100000)).
    apply Hpass; vm_compute; reflexivity.
  - destruct (delta_threshold_on_computed_difference (RT := sample_runtime) 0 0 0
                (mk_prediction 65036.02 65536.02 (PyStr sample_time_str)) (tick_at 65036.02)
                (init "IPC" scenario_params) (binary64 65036.02) (binary64 65536.02))
      as (_ & Habove & _); [vm_compute; reflexivity..|].
    apply (Habove ltac:(vm_compute; reflexivity) (binary64 65036.02)).
    apply Hpass; vm_compute; reflexivity.
  - destruct (delta_threshold_on_computed_difference (RT := sample_runtime) 0 0 0
                (mk_prediction 0.04 500.04 (PyStr sample_time_str)) (tick_at 100000)
                (init "IPC" scenario_params) (binary64 0.04) (binary64 500.04))
      as (Hbelow & _ & _); [vm_compute; reflexivity..|].
    apply Hbelow, Qle_bool_iff. vm_compute. reflexivity.
Defined.

End ThresholdWitnesses.

(** ** [SimpleTestStrategy] *)

Section TestProperties.
Import Test.
Context {RT : Runtime}.

(** Run the monad layer by call-by-value, then read the records. *)
Ltac exec :=
  cbv [call step
       try_except ValueError_or_KeyError bind lift ret raise get_self update_self broadcast
       log modify fresh
       self broadcasts logs after emitted logged result fst snd] in *;
  cbn [set_event_counter set_running set_current_price set_pos set_strategy_state
       set_state_sequence set_offline_frozen_state set_logged set_trailing mk_event
       no_position
       instance_name event_counter params is_running start_time current_price pos
       strategy_state _state_sequence _offline_frozen_state _logged_offline_start
       _logged_suppression
       entry_time entry_price stop_loss_price target_price trailing_activation_price
       trailing_stop_active peak_price
       event_id event_time ev_instance_name position reason ev_strategy_state event_data
       state_seq andb orb negb app] in *.

Ltac crunch :=
  repeat (exec;
          first [ match goal with |- context [lift ?r] => destruct r eqn:? end
                | case_match ];
          simplify_eq).

Lemma set_logged_same (s : SimpleTestStrategy) :
  set_logged (_logged_offline_start s) (_logged_suppression s) s = s.
Proof. by destruct s. Qed.

(** [_is_in_offline_window] answers [offline_window_active]; it touches
    nothing but its debug flag and the log. *)
Lemma is_in_offline_window_run now (s : SimpleTestStrategy) evs lines :
  ∃ a b lines',
    _is_in_offline_window now {| self := s; broadcasts := evs; logs := lines |}
    = ({| self := set_logged a b s; broadcasts := evs; logs := lines ++ lines' |},
       inr (offline_window_active s now)).
Proof.
  assert (∀ r : exn + bool, ∃ a b lines',
            ({| self := s; broadcasts := evs; logs := lines |}, r)
            = ({| self := set_logged a b s; broadcasts := evs; logs := lines ++ lines' |}, r))
    as Hsame.
  { intros r. exists (_logged_offline_start s), (_logged_suppression s), [].
    by rewrite set_logged_same, app_nil_r. }
  unfold _is_in_offline_window, offline_window_active. exec.
  destruct (simulate_offline (params s)); exec; [|apply Hsame].
  destruct (entry_time (pos s)) as [entry|]; exec; [|apply Hsame].
  destruct (Qle_bool _ _ && Qltb _ _) eqn:Hwin; exec; [|apply Hsame].
  destruct (_logged_offline_start s) eqn:Hflag; exec; [apply Hsame|].
  by eexists _, _, _.
Qed.

(** Replace a call of [_is_in_offline_window] by its answer. *)
Ltac run_window :=
  match goal with
  | |- context [_is_in_offline_window ?n {| self := ?s; broadcasts := ?e; logs := ?l |}] =>
      let a := fresh "a" in
      let b := fresh "b" in
      let l' := fresh "lines" in
      let Hrun := fresh "Hrun" in
      destruct (is_in_offline_window_run n s e l) as (a & b & l' & Hrun);
      rewrite Hrun; clear Hrun
  end.







Lemma should_suppress_heartbeat_run now (s : SimpleTestStrategy) :
  ∃ a b lines',
    should_suppress_heartbeat now (fresh s)
    = ({| self := set_logged a b s; broadcasts := []; logs := lines' |},
       inr (offline_window_active s now)).
Proof.
  unfold should_suppress_heartbeat. exec. run_window. exec.
  destruct (offline_window_active s now && negb b); exec; by eexists _, _, _.
Qed.

(** [get_strategy_state]: inside the window the frozen snapshot, taken now
    if there is none yet; outside it the live dict, the frozen one dropped.
    The position, the state dict and the sequence number are not touched. *)
Lemma get_strategy_state_run now (s : SimpleTestStrategy) :
  ∃ s' lines',
    get_strategy_state now (fresh s)
    = ({| self := s'; broadcasts := []; logs := lines' |},
       inr (if offline_window_active s now
            then match _offline_frozen_state s with
                 | Some frozen => frozen
                 | None => strategy_state s
                 end
            else strategy_state s))
    ∧ _offline_frozen_state s'
      = (if offline_window_active s now
         then match _offline_frozen_state s with
              | Some frozen => Some frozen
              | None => Some (strategy_state s)
              end
         else None)
    ∧ params s' = params s ∧ pos s' = pos s
    ∧ strategy_state s' = strategy_state s
    ∧ _state_sequence s' = _state_sequence s.
Proof.
  unfold get_strategy_state. exec. run_window. exec.
  destruct (offline_window_active s now), (_offline_frozen_state s) eqn:Hfrozen; exec.
  all: repeat (rewrite Hfrozen; exec).
  all: eexists _, _; (split; [reflexivity|]); exec; by rewrite ?Hfrozen.
Qed.







(** *** Further properties of the test strategy *)

Lemma tick_effect_refl now (s s' : SimpleTestStrategy) :
  params s' = params s → instance_name s' = instance_name s → is_running s' = is_running s →
  event_counter s' = event_counter s → pos s' = pos s → _state_sequence s' = _state_sequence s →
  tick_effect now s s' [].
Proof.
  intros. unfold tick_effect. cbn [length]. split_and!; try done; try lia; try by left.
  by intros e He%elem_of_nil.
Qed.

Lemma broadcast_trailing_stop_update_effect now price activated (s : SimpleTestStrategy)
    evs lines :
  ∃ s' evs' lines',
    _broadcast_trailing_stop_update now price activated
      {| self := s; broadcasts := evs; logs := lines |}
    = ({| self := s'; broadcasts := evs ++ evs'; logs := lines ++ lines' |}, inr tt)
    ∧ tick_effect now s s' evs'
    ∧ pos s' = pos s
    ∧ current_price s' = current_price s.
Proof.
  unfold _broadcast_trailing_stop_update, _update_strategy_state, next_event_id. exec.
  run_window. exec.
  match goal with
  | |- context [offline_window_active ?s0 now] =>
      change (offline_window_active s0 now) with (offline_window_active s now)
  end.
  destruct (offline_window_active s now) eqn:Hwin; exec.
  - eexists _, [], _. rewrite app_nil_r, <- app_assoc. split; [reflexivity|].
    unfold tick_effect. rewrite Hwin. exec. cbn [length].
    split_and!; try done; try lia; try by left.
    by intros e He%elem_of_nil.
  - eexists _, [_], _. split; [reflexivity|].
    unfold tick_effect. rewrite Hwin. exec. cbn [length].
    split_and!; try done; try lia; try by left.
    by intros e ->%list_elem_of_singleton.
Qed.


Ltac run_broadcast_effect :=
  match goal with
  | |- context [_broadcast_trailing_stop_update ?n ?p ?b
                  {| self := ?s; broadcasts := ?e; logs := ?l |}] =>
      let s' := fresh "s'" in
      let evs' := fresh "evs'" in
      let l' := fresh "lines" in
      let Hrun := fresh "Hrun" in
      let Heffect := fresh "Heffect" in
      let Hpos := fresh "Hpos" in
      let Hprice := fresh "Hprice" in
      destruct (broadcast_trailing_stop_update_effect n p b s e l)
        as (s' & evs' & l' & Hrun & Heffect & Hpos & Hprice);
      rewrite Hrun; clear Hrun
  end.

(** The effect of a later part of a tick's processing is an effect of the
    whole tick. *)
Lemma tick_effect_from now (s s0 s' : SimpleTestStrategy) (evs : list Event) :
  params s0 = params s → instance_name s0 = instance_name s → is_running s0 = is_running s →
  event_counter s0 = event_counter s → _state_sequence s0 = _state_sequence s →
  entry_time (pos s0) = entry_time (pos s) →
  (pos s0 = pos s ∨ pos s' = pos s0 ∧ trailed s (pos s0)) →
  tick_effect now s0 s' evs →
  tick_effect now s s' evs.
Proof.
  intros Hparams Hname Hrunning Hcounter Hseq Hentry Hpos
    (Hp & Hn & Hr & Hc & Hpos' & Hin & Hout & Hevs).
  assert (offline_window_active s0 now = offline_window_active s now) as Hwin.
  { unfold offline_window_active. by rewrite Hparams, Hentry. }
  rewrite Hwin in Hin, Hout.
  unfold tick_effect. rewrite <- Hparams, <- Hname, <- Hrunning, <- Hcounter, <- Hseq.
  split_and!; try done.
  destruct Hpos as [Hsame | [-> Htrail]]; [|by right].
  rewrite <- Hsame. destruct Hpos' as [? | (b & x & ? & ?)]; [by left|].
  right. exists b, x. unfold trailed_stop in *. by rewrite <- Hparams, <- Hsame.
Qed.

Lemma check_trailing_stop_effect now price (s : SimpleTestStrategy) evs lines :
  ∃ s' evs' lines' r,
    _check_trailing_stop now price {| self := s; broadcasts := evs; logs := lines |}
    = ({| self := s'; broadcasts := evs ++ evs'; logs := lines ++ lines' |}, r)
    ∧ tick_effect now s s' evs'
    ∧ current_price s' = current_price s.
Proof.
  assert (∀ r : exn + unit, ∃ s' evs' lines' r',
            ({| self := s; broadcasts := evs; logs := lines |}, r)
            = ({| self := s'; broadcasts := evs ++ evs'; logs := lines ++ lines' |}, r')
            ∧ tick_effect now s s' evs'
            ∧ current_price s' = current_price s) as Hsame.
  { intros r. exists s, [], [], r. rewrite !app_nil_r.
    split; [done|]. split; [by apply tick_effect_refl | done]. }
  unfold _check_trailing_stop. exec.
  destruct (falsy (entry_price (pos s)) || falsy (stop_loss_price (pos s))
            || falsy (trailing_activation_price (pos s))); exec; [apply Hsame|].
  destruct (num (trailing_activation_price (pos s))) as [e|tsa]; exec; [apply Hsame|].
  destruct (direction (params s)) eqn:Hdir, (trailing_stop_active (pos s)) eqn:Hactive; exec.
  all: repeat (case_match; simplify_eq; exec); try apply Hsame.
  all: run_broadcast_effect; exec.
  all: eexists _, _, _, _; rewrite <- ?app_assoc; (split; [reflexivity|]).
  all: clear Hsame; split; [|done].
  all: eapply tick_effect_from; [..|exact Heffect]; try done; exec.
  all: right; split; [done|]; unfold trailed, trailed_stop; rewrite Hdir, Hactive.
  all: eexists _, _; (split; [reflexivity|]); cbv beta iota; try done.
  all: split; [done|].
  all: destruct (peak_price (pos s)) as [old_peak|]; [|done]; exists old_peak.
  all: match goal with H : num _ = inr _ |- _ => injection H as <- end.
  all: split; [done|]; by apply Qltb_lt.
Qed.

Ltac run_check_effect :=
  match goal with
  | |- context [_check_trailing_stop ?n ?p {| self := ?s; broadcasts := ?e; logs := ?l |}] =>
      let s' := fresh "s'" in
      let evs' := fresh "evs'" in
      let l' := fresh "lines" in
      let r := fresh "r" in
      let Hrun := fresh "Hrun" in
      let Heffect := fresh "Heffect" in
      let Hprice := fresh "Hprice" in
      destruct (check_trailing_stop_effect n p s e l)
        as (s' & evs' & l' & r & Hrun & Heffect & Hprice);
      rewrite Hrun; clear Hrun
  end.

Lemma process_tick_effect now tick_data (s : SimpleTestStrategy) :
  tick_effect now s (after (step (ProcessTick now tick_data) s))
    (emitted (step (ProcessTick now tick_data) s)).
Proof.
  unfold step, call, handler, process_tick.
  generalize (tick_data !! "price"). generalize (tick_data !! "p").
  intros p price. exec.
  repeat (first [ run_check_effect; exec
                | match goal with
                  | |- context [match ?x with _ => _ end] =>
                      lazymatch x with
                      | context [match _ with _ => _ end] => fail
                      | _ => destruct x eqn:?; exec
                      end
                  end ]);
    try (by apply tick_effect_refl).
  all: eapply tick_effect_from; [..|exact Heffect]; try done; exec.
  all: by left.
Qed.


(** X12.  A tick processed while the offline window is active, as
    [_is_in_offline_window] computes it in float arithmetic, broadcasts
    nothing, whatever it does to the trailing stop and to seq; outside the
    window a tick that moves seq broadcasts exactly one [UPDATE], carrying
    the state dict just stamped. *)
Theorem tick_broadcast_follows_window now tick_data (s : SimpleTestStrategy) :
  (offline_window_active s now = true →
   emitted (step (ProcessTick now tick_data) s) = [])
  ∧ (offline_window_active s now = false →
     _state_sequence (after (step (ProcessTick now tick_data) s)) ≠ _state_sequence s →
     ∃ e, emitted (step (ProcessTick now tick_data) s) = [e]
          ∧ position e = UPDATE
          ∧ ev_strategy_state e = strategy_state (after (step (ProcessTick now tick_data) s))).
Proof.
  destruct (process_tick_effect now tick_data s) as (_ & _ & _ & _ & _ & Hin & Hout & Hevs).
  split; [done|]. intros Hwin Hseq. specialize (Hout Hwin Hseq).
  destruct (emitted (step (ProcessTick now tick_data) s)) as [|e rest]; [done|].
  destruct (Hevs e) as (Hone & Hupd & _ & Hstate); [by left|].
  exists e. by rewrite Hone.
Qed.

(** What the relay's and the heartbeat's calls leave of the position. *)
Lemma step_observes (c : Call) (s : SimpleTestStrategy) :
  observes c = true →
  params (after (step c s)) = params s
  ∧ (pos (after (step c s)) = pos s ∨ trailed s (pos (after (step c s))))
  ∧ ∀ e, e ∈ emitted (step c s) → position e = UPDATE.
Proof.
  destruct c as [now| |now|now tick_data|now|now|now]; try done; intros _.
  - destruct (process_tick_effect now tick_data s) as (Hp & _ & _ & _ & Hpos & _ & _ & Hevs).
    split; [done|]. split; [done|]. intros e He. by destruct (Hevs e He) as (_ & ? & _).
  - unfold step, call, handler.
    destruct (should_suppress_heartbeat_run now s) as (a & b & lines' & Hrun).
    exec. rewrite Hrun. exec. split; [done|]. split; [by left|]. by intros e He%elem_of_nil.
  - unfold step, call, handler.
    destruct (get_strategy_state_run now s) as (s' & lines' & Hrun & _ & Hp & Hpos & _).
    exec. rewrite Hrun. exec. split; [done|]. split; [by left|]. by intros e He%elem_of_nil.
Qed.

Lemma trailed_keeps_entry (s : SimpleTestStrategy) (p : Position) :
  pos s = p ∨ trailed s p →
  entry_time p = entry_time (pos s)
  ∧ entry_price p = entry_price (pos s)
  ∧ target_price p = target_price (pos s)
  ∧ trailing_activation_price p = trailing_activation_price (pos s)
  ∧ (trailing_stop_active (pos s) = true → trailing_stop_active p = true).
Proof.
  intros [<- | (b & x & -> & Hb)]; [done|]. exec. split_and!; try done.
  intros Hactive. destruct b; [done|]. by destruct Hb.
Qed.

(** X13.  The test strategy has no stop-loss exit: whatever ticks and
    heartbeat calls arrive, at whatever prices, the entry time, entry price,
    target and activation price stay as they are, trailing once active
    stays active, and every event broadcast is an [UPDATE]. *)
Theorem ticks_never_close_test_position (calls : list Call) :
  ∀ s : SimpleTestStrategy,
    forallb observes calls = true →
    entry_time (pos (run calls s)) = entry_time (pos s)
    ∧ entry_price (pos (run calls s)) = entry_price (pos s)
    ∧ target_price (pos (run calls s)) = target_price (pos s)
    ∧ trailing_activation_price (pos (run calls s)) = trailing_activation_price (pos s)
    ∧ (trailing_stop_active (pos s) = true → trailing_stop_active (pos (run calls s)) = true)
    ∧ ∀ e, e ∈ trace calls s → position e = UPDATE.
Proof.
  induction calls as [|c rest IH]; intros s Hall.
  - cbn [run trace]. split_and!; try done. by intros e He%elem_of_nil.
  - cbn [forallb] in Hall. apply andb_true_iff in Hall as [Hc Hrest].
    cbn [run trace].
    destruct (step_observes c s Hc) as (_ & Hpos & Hevs).
    destruct (trailed_keeps_entry s (pos (after (step c s)))) as (H1 & H2 & H3 & H4 & H5).
    { destruct Hpos as [-> | ?]; by auto. }
    destruct (IH (after (step c s)) Hrest) as (I1 & I2 & I3 & I4 & I5 & I6).
    rewrite I1, I2, I3, I4, H1, H2, H3, H4. split_and!; try done; [by auto|].
    intros e [He | He]%elem_of_app; by auto.
Qed.

(** X14.  [process_tick] reads ["price"] and ignores ["p"] when both are
    there.  A price [float] rejects with a [ValueError] is logged as a
    warning and changes nothing; one it rejects with a [TypeError] (a JSON
    null, array or object) is not caught: the exception leaves
    [process_tick], the instance unchanged. *)
Theorem process_tick_price_field now tick_data (s : SimpleTestStrategy) (v : pyval) :
  tick_data !! "price" = Some v
  ∨ (tick_data !! "price" = None ∧ tick_data !! "p" = Some v) →
  (tick_data !! "price" = Some v →
   step (ProcessTick now tick_data) s = step (ProcessTick now {[ "price" := v ]}) s)
  ∧ (py_float v = inl ValueError →
     step (ProcessTick now tick_data) s
     = {| after := s; emitted := [];
          logged := [("WARNING"%string, FailedToParseTick ValueError)];
          result := inr tt |})
  ∧ (py_float v = inl TypeError →
     step (ProcessTick now tick_data) s
     = {| after := s; emitted := []; logged := []; result := inl TypeError |}).
Proof.
  intros Hfield. split.
  - intros Hprice. unfold step, handler, process_tick.
    rewrite Hprice, lookup_singleton_eq. reflexivity.
  - unfold step, handler, process_tick.
    destruct Hfield as [-> | [-> ->]]; split; intros ->; by exec.
Qed.

(** X15.  The [CLOSE] event of [_exit_trade_time_limit] never tells the
    entry price: the payload is built after [_reset_strategy_state], so its
    ["entry_price"] is [None].  It carries the one-key state dict, the exit
    price (the last tick price, or the entry price when no tick was seen)
    and the pnl computed from the entry before the reset. *)
Theorem exit_event_has_no_entry_price now (s : SimpleTestStrategy) (e : Event) :
  e ∈ emitted (step (ExitTradeTimeLimit now) s) →
  ∃ entry price,
    entry_price (pos s) = Some entry
    ∧ price = default entry (current_price s)
    ∧ e = {| event_id := mk_event_id (instance_name s) (event_counter s + 1) now;
             event_time := now;
             ev_instance_name := instance_name s;
             position := CLOSE;
             reason := POSITION_TIME_LIMIT_HIT;
             ev_strategy_state := EmptyState (_state_sequence s + 1);
             event_data :=
               TimeLimitData (direction (params s)) None price
                 (_calculate_pnl s price) (_calculate_pnl s price / entry * 100) |}
    ∧ pos (after (step (ExitTradeTimeLimit now) s)) = no_position
    ∧ strategy_state (after (step (ExitTradeTimeLimit now) s))
      = EmptyState (_state_sequence s + 1).
Proof.
  unfold step, call, handler, _exit_trade_time_limit, next_event_id, _reset_strategy_state,
    _update_strategy_state, py_div.
  exec.
  destruct (entry_time (pos s)) as [t|]; exec; [|by intros He%elem_of_nil].
  destruct (entry_price (pos s)) as [entry|] eqn:Hentry; exec; [|by intros He%elem_of_nil].
  destruct (Qnonzero entry) eqn:Hnz; exec; [|by intros He%elem_of_nil].
  intros ->%list_elem_of_singleton. exists entry, (default entry (current_price s)).
  split; [done|]. split; [done|].
  unfold snapshot. exec. cbn [falsy].
  split; [|done]. by destruct (current_price s).
Qed.

Lemma trace_app (calls1 calls2 : list Call) :
  ∀ s, trace (calls1 ++ calls2) s = trace calls1 s ++ trace calls2 (run calls1 s).
Proof.
  induction calls1 as [|c rest IH]; intros s; [done|].
  cbn [app trace run]. by rewrite IH, app_assoc.
Qed.

Lemma trace_observes (calls : list Call) :
  ∀ s, forallb observes calls = true → Forall (λ e, position e = UPDATE) (trace calls s).
Proof.
  induction calls as [|c rest IH]; intros s Hall; [by constructor|].
  cbn [forallb] in Hall. apply andb_true_iff in Hall as [Hc Hrest].
  cbn [trace]. apply Forall_app. split; [|by apply IH].
  apply Forall_forall. by destruct (step_observes c s Hc) as (_ & _ & Hevs).
Qed.

Lemma enter_trade_opens now (s : SimpleTestStrategy) :
  ∃ e, emitted (step (EnterTrade now) s) = [e] ∧ position e = OPEN.
Proof.
  unfold step, call, handler, _enter_trade, next_event_id, _update_strategy_state. exec.
  destruct (direction (params s)); exec; by eexists.
Qed.

(** X16.  [_enter_trade] does not look whether a trade is already open:
    entered twice, with only ticks and heartbeat calls in between, the test
    strategy broadcasts two [OPEN]s with nothing but [UPDATE]s between
    them. *)
Theorem enter_trade_has_no_guard now1 now2 (ticks : list Call) (s : SimpleTestStrategy) :
  forallb observes ticks = true →
  ∃ e1 updates e2,
    trace (EnterTrade now1 :: ticks ++ [EnterTrade now2]) s = e1 :: updates ++ [e2]
    ∧ position e1 = OPEN
    ∧ Forall (λ e, position e = UPDATE) updates
    ∧ position e2 = OPEN.
Proof.
  intros Hticks. cbn [trace]. rewrite trace_app. cbn [trace].
  destruct (enter_trade_opens now1 s) as (e1 & -> & H1).
  destruct (enter_trade_opens now2 (run ticks (after (step (EnterTrade now1) s))))
    as (e2 & -> & H2).
  exists e1, (trace ticks (after (step (EnterTrade now1) s))), e2.
  rewrite app_nil_r. split; [done|]. split; [done|]. split; [|done].
  by apply trace_observes.
Qed.


(** X17.  [should_suppress_heartbeat] answers [True] exactly when
    [simulate_offline] is set, a trade is entered and the time since entry,
    the float [total_seconds] returns, is at least [offline_start_delay] and
    less than the float sum [offline_start_delay + offline_duration]; it
    broadcasts nothing and changes nothing but its two debug flags. *)
Theorem heartbeat_suppression_window now (s : SimpleTestStrategy) :
  ∃ a b answer,
    after (call (should_suppress_heartbeat now) s) = set_logged a b s
    ∧ emitted (call (should_suppress_heartbeat now) s) = []
    ∧ result (call (should_suppress_heartbeat now) s) = inr answer
    ∧ (answer = true ↔
       simulate_offline (params s) = true
       ∧ ∃ entry,
           entry_time (pos s) = Some entry
           ∧ (binary64 (offline_start_delay (params s)) <= total_seconds (now - entry))%Q
           ∧ (total_seconds (now - entry)
              < float_add (offline_start_delay (params s)) (offline_duration (params s)))%Q).
Proof.
  destruct (should_suppress_heartbeat_run now s) as (a & b & lines & Hrun).
  exists a, b, (offline_window_active s now). unfold call. rewrite Hrun.
  cbn [fst snd self broadcasts logs]. split_and!; try done.
  unfold offline_window_active. rewrite andb_true_iff.
  destruct (entry_time (pos s)) as [entry|].
  - rewrite andb_true_iff, Qle_bool_iff, Qltb_lt. split.
    + intros (? & ? & ?). split; [done|]. by exists entry.
    + intros (? & entry' & [= <-] & ? & ?). done.
  - split; [by intros [_ ?] | by intros (_ & entry & ? & _)].
Qed.

Lemma test_init_coherent name p : test_trailing_coherent (init name p).
Proof. by intros Ht. Qed.

(** What every call does to the parameters (nothing) and, for the coherence
    of the trailing stop, to the position. *)
Lemma test_step_coherent (c : Call) (s : SimpleTestStrategy) :
  params (after (step c s)) = params s
  ∧ (test_trailing_coherent s → test_trailing_coherent (after (step c s))).
Proof.
  assert (∀ s', params s' = params s → pos s' = pos s ∨ trailed s (pos s') →
                params s' = params s
                ∧ (test_trailing_coherent s → test_trailing_coherent s')) as Hkeep.
  { intros s' Hp Hpos. split; [done|]. intros Hs.
    destruct Hpos as [Hpos | (b & x & Hpos & _)]; unfold test_trailing_coherent, trailed_stop.
    - rewrite Hp, Hpos. apply Hs.
    - rewrite Hp, Hpos. exec. by eauto. }
  destruct (observes c) eqn:Hc.
  { destruct (step_observes c s Hc) as (Hp & Hpos & _). by apply Hkeep. }
  clear Hkeep.
  destruct c as [now| |now|now tick_data|now|now|now]; try discriminate Hc;
    unfold step, call, handler.
  - unfold start, _reset_strategy_state, _update_strategy_state. exec. split; [done|].
    intros _. unfold test_trailing_coherent. exec. by intros Ht.
  - unfold stop, _reset_strategy_state, _update_strategy_state. exec. split; [done|].
    intros _. unfold test_trailing_coherent. exec. by intros Ht.
  - unfold _enter_trade, next_event_id, _update_strategy_state. exec.
    destruct (direction (params s)); exec; (split; [done|]).
    all: intros _; unfold test_trailing_coherent; exec; by intros Ht.
  - unfold _exit_trade_time_limit, next_event_id, _reset_strategy_state, _update_strategy_state.
    exec.
    repeat match goal with
           | |- context [match ?x with _ => _ end] =>
               lazymatch x with
               | context [match _ with _ => _ end] => fail
               | _ => destruct x eqn:?; exec
               end
           end;
      try done.
    all: split; [done|]; intros _; unfold test_trailing_coherent; exec; by intros Ht.
Qed.

Lemma test_run_coherent (calls : list Call) :
  ∀ s, params (run calls s) = params s
       ∧ (test_trailing_coherent s → test_trailing_coherent (run calls s)).
Proof.
  induction calls as [|c rest IH]; intros s; [done|].
  cbn [run]. destruct (IH (after (step c s))) as [-> Hrest].
  destruct (test_step_coherent c s) as [-> Hstep]. by auto.
Qed.

(** X18.  In every [SimpleTestStrategy] reached from [__init__], once
    trailing is active a tick or a heartbeat call leaves the stop where it
    was or moves it up for a LONG and down for a SHORT, and leaves trailing
    active. *)
Theorem test_trailing_stop_never_loosened (name : string) (p : Params)
    (calls : list Call) (c : Call) (stop : Q) :
  observes c = true →
  trailing_stop_active (pos (run calls (init name p))) = true →
  stop_loss_price (pos (run calls (init name p))) = Some stop →
  ∃ stop',
    stop_loss_price (pos (after (step c (run calls (init name p))))) = Some stop'
    ∧ trailing_stop_active (pos (after (step c (run calls (init name p))))) = true
    ∧ match direction p with
      | LONG => (stop <= stop')%Q
      | SHORT => (stop' <= stop)%Q
      end.
Proof.
  destruct (test_run_coherent calls (init name p)) as [Hparams Hcoh].
  cbn [init params] in Hparams.
  generalize dependent (run calls (init name p)). intros s Hparams Hcoh Hc Hactive Hstop.
  destruct (Hcoh (test_init_coherent name p) Hactive) as (peak & Hpeak & Hsl).
  assert (stop = trailed_stop s peak) as -> by congruence.
  destruct (step_observes c s Hc) as (_ & [-> | (b & x & -> & Hb)] & _).
  - exists (trailed_stop s peak). split; [done|]. split; [done|].
    destruct (direction p); apply Qle_refl.
  - exec. exists (trailed_stop s x). split; [done|].
    destruct b; [congruence|]. split; [by destruct Hb|].
    destruct Hb as (_ & old & Hold & Hlt).
    assert (old = peak) as -> by congruence.
    unfold trailed_stop. rewrite Hparams in *. destruct (direction p); lra.
Qed.

Lemma test_step_numbered (c : Call) (s : SimpleTestStrategy) :
  test_numbered s (after (step c s)) (emitted (step c s)).
Proof.
  assert (∀ s' : SimpleTestStrategy,
            instance_name s' = instance_name s → event_counter s' = event_counter s →
            test_numbered s s' []) as Hquiet.
  { intros s' Hname Hcounter. unfold test_numbered. cbn [length].
    split_and!; [done | lia | by intros e He%elem_of_nil]. }
  assert (∀ (s' : SimpleTestStrategy) (e : Event),
            instance_name s' = instance_name s → event_counter s' = event_counter s + 1 →
            (event_id e).1 = (instance_name s, event_counter s + 1) →
            test_numbered s s' [e]) as Hone.
  { intros s' e Hname Hcounter Hid. unfold test_numbered. cbn [length].
    split_and!; [done | lia | by intros e' ->%list_elem_of_singleton]. }
  destruct c as [now| |now|now tick_data|now|now|now]; unfold step, call, handler.
  - unfold start, _reset_strategy_state, _update_strategy_state. exec. by apply Hquiet.
  - unfold stop, _reset_strategy_state, _update_strategy_state. exec. by apply Hquiet.
  - unfold _enter_trade, next_event_id, _update_strategy_state. exec.
    destruct (direction (params s)); exec; by apply Hone.
  - destruct (process_tick_effect now tick_data s) as (_ & Hname & _ & Hcounter & _ & _ & _ & Hevs).
    unfold step, call, handler in *. unfold test_numbered. split_and!; try done.
    intros e He. by destruct (Hevs e He) as (? & _ & Hid & _).
  - unfold _exit_trade_time_limit, next_event_id, _reset_strategy_state, _update_strategy_state.
    exec.
    repeat match goal with
           | |- context [match ?x with _ => _ end] =>
               lazymatch x with
               | context [match _ with _ => _ end] => fail
               | _ => destruct x eqn:?; exec
               end
           end;
      try (by apply Hquiet).
    all: by apply Hone.
  - destruct (should_suppress_heartbeat_run now s) as (a & b & lines' & Hrun).
    exec. rewrite Hrun. exec. by apply Hquiet.
  - unfold get_strategy_state. exec. run_window. exec.
    destruct (offline_window_active s now), (_offline_frozen_state s) eqn:Hfrozen; exec.
    all: repeat (rewrite Hfrozen; exec).
    all: by apply Hquiet.
Qed.

(** X19.  Events of a [SimpleTestStrategy] are numbered without gaps in
    their ids, though not in seq: the k-th event (from 0) broadcast during
    any sequence of calls has an id that starts with the instance name and
    [event_counter + k + 1]; a broadcast suppressed in the offline window
    takes a seq but no counter value.  Nothing is said of the milliseconds
    that end the id. *)
Theorem test_events_numbered_consecutively (calls : list Call) :
  ∀ (s : SimpleTestStrategy) (k : nat) (e : Event),
    trace calls s !! k = Some e →
    (event_id e).1 = (instance_name s, event_counter s + Z.of_nat k + 1).
Proof.
  induction calls as [|c rest IH]; intros s k e Hk; [done|].
  cbn [trace] in Hk.
  destruct (test_step_numbered c s) as (Hname & Hcounter & Hevs).
  destruct (emitted (step c s)) as [|e0 evs].
  - cbn [app length] in *. rewrite (IH _ _ _ Hk), Hname, Hcounter. f_equal. lia.
  - destruct (Hevs e0) as [[= ->] Hid]; [by left|].
    cbn [length] in Hcounter.
    destruct k as [|k]; cbn [app lookup list_lookup] in Hk.
    + injection Hk as <-. rewrite Hid. f_equal. lia.
    + rewrite (IH _ _ _ Hk), Hname, Hcounter. f_equal. lia.
Qed.

End TestProperties.

Section TestWitnesses.
Import Test.



Lemma tick_broadcast_follows_window_witness :
  emitted (step (RT := sample_runtime) (ProcessTick (seconds 11) (tick_at 51000)) test_entered)
  = []
  ∧ _state_sequence
      (after (step (RT := sample_runtime) (ProcessTick (seconds 11) (tick_at 51000))
                test_entered)) = 3
  (* delay 0.1 and duration 0.2: the window is still open 0.3 s after entry *)
  ∧ emitted (step (RT := sample_runtime) (ProcessTick 300000 (tick_at 51000))
               (test_entered_offline 0.1 0.2))
    = []
  ∧ _state_sequence
      (after (step (RT := sample_runtime) (ProcessTick 300000 (tick_at 51000))
                (test_entered_offline 0.1 0.2))) = 3.
Proof.
  split; [|split; [vm_compute; reflexivity|split; [|vm_compute; reflexivity]]].
  - apply (tick_broadcast_follows_window (RT := sample_runtime) (seconds 11) (tick_at 51000)
             test_entered).
    vm_compute. reflexivity.
  - apply (tick_broadcast_follows_window (RT := sample_runtime) 300000 (tick_at 51000)
             (test_entered_offline 0.1 0.2)).
    vm_compute. reflexivity.
Defined.

Lemma ticks_never_close_test_position_witness :
  entry_price
    (pos (run (RT := sample_runtime) [ProcessTick (seconds 1) (tick_at 40000)] test_entered))
  = entry_price (pos test_entered).
Proof.
  apply (ticks_never_close_test_position (RT := sample_runtime)
           [ProcessTick (seconds 1) (tick_at 40000)] test_entered).
  reflexivity.
Defined.

Lemma process_tick_price_field_witness :
  step (RT := sample_runtime) (ProcessTick 0 {[ "price" := PyNone ]}) test_entered
  = {| after := test_entered; emitted := []; logged := []; result := inl TypeError |}.
Proof.
  apply (process_tick_price_field (RT := sample_runtime) 0 {[ "price" := PyNone ]}
           test_entered PyNone).
  - left. vm_compute. reflexivity.
  - reflexivity.
Defined.

Lemma exit_event_has_no_entry_price_witness :
  ∃ e, emitted (step (RT := sample_runtime) (ExitTradeTimeLimit (seconds 60)) test_entered)
       = [e]
       ∧ ∃ d price pnl pct, event_data e = TimeLimitData d None price pnl pct.
Proof.
  eexists. split; [vm_compute; reflexivity|].
  match goal with
  | |- ∃ d price pnl pct, event_data ?e = _ =>
      destruct (exit_event_has_no_entry_price (RT := sample_runtime) (seconds 60)
                  test_entered e) as (entry & price & _ & _ & He & _)
  end.
  { apply (list_elem_of_lookup_2 _ 0%nat). vm_compute. reflexivity. }
  rewrite He. eexists _, _, _, _. reflexivity.
Defined.

Lemma enter_trade_has_no_guard_witness :
  ∃ e1 updates e2,
    trace (RT := sample_runtime)
      (EnterTrade 0 :: [ProcessTick (seconds 1) (tick_at 51000)] ++ [EnterTrade (seconds 2)])
      (init "TestStrategy" default_params)
    = e1 :: updates ++ [e2]
    ∧ position e1 = OPEN
    ∧ Forall (λ e, position e = UPDATE) updates
    ∧ position e2 = OPEN.
Proof.
  apply (enter_trade_has_no_guard (RT := sample_runtime) 0 (seconds 2)
           [ProcessTick (seconds 1) (tick_at 51000)] (init "TestStrategy" default_params)).
  reflexivity.
Defined.

Lemma heartbeat_suppression_window_witness :
  (* 0.3 s after entry: inside the window of 0.1 + 0.2, outside that of
     0.25 + 0.05 *)
  result (call (should_suppress_heartbeat 300000) (test_entered_offline 0.1 0.2)) = inr true
  ∧ result (call (should_suppress_heartbeat 300000) (test_entered_offline 0.25 0.05))
    = inr false.
Proof.
  split.
  - destruct (heartbeat_suppression_window 300000 (test_entered_offline 0.1 0.2))
      as (a & b & answer & _ & _ & Hres & Hiff).
    rewrite Hres. f_equal. apply Hiff. split; [reflexivity|].
    exists 0. split; [reflexivity|].
    split; [apply Qle_bool_iff | apply Qltb_lt]; vm_compute; reflexivity.
  - destruct (heartbeat_suppression_window 300000 (test_entered_offline 0.25 0.05))
      as (a & b & answer & _ & _ & Hres & Hiff).
    rewrite Hres. f_equal. destruct answer; [|reflexivity].
    destruct Hiff as [Hwindow _].
    destruct (Hwindow eq_refl) as (_ & entry & Hentry & _ & Hlt).
    vm_compute in Hentry. injection Hentry as <-.
    apply Qltb_lt in Hlt. vm_compute in Hlt. discriminate.
Defined.

Lemma test_trailing_stop_never_loosened_witness :
  ∃ stop',
    stop_loss_price
      (pos (after (step (RT := sample_runtime) (ProcessTick (seconds 2) (tick_at 52000))
                     (run (RT := sample_runtime)
                        [Start 0; EnterTrade 0; ProcessTick (seconds 1) (tick_at 51000)]
                        (init "TestStrategy" default_params))))) = Some stop'
    ∧ trailing_stop_active
        (pos (after (step (RT := sample_runtime) (ProcessTick (seconds 2) (tick_at 52000))
                       (run (RT := sample_runtime)
                          [Start 0; EnterTrade 0; ProcessTick (seconds 1) (tick_at 51000)]
                          (init "TestStrategy" default_params))))) = true
    ∧ (50100 <= stop')%Q.
Proof.
  apply (test_trailing_stop_never_loosened (RT := sample_runtime) "TestStrategy" default_params
           [Start 0; EnterTrade 0; ProcessTick (seconds 1) (tick_at 51000)]
           (ProcessTick (seconds 2) (tick_at 52000)) 50100);
    vm_compute; reflexivity.
Defined.

Lemma test_events_numbered_consecutively_witness :
  ∃ e, trace (RT := sample_runtime)
         [Start 0; EnterTrade 0; ProcessTick (seconds 11) (tick_at 51000);
          ProcessTick (seconds 21) (tick_at 52000)]
         (init "TestStrategy" default_params) !! 1%nat = Some e
       ∧ (event_id e).1 = ("TestStrategy"%string, 2)
       ∧ state_seq (ev_strategy_state e) = Some 4.
Proof.
  eexists. split; [vm_compute; reflexivity|]. split; [|vm_compute; reflexivity].
  apply (test_events_numbered_consecutively (RT := sample_runtime)
           [Start 0; EnterTrade 0; ProcessTick (seconds 11) (tick_at 51000);
            ProcessTick (seconds 21) (tick_at 52000)]
           (init "TestStrategy" default_params) 1%nat).
  vm_compute. reflexivity.
Defined.

End TestWitnesses.

(** ** The sequencer, in both strategies *)

Section Sequencer.
Context {RT : Runtime}.







End Sequencer.



(** ** [IPCUIServer] *)

Section ServerProperties.
Import Server.
Context {RT : Runtime}.

(** X20.  The wait [poll_oracle_api_predictions] computes is always
    positive, never more than 300 seconds, and ends 45 seconds past a
    five-minute boundary: the test [seconds_until_next > 0] never fails, and
    a poll made at second 45 of a boundary minute waits the full five
    minutes. *)
Theorem oracle_poll_schedule (now : Z) :
  0 < seconds_until_next (minute now) (second now) ≤ 300
  ∧ (now / usec_per_sec + seconds_until_next (minute now) (second now)) mod 300 = 45.
Proof.
  unfold seconds_until_next, minute, second.
  cbv [usec_per_hour usec_per_sec].
  repeat case_match;
    repeat match goal with
           | H : _ && _ = true |- _ => apply andb_true_iff in H as [? ?]
           | H : _ && _ = false |- _ => apply andb_false_iff in H
           | H : (_ =? _) = true |- _ => apply Z.eqb_eq in H
           | H : (_ =? _) = false |- _ => apply Z.eqb_neq in H
           | H : (_ <=? _) = true |- _ => apply Z.leb_le in H
           | H : (_ <=? _) = false |- _ => apply Z.leb_gt in H
           end.
  all: Z.div_mod_to_equations; lia.
Qed.


Lemma should_suppress_heartbeat_call now (s : Test.SimpleTestStrategy) :
  ∃ a b lines,
    call (Test.should_suppress_heartbeat now) s
    = {| after := Test.set_logged a b s; emitted := []; logged := lines;
         result := inr (offline_window_active s now) |}.
Proof.
  destruct (should_suppress_heartbeat_run now s) as (a & b & lines & Hrun).
  exists a, b, lines. unfold call. by rewrite Hrun.
Qed.

Lemma get_strategy_state_call now (s : Test.SimpleTestStrategy) :
  ∃ s' lines,
    call (Test.get_strategy_state now) s
    = {| after := s'; emitted := []; logged := lines;
         result := inr (if offline_window_active s now
                        then default (Test.strategy_state s) (Test._offline_frozen_state s)
                        else Test.strategy_state s) |}
    ∧ Test._offline_frozen_state s'
      = (if offline_window_active s now
         then Some (default (Test.strategy_state s) (Test._offline_frozen_state s))
         else None)
    ∧ Test.params s' = Test.params s ∧ Test.pos s' = Test.pos s
    ∧ Test.strategy_state s' = Test.strategy_state s
    ∧ Test._state_sequence s' = Test._state_sequence s.
Proof.
  destruct (get_strategy_state_run now s) as (s' & lines & Hrun & Hfrozen & Hrest).
  exists s', lines. unfold call. rewrite Hrun, Hfrozen. cbn [fst snd self broadcasts logs].
  by destruct (offline_window_active s now), (Test._offline_frozen_state s).
Qed.

(** X21.  A turn of the heartbeat loop broadcasts nothing or one heartbeat
    tagged with the runtime id and the send time; it leaves the server's
    other attributes alone, an [IPCStrategy] untouched, and of a
    [SimpleTestStrategy] the parameters, the position fields, the state dict
    and seq. *)
Theorem heartbeat_reads_only (t_check t_state t_send : Z) (srv : IPCUIServer) :
  test_mode (_heartbeat_loop t_check t_state t_send srv).1 = test_mode srv
  ∧ runtime_id (_heartbeat_loop t_check t_state t_send srv).1 = runtime_id srv
  ∧ latest_tick (_heartbeat_loop t_check t_state t_send srv).1 = latest_tick srv
  ∧ same_published_state (strategy srv)
      (strategy (_heartbeat_loop t_check t_state t_send srv).1)
  ∧ ((_heartbeat_loop t_check t_state t_send srv).2 = []
     ∨ ∃ name st,
         (_heartbeat_loop t_check t_state t_send srv).2
         = [StrategyHeartbeat name (runtime_id srv) t_send st]).
Proof.
  unfold _heartbeat_loop.
  destruct (strategy srv) as [[s|s]|] eqn:Hstrategy; cbn [fst snd].
  - rewrite Hstrategy. cbn. split_and!; try done. right. by eexists _, _.
  - destruct (should_suppress_heartbeat_call t_check s) as (a & b & lines & ->).
    cbn [after result].
    destruct (get_strategy_state_call t_state (Test.set_logged a b s))
      as (s' & lines' & -> & _ & Hp & Hpos & Hst & Hseq).
    cbn [after result].
    destruct (offline_window_active s t_check); cbn [fst snd set_strategy test_mode runtime_id
      latest_tick strategy same_published_state].
    + split_and!; try done. by left.
    + split_and!; try done. right. by eexists _, _.
  - rewrite Hstrategy. cbn. split_and!; try done. by left.
Qed.

(** X22.  What a heartbeat carries.  For an [IPCStrategy] it is the state
    dict as it is.  For a [SimpleTestStrategy] that holds no frozen
    snapshot, the turn sends nothing when the suppression check finds the
    offline window active, and otherwise sends the live state dict; a
    snapshot is frozen only if the window opens between the check and the
    read of the state, and is then that same live dict. *)
Theorem heartbeat_carries_live_state (t_check t_state t_send : Z) (srv : IPCUIServer) :
  (∀ s, strategy srv = Some (IPCInstance s) →
        (_heartbeat_loop t_check t_state t_send srv).2
        = [StrategyHeartbeat (heartbeat_name srv) (runtime_id srv) t_send
             (IPC.strategy_state s)])
  ∧ (∀ s, strategy srv = Some (TestInstance s) →
          Test._offline_frozen_state s = None →
          ∃ s',
            strategy (_heartbeat_loop t_check t_state t_send srv).1 = Some (TestInstance s')
            ∧ (_heartbeat_loop t_check t_state t_send srv).2
              = (if offline_window_active s t_check then []
                 else [StrategyHeartbeat (heartbeat_name srv) (runtime_id srv) t_send
                         (Test.strategy_state s)])
            ∧ Test._offline_frozen_state s'
              = (if negb (offline_window_active s t_check) && offline_window_active s t_state
                 then Some (Test.strategy_state s)
                 else None)).
Proof.
  unfold _heartbeat_loop. split.
  - by intros s ->.
  - intros s -> Hnone.
    destruct (should_suppress_heartbeat_call t_check s) as (a & b & lines & ->).
    cbn [after result].
    destruct (get_strategy_state_call t_state (Test.set_logged a b s))
      as (s' & lines' & -> & Hfrozen & _).
    cbn [after result]. cbn [Test.set_logged Test._offline_frozen_state Test.strategy_state]
      in Hfrozen |- *.
    change (offline_window_active (Test.set_logged a b s) t_state)
      with (offline_window_active s t_state) in *.
    rewrite Hnone in Hfrozen |- *. cbn [default] in *.
    destruct (offline_window_active s t_check); cbn [fst snd set_strategy strategy negb andb].
    + by eexists.
    + exists s'. split; [done|]. split; [|done].
      by destruct (offline_window_active s t_state).
Qed.

(** X23.  The tick relay records every tick as [latest_tick] and
    broadcasts it as a trade before anything the strategy does with it.
    With an [IPCStrategy] the body never ends in an exception.  With a
    [SimpleTestStrategy] a price that raises [ValueError] is survived, one
    that raises [TypeError] ends the body after the trade message: the
    exception reaches the handler that drops the connection. *)
Theorem relay_outcome now tick_data (srv : IPCUIServer) :
  latest_tick (start_binance_tick_stream now tick_data srv).1.1 = Some tick_data
  ∧ head (start_binance_tick_stream now tick_data srv).1.2 = Some (Trade tick_data)
  ∧ (∀ s, strategy srv = Some (IPCInstance s) →
          (start_binance_tick_stream now tick_data srv).2 = Continue)
  ∧ (∀ s v, strategy srv = Some (TestInstance s) →
            tick_data !! "price" = Some v
            ∨ (tick_data !! "price" = None ∧ tick_data !! "p" = Some v) →
            (py_float v = inl ValueError →
             (start_binance_tick_stream now tick_data srv).2 = Continue)
            ∧ (py_float v = inl TypeError →
               start_binance_tick_stream now tick_data srv
               = ((set_latest_tick (Some tick_data) srv, [Trade tick_data]),
                  Reconnect TypeError))).
Proof.
  unfold start_binance_tick_stream.
  cbn [set_latest_tick strategy].
  split_and!.
  - by destruct (strategy srv) as [[s|s]|].
  - by destruct (strategy srv) as [[s|s]|].
  - intros s ->. cbn [snd].
    by destruct (step_cases (IPC.CheckPositionManagement now tick_data) s) as [-> _].
  - intros s v Hs Hfield. rewrite Hs.
    assert (∀ e, py_float v = inl e →
                 Test.step (Test.ProcessTick now tick_data) s
                 = call (try_except Test.ValueError_or_KeyError (raise e)
                           (λ e, log "WARNING" (Test.FailedToParseTick e))) s) as Hstep.
    { intros e He. unfold Test.step, Test.handler, Test.process_tick.
      destruct Hfield as [-> | [-> ->]]; by rewrite He. }
    split; intros He; rewrite (Hstep _ He); [done|].
    destruct srv as [mode id tick strat]. cbn in Hs |- *. by rewrite Hs.
Qed.

End ServerProperties.

Section ServerWitnesses.
Import Server.

Lemma heartbeat_carries_live_state_witness :
  (_heartbeat_loop (seconds 11) (seconds 11) (seconds 11) sample_server).2 = []
  ∧ (_heartbeat_loop (seconds 5) (seconds 5) (seconds 5) sample_server).2
    = [StrategyHeartbeat "TestStrategy" "host-1-0" (seconds 5)
         (Test.strategy_state test_entered)].
Proof.
  split.
  - destruct (heartbeat_carries_live_state (seconds 11) (seconds 11) (seconds 11) sample_server)
      as [_ Htest].
    destruct (Htest test_entered eq_refl eq_refl) as (s' & _ & -> & _).
    vm_compute. reflexivity.
  - destruct (heartbeat_carries_live_state (seconds 5) (seconds 5) (seconds 5) sample_server)
      as [_ Htest].
    destruct (Htest test_entered eq_refl eq_refl) as (s' & _ & -> & _).
    vm_compute. reflexivity.
Defined.

Lemma relay_outcome_witness :
  (start_binance_tick_stream (RT := sample_runtime) 0 {[ "price" := PyNone ]} sample_server).2
  = Reconnect TypeError.
Proof.
  destruct (relay_outcome (RT := sample_runtime) 0 {[ "price" := PyNone ]} sample_server)
    as (_ & _ & _ & Htest).
  destruct (Htest test_entered PyNone eq_refl) as [_ Htype];
    [left; vm_compute; reflexivity|].
  rewrite Htype; reflexivity.
Defined.

End ServerWitnesses.
